(** * The Olist ETL pipeline: a shallow embedding and its properties

    The pipeline of [pipeline_olist.py] and [prefect_pipeline.py] reads four
    CSV relations with pandas, cleans and left-joins them, loads a master
    table and builds four grouped summaries.  The relations are modelled as
    lists of typed rows, a null cell ([NaN], [None], [NaT]) as [None], a
    float as an exact rational, and the pandas operations the source calls
    ([dropna], [merge], [groupby], [agg]) as list functions in [Module pd]. *)

From Stdlib Require Import List String Ascii Bool Arith ZArith QArith Lia
  Permutation Sorted DecimalString.
Import ListNotations.

Close Scope Q_scope.
Open Scope string_scope.
Open Scope list_scope.
Set Implicit Arguments.

(* ------------------------------------------------------------------ *)
(** ** Keys: the values a frame is joined or grouped on *)

Class Key (K : Type) := {
  key_dec : forall x y : K, {x = y} + {x <> y};
  key_leb : K -> K -> bool
}.

Definition key_eqb {K} `{Key K} (x y : K) : bool :=
  if key_dec x y then true else false.

#[export] Instance string_Key : Key string :=
  {| key_dec := string_dec; key_leb := String.leb |}.

Definition option_dec {K} `{Key K} (x y : option K) : {x = y} + {x <> y}.
Proof. decide equality. apply key_dec. Defined.

(** pandas orders a missing value after every present one. *)
Definition option_leb {K} `{Key K} (x y : option K) : bool :=
  match x, y with
  | Some a, Some b => key_leb a b
  | Some _, None => true
  | None, Some _ => false
  | None, None => true
  end.

#[export] Instance option_Key {K} `{Key K} : Key (option K) :=
  {| key_dec := option_dec; key_leb := option_leb |}.

Definition prod_dec {K1 K2} `{Key K1} `{Key K2} (x y : K1 * K2) :
  {x = y} + {x <> y}.
Proof. decide equality; apply key_dec. Defined.

(** Tuples of keys are ordered lexicographically. *)
Definition prod_leb {K1 K2} `{Key K1} `{Key K2} (x y : K1 * K2) : bool :=
  if key_dec (fst x) (fst y) then key_leb (snd x) (snd y)
  else key_leb (fst x) (fst y).

#[export] Instance prod_Key {K1 K2} `{Key K1} `{Key K2} : Key (K1 * K2) :=
  {| key_dec := prod_dec; key_leb := prod_leb |}.

#[export] Instance Z_Key : Key Z :=
  {| key_dec := Z.eq_dec; key_leb := Z.leb |}.

(* ------------------------------------------------------------------ *)
(** ** What the pipeline takes from its environment

    The parser behind [pd.to_datetime] and the floating-point square root
    behind ['std'] are parameters: [parse_datetime s] is the instant that
    [pd.to_datetime] makes of the text [s] of a cell, in nanoseconds since
    the epoch, or [None] when it does not parse the text. *)

Class Env := {
  parse_datetime : string -> option Z;
  float_sqrt : Q -> Q
}.

(* ------------------------------------------------------------------ *)
(** ** The pandas operations used by the pipeline *)

Module pd.

Definition isna {B} (v : option B) : bool :=
  match v with None => true | Some _ => false end.

Definition notna {B} (v : option B) : bool := negb (isna v).

(** [df.dropna(subset=cols)]: a new frame with the rows in which every
    column of [subset] is present. *)
Definition dropna {A B} (subset : list (A -> option B)) (df : list A)
  : list A :=
  filter (fun r => forallb (fun c => notna (c r)) subset) df.

(** [left.merge(right, on=key, how="left")].  A row of the result is a left
    row with the right row it matched, or with no right row, in which case
    the right-hand columns read as null.  Rows come in the order of the left
    frame and, for one left row, in the order of the right frame.  The key
    cells are compared as pandas does, a null key matching a null key. *)
Definition merge {L R K} `{Key K} (on_l : L -> K) (on_r : R -> K)
    (left : list L) (right : list R) : list (L * option R) :=
  flat_map
    (fun l =>
       match filter (fun r => key_eqb (on_l l) (on_r r)) right with
       | [] => [(l, None)]
       | ms => map (fun r => (l, Some r)) ms
       end)
    left.

(** A column of the right frame read from a merged row. *)
Definition right_col {R B} (col : R -> option B) (r : option R) : option B :=
  match r with Some x => col x | None => None end.

Fixpoint insert_key {K} `{Key K} (k : K) (ks : list K) : list K :=
  match ks with
  | [] => [k]
  | k' :: ks' => if key_leb k k' then k :: ks else k' :: insert_key k ks'
  end.

Definition sort_keys {K} `{Key K} (ks : list K) : list K :=
  fold_right insert_key [] ks.

(** The keys of the groups of [df.groupby(key)]: the distinct keys of the
    rows, without the null ones ([dropna=True], the default), in sorted
    order ([sort=True], the default). *)
Definition group_keys {A K} `{Key K} (key : A -> option K) (df : list A)
  : list K :=
  sort_keys (nodup key_dec (flat_map (fun r => match key r with
                                               | Some k => [k]
                                               | None => []
                                               end) df)).

Definition in_group {A K} `{Key K} (key : A -> option K) (k : K) (r : A)
  : bool :=
  match key r with Some k' => key_eqb k k' | None => false end.

(** [df.groupby(key)]: each group key with its rows, in frame order. *)
Definition groupby {A K} `{Key K} (key : A -> option K) (df : list A)
  : list (K * list A) :=
  map (fun k => (k, filter (in_group key k) df)) (group_keys key df).

(** The values of a column that are present: every reduction below skips
    the missing ones ([skipna=True]). *)
Fixpoint values {A B} (col : A -> option B) (g : list A) : list B :=
  match g with
  | [] => []
  | r :: g' => match col r with
               | Some v => v :: values col g'
               | None => values col g'
               end
  end.

(** ['count']: the number of non-null cells. *)
Fixpoint count {A B} (col : A -> option B) (g : list A) : nat :=
  match g with
  | [] => 0
  | r :: g' => if isna (col r) then count col g' else S (count col g')
  end.

(** ['nunique']: the number of distinct non-null cells. *)
Definition nunique {A K} `{Key K} (col : A -> option K) (g : list A) : nat :=
  List.length (nodup key_dec (values col g)).

(** ['sum']: the sum of the non-null cells, 0 when there is none.  The sum
    is exact, where pandas rounds each addition to a double. *)
Fixpoint sum {A} (col : A -> option Q) (g : list A) : Q :=
  match g with
  | [] => 0%Q
  | r :: g' => match col r with
               | Some v => (v + sum col g')%Q
               | None => sum col g'
               end
  end.

(** ['mean']: null when the group has no non-null cell; an exact quotient,
    where pandas divides doubles. *)
Definition mean {A} (col : A -> option Q) (g : list A) : option Q :=
  match count col g with
  | O => None
  | n => Some (sum col g / inject_Z (Z.of_nat n))%Q
  end.

(** ['min'] and ['max']: null when the group has no non-null cell. *)
Fixpoint min {A K} `{Key K} (col : A -> option K) (g : list A) : option K :=
  match g with
  | [] => None
  | r :: g' =>
      match col r, min col g' with
      | Some v, Some m => Some (if key_leb v m then v else m)
      | Some v, None => Some v
      | None, m => m
      end
  end.

Fixpoint max {A K} `{Key K} (col : A -> option K) (g : list A) : option K :=
  match g with
  | [] => None
  | r :: g' =>
      match col r, max col g' with
      | Some v, Some m => Some (if key_leb v m then m else v)
      | Some v, None => Some v
      | None, m => m
      end
  end.

(** An integer column read as floats. *)
Definition as_float {A} (col : A -> option Z) (r : A) : option Q :=
  match col r with Some z => Some (inject_Z z) | None => None end.

(** The median of a sorted list of integers. *)
Definition middle (sorted : list Z) : option Q :=
  match List.length sorted with
  | O => None
  | n =>
      if Nat.even n
      then Some ((inject_Z (nth (n / 2 - 1) sorted 0%Z)
                  + inject_Z (nth (n / 2) sorted 0%Z)) / 2)%Q
      else Some (inject_Z (nth (n / 2) sorted 0%Z))
  end.

(** ['median'] of an integer column, over its non-null cells. *)
Definition median {A} (col : A -> option Z) (g : list A) : option Q :=
  middle (sort_keys (values col g)).

(** The sum of the squared deviations from [m]. *)
Fixpoint sum_sq_dev (m : Q) (vs : list Q) : Q :=
  match vs with
  | [] => 0%Q
  | v :: vs' => ((v - m) * (v - m) + sum_sq_dev m vs')%Q
  end.

(** ['std']: the sample standard deviation ([ddof=1]) of the non-null cells,
    null when there are fewer than two. *)
Definition std `{Env} {A} (col : A -> option Q) (g : list A) : option Q :=
  match count col g with
  | O => None
  | S O => None
  | S n =>
      match mean col g with
      | Some m =>
          Some (float_sqrt (sum_sq_dev m (values col g)
                            / inject_Z (Z.of_nat n))%Q)
      | None => None
      end
  end.

(** [pd.to_datetime(column, errors='coerce')] on one cell: a null or
    unparseable cell gives [NaT]. *)
Definition to_datetime `{Env} (v : option string) : option Z :=
  match v with Some s => parse_datetime s | None => None end.

Definition ns_per_day : Z := 86400000000000.

(** [(delivered - purchase).dt.days] on one row: the days component of the
    difference, [NaN] when either instant is [NaT]. *)
Definition days_between (delivered purchase : option Z) : option Z :=
  match delivered, purchase with
  | Some d, Some p => Some ((d - p) / ns_per_day)%Z
  | _, _ => None
  end.

(** [a / b * 100] on two integer cells; a zero denominator gives a value that
    is not a finite number, modelled as null. *)
Definition percent (a b : nat) : option Q :=
  match b with
  | O => None
  | _ => Some (inject_Z (Z.of_nat a) / inject_Z (Z.of_nat b) * 100)%Q
  end.

(** [fillna(0)] on a numeric cell. *)
Definition fillna (v : option Q) : option Q :=
  match v with None => Some 0%Q | Some _ => v end.

End pd.

(* ------------------------------------------------------------------ *)
(** ** Cells

    A cell of a frame as a row hands it to Python: null, a text, a float or
    an integer.  [pd.read_csv] is called without [dtype], so the cells of a
    column are of one kind: integers when every cell is a whole number,
    floats when every cell is a number or empty, and texts otherwise. *)

Inductive value :=
| Null
| Str (s : string)
| Float (q : Q)
| Int (z : Z).

Definition value_isna (v : value) : bool :=
  match v with Null => true | _ => false end.

(* ------------------------------------------------------------------ *)
(** ** The four source relations

    The columns are the ones the pipeline reads; identifiers and the other
    text columns are strings, prices and payments are floats, the two
    timestamps of an order are the text read from the CSV file.  The zip
    code prefix is the one column the pipeline only passes on to the master
    table: it is kept as the cell the frame holds, an integer for the
    digits of the Olist file. *)

Module Customer.
Record t := mk {
  customer_id : option string;
  customer_zip_code_prefix : value;
  customer_city : option string;
  customer_state : option string
}.
End Customer.

Module Order.
Record t := mk {
  order_id : option string;
  customer_id : option string;
  order_status : option string;
  order_purchase_timestamp : option string;
  order_delivered_customer_date : option string
}.
End Order.

Module OrderItem.
Record t := mk {
  order_id : option string;
  product_id : option string;
  price : option Q;
  freight_value : option Q
}.
End OrderItem.

Module Payment.
Record t := mk {
  order_id : option string;
  payment_type : option string;
  payment_value : option Q
}.
End Payment.

(** A row of [merged_df]: an order with the customer, the order item and the
    payment it was joined with. *)
Module Merged.
Definition t : Type :=
  ((Order.t * option Customer.t) * option OrderItem.t) * option Payment.t.

Definition order (m : t) : Order.t := fst (fst (fst m)).
Definition customer (m : t) : option Customer.t := snd (fst (fst m)).
Definition item (m : t) : option OrderItem.t := snd (fst m).
Definition payment (m : t) : option Payment.t := snd m.

Definition order_id (m : t) := Order.order_id (order m).
Definition customer_id (m : t) := Order.customer_id (order m).
Definition order_status (m : t) := Order.order_status (order m).
Definition order_purchase_timestamp (m : t) :=
  Order.order_purchase_timestamp (order m).
Definition order_delivered_customer_date (m : t) :=
  Order.order_delivered_customer_date (order m).
Definition customer_zip_code_prefix (m : t) : value :=
  match customer m with
  | Some c => Customer.customer_zip_code_prefix c
  | None => Null
  end.
Definition customer_city (m : t) :=
  pd.right_col Customer.customer_city (customer m).
Definition customer_state (m : t) :=
  pd.right_col Customer.customer_state (customer m).
Definition product_id (m : t) := pd.right_col OrderItem.product_id (item m).
Definition price (m : t) := pd.right_col OrderItem.price (item m).
Definition freight_value (m : t) :=
  pd.right_col OrderItem.freight_value (item m).
Definition payment_type (m : t) :=
  pd.right_col Payment.payment_type (payment m).
Definition payment_value (m : t) :=
  pd.right_col Payment.payment_value (payment m).
End Merged.

(* ------------------------------------------------------------------ *)
(** ** Transform: clean and merge *)

Definition transform_data
    (customers : list Customer.t) (order_items : list OrderItem.t)
    (payments : list Payment.t) (orders : list Order.t)
  : list Merged.t * list Customer.t * list Order.t :=
  let customers := pd.dropna [Customer.customer_id] customers in
  let orders := pd.dropna [Order.order_id; Order.customer_id] orders in
  let order_items := pd.dropna [OrderItem.order_id] order_items in
  let payments := pd.dropna [Payment.order_id] payments in
  let merged_df :=
    pd.merge (fun oci => Order.order_id (fst (fst oci))) Payment.order_id
      (pd.merge (fun oc => Order.order_id (fst oc)) OrderItem.order_id
         (pd.merge Order.customer_id Customer.customer_id orders customers)
         order_items)
      payments in
  (merged_df, customers, orders).


(* ------------------------------------------------------------------ *)
(** ** The three summaries grouped from the merged relation

    A summary frame is the result of [groupby(...).agg(...).reset_index()]:
    one row per group, the group key in the key columns, one cell per named
    aggregation.  A float cell is an [option Q], null being [NaN]; the
    counts are integers. *)

(** The key of a row for [groupby([c1, c2, c3])]: null as soon as one of the
    three cells is. *)
Definition key3 {A} (c1 c2 c3 : A -> option string) (r : A)
  : option (string * string * string) :=
  match c1 r, c2 r, c3 r with
  | Some a, Some b, Some c => Some (a, b, c)
  | _, _, _ => None
  end.

Module SalesSummary.
Record t := mk {
  customer_id : option string;
  customer_state : option string;
  customer_city : option string;
  total_spent : option Q;
  total_orders : nat;
  total_items : nat;
  avg_order_value : option Q;
  avg_price : option Q;
  avg_freight : option Q
}.
End SalesSummary.

Module ProductSummary.
Record t := mk {
  product_id : option string;
  total_orders : nat;
  total_items_sold : nat;
  total_revenue : option Q;
  avg_price : option Q;
  total_freight : option Q;
  avg_freight : option Q
}.
End ProductSummary.

Module StateSummary.
Record t := mk {
  customer_state : option string;
  total_customers : nat;
  total_orders : nat;
  total_revenue : option Q;
  avg_order_value : option Q;
  total_items : nat
}.
End StateSummary.

(** [str(x) if pd.notna(x) else None] on a text cell. *)
Definition str_or_None (x : option string) : option string :=
  match x with Some s => Some s | None => None end.

(** [float(x) if pd.notna(x) else 0.0] on a float cell. *)
Definition float_or_zero (x : option Q) : option Q :=
  match x with Some q => Some q | None => Some 0%Q end.

(** The grouping and aggregation statement of [create_sales_summary], the
    same text in both pipeline files. *)
Definition sales_summary_agg (merged_df : list Merged.t)
  : list SalesSummary.t :=
  map (fun kg =>
         let '(cid, st, city, g) := kg in
         SalesSummary.mk (Some cid) (Some st) (Some city)
           (Some (pd.sum Merged.payment_value g))
           (pd.nunique Merged.order_id g)
           (pd.count Merged.order_id g)
           (pd.mean Merged.payment_value g)
           (pd.mean Merged.price g)
           (pd.mean Merged.freight_value g))
      (pd.groupby (key3 Merged.customer_id Merged.customer_state
                        Merged.customer_city) merged_df).

(** [sales_summary.fillna(0)]: the key cells of a group are never null, so
    only the float cells can be filled. *)
Definition sales_fillna (s : SalesSummary.t) : SalesSummary.t :=
  SalesSummary.mk
    (SalesSummary.customer_id s) (SalesSummary.customer_state s)
    (SalesSummary.customer_city s)
    (pd.fillna (SalesSummary.total_spent s))
    (SalesSummary.total_orders s) (SalesSummary.total_items s)
    (pd.fillna (SalesSummary.avg_order_value s))
    (pd.fillna (SalesSummary.avg_price s))
    (pd.fillna (SalesSummary.avg_freight s)).

(* ------------------------------------------------------------------ *)
(** ** The delivery summary

    [create_delivery_summary] assigns to three columns of the [orders] frame
    it is given: the frame its caller holds is changed.  After the call the
    two timestamp columns hold instants in place of text and the frame has a
    [delivery_days] column; [TimedOrder.t] is a row of such a frame, and
    [OrdersFrame] the state of the caller's [orders_clean] object, in one
    schema or the other. *)

Module TimedOrder.
Record t := mk {
  order_id : option string;
  customer_id : option string;
  order_status : option string;
  order_purchase_timestamp : option Z;
  order_delivered_customer_date : option Z;
  delivery_days : option Z
}.
End TimedOrder.

Inductive OrdersFrame :=
| RawOrders (rows : list Order.t)
| TimedOrders (rows : list TimedOrder.t).

Module DeliverySummary.
Record t := mk {
  customer_state : option string;
  total_orders : nat;
  delivered_orders : nat;
  delivery_rate : option Q;
  avg_delivery_days : option Q;
  median_delivery_days : option Q;
  fastest_delivery : option Z;
  slowest_delivery : option Z;
  std_delivery_days : option Q
}.
End DeliverySummary.

(** The three column assignments on a row read from the CSV file. *)
Definition assign_delivery_columns `{Env} (o : Order.t) : TimedOrder.t :=
  let delivered := pd.to_datetime (Order.order_delivered_customer_date o) in
  let purchase := pd.to_datetime (Order.order_purchase_timestamp o) in
  TimedOrder.mk (Order.order_id o) (Order.customer_id o)
    (Order.order_status o) purchase delivered
    (pd.days_between delivered purchase).

(** The same assignments on a frame whose timestamp columns already hold
    instants, which [pd.to_datetime] returns as they are. *)
Definition reassign_delivery_columns (o : TimedOrder.t) : TimedOrder.t :=
  let delivered := TimedOrder.order_delivered_customer_date o in
  let purchase := TimedOrder.order_purchase_timestamp o in
  TimedOrder.mk (TimedOrder.order_id o) (TimedOrder.customer_id o)
    (TimedOrder.order_status o) purchase delivered
    (pd.days_between delivered purchase).

(** [delivery_data]: the orders joined with their customer. *)
Definition DeliveryRow : Type := TimedOrder.t * option Customer.t.

Definition delivery_state (x : DeliveryRow) : option string :=
  pd.right_col Customer.customer_state (snd x).

Definition delivery_order_id (x : DeliveryRow) : option string :=
  TimedOrder.order_id (fst x).

Definition delivery_days (x : DeliveryRow) : option Z :=
  TimedOrder.delivery_days (fst x).

(** The body of [create_delivery_summary], the same text in both pipeline
    files: the rows inserted into [delivery_summary], and the [orders] frame
    as the call leaves it. *)
Definition delivery_summary_of `{Env} (orders : OrdersFrame)
    (customers : list Customer.t)
  : list DeliverySummary.t * OrdersFrame :=
  let rows :=
    match orders with
    | RawOrders rows => map assign_delivery_columns rows
    | TimedOrders rows => map reassign_delivery_columns rows
    end in
  let orders := TimedOrders rows in
  let delivery_data :=
    pd.merge TimedOrder.customer_id Customer.customer_id rows customers in
  let delivery_summary :=
    map (fun kg =>
           let '(st, g) := kg in
           let total_orders := pd.count delivery_order_id g in
           let delivered_orders := pd.count delivery_days g in
           DeliverySummary.mk (Some st)
             total_orders
             delivered_orders
             (pd.percent delivered_orders total_orders)
             (pd.mean (pd.as_float delivery_days) g)
             (pd.median delivery_days g)
             (pd.min delivery_days g)
             (pd.max delivery_days g)
             (pd.std (pd.as_float delivery_days) g))
        (pd.groupby delivery_state delivery_data) in
  (delivery_summary, orders).

(** The defined delivery latencies of a list of joined orders: one per order
    both of whose timestamps are instants. *)
Definition defined_days (g : list DeliveryRow) : list Z :=
  flat_map (fun x =>
              match TimedOrder.order_delivered_customer_date (fst x),
                    TimedOrder.order_purchase_timestamp (fst x) with
              | Some d, Some p => [((d - p) / pd.ns_per_day)%Z]
              | _, _ => []
              end) g.

(** The joined orders of a state, as the delivery aggregator groups them. *)
Definition delivery_group `{Env} (orders : list Order.t)
    (customers : list Customer.t) (st : string) : list DeliveryRow :=
  filter (fun x => key_eqb (delivery_state x) (Some st))
         (pd.merge TimedOrder.customer_id Customer.customer_id
                   (map assign_delivery_columns orders) customers).

(* ------------------------------------------------------------------ *)
(** ** The master table

    [load_master_table] reads each row of the frame it is given through
    [row.get], so it is modelled on rows that are labelled cells, whatever
    their columns. *)

Module Series.
Definition t : Type := list (string * value).

(** [row.get(column, default)] *)
Fixpoint get (row : t) (column : string) (default : value) : value :=
  match row with
  | [] => default
  | (label, v) :: row' =>
      if string_dec label column then v else get row' column default
  end.
End Series.

(** The parameters of one [INSERT INTO olist_master]: a float is an
    [option Q], [None] being a NaN. *)
Module MasterRow.
Record t := mk {
  order_id : value;
  customer_id : value;
  customer_city : value;
  customer_state : value;
  customer_zip_code_prefix : value;
  order_status : value;
  order_purchase_timestamp : option string;
  order_delivered_customer_date : option string;
  price : option Q;
  freight_value : option Q;
  payment_type : value;
  payment_value : option Q;
  product_id : value
}.
End MasterRow.

(** What [load_master_table] takes from Python and from the database:
    [float(text)], which raises on a text that is not a number ([None]) and
    returns a float that may be a NaN otherwise; [str(float)]; and the
    exception, if any, with which [cursor.execute] rejects an insertion,
    given the rows the table holds. *)
Class Host := {
  float_of_text : string -> option (option Q);
  text_of_float : Q -> string;
  insert_error : list MasterRow.t -> MasterRow.t -> option string
}.

Definition safe_get (row : Series.t) (column : string) (default : value)
  : value :=
  let val := Series.get row column default in
  if value_isna val then default else val.

Definition safe_float `{Host} (val : value) (default : option Q)
  : option Q :=
  match val with
  | Null => default
  | Float q => Some q
  | Int z => Some (inject_Z z)
  | Str s => match float_of_text s with
             | Some x => x
             | None => default
             end
  end.

(** [str(n)] of an integer: its decimal digits. *)
Definition text_of_int (z : Z) : string :=
  NilZero.string_of_int (Z.to_int z).

Definition safe_datetime `{Host} (val : value) : option string :=
  match val with
  | Null => None
  | Str s => Some s
  | Float q => Some (text_of_float q)
  | Int z => Some (text_of_int z)
  end.

(** The tuple of parameters built from a row. *)
Definition master_row `{Host} (row : Series.t) : MasterRow.t :=
  MasterRow.mk
    (safe_get row "order_id" Null)
    (safe_get row "customer_id" Null)
    (safe_get row "customer_city" Null)
    (safe_get row "customer_state" Null)
    (safe_get row "customer_zip_code_prefix" Null)
    (safe_get row "order_status" Null)
    (safe_datetime (safe_get row "order_purchase_timestamp" Null))
    (safe_datetime (safe_get row "order_delivered_customer_date" Null))
    (safe_float (safe_get row "price" Null) (Some 0%Q))
    (safe_float (safe_get row "freight_value" Null) (Some 0%Q))
    (safe_get row "payment_type" Null)
    (safe_float (safe_get row "payment_value" Null) (Some 0%Q))
    (safe_get row "product_id" Null).

(** The connection, as far as [olist_master] goes: the committed rows, the
    rows inserted since the last commit, and the number of commits. *)
Record Connection := {
  committed : list MasterRow.t;
  pending : list MasterRow.t;
  commits : nat
}.

Definition table (c : Connection) : list MasterRow.t :=
  committed c ++ pending c.

Definition execute_insert (c : Connection) (p : MasterRow.t) : Connection :=
  {| committed := committed c; pending := pending c ++ [p];
     commits := commits c |}.

Definition commit (c : Connection) : Connection :=
  {| committed := committed c ++ pending c; pending := [];
     commits := S (commits c) |}.

(** [DROP TABLE IF EXISTS olist_master] then [CREATE TABLE olist_master]. *)
Definition drop_and_create (c : Connection) : Connection :=
  {| committed := []; pending := []; commits := commits c |}.

Inductive LogRecord :=
| InfoLoading
| InfoTableCreated
| WarningErrorInserting (e : string)
| InfoInserted (total_rows len errors : nat)
| InfoLoaded (total_rows errors : nat).

Definition is_warning (r : LogRecord) : bool :=
  match r with WarningErrorInserting _ => true | _ => false end.

(** The variables of the loading loop. *)
Record Load := {
  conn : Connection;
  total_rows : nat;
  errors : nat;
  log : list LogRecord
}.

(** [range(0, stop, step)] *)
Definition range (stop step : nat) : list nat :=
  map (fun k => k * step) (seq 0 ((stop + step - 1) / step)).

(** [df.iloc[i:j]] *)
Definition iloc {A} (df : list A) (i j : nat) : list A :=
  firstn (j - i) (skipn i df).

Definition batch_size : nat := 1000.

(** The batches the loop goes through. *)
Definition batches {A} (df : list A) : list (list A) :=
  map (fun i => iloc df i (i + batch_size))
      (range (List.length df) batch_size).

(** A row of the merged relation as the labelled cells [iterrows] yields. *)
Definition text_cell (x : option string) : value :=
  match x with Some s => Str s | None => Null end.

Definition float_cell (x : option Q) : value :=
  match x with Some q => Float q | None => Null end.

(** A left merge in which some left row finds no match fills the right-hand
    columns of that row with [NaN], and a column of integers is then a
    column of floats: every integer of it reads as a float. *)
Definition promote (v : value) : value :=
  match v with Int z => Float (inject_Z z) | _ => v end.

(** Whether some order of the merged relation found no customer. *)
Definition customer_missing (merged_df : list Merged.t) : bool :=
  existsb (fun m => match Merged.customer m with
                    | None => true
                    | Some _ => false
                    end) merged_df.

(** The row of [m] in a frame whose customer columns were promoted or not. *)
Definition to_series (promoted : bool) (m : Merged.t) : Series.t :=
  [("order_id", text_cell (Merged.order_id m));
   ("customer_id", text_cell (Merged.customer_id m));
   ("order_status", text_cell (Merged.order_status m));
   ("order_purchase_timestamp",
     text_cell (Merged.order_purchase_timestamp m));
   ("order_delivered_customer_date",
     text_cell (Merged.order_delivered_customer_date m));
   ("customer_zip_code_prefix",
     if promoted then promote (Merged.customer_zip_code_prefix m)
     else Merged.customer_zip_code_prefix m);
   ("customer_city", text_cell (Merged.customer_city m));
   ("customer_state", text_cell (Merged.customer_state m));
   ("product_id", text_cell (Merged.product_id m));
   ("price", float_cell (Merged.price m));
   ("freight_value", float_cell (Merged.freight_value m));
   ("payment_type", text_cell (Merged.payment_type m));
   ("payment_value", float_cell (Merged.payment_value m))].

(** [merged_df.iterrows()]: the rows of the frame, in order. *)
Definition iterrows (merged_df : list Merged.t) : list Series.t :=
  map (to_series (customer_missing merged_df)) merged_df.

(** The frames the load stage works on, as objects its functions share. *)
Record Frames := {
  merged_df : list Merged.t;
  customers_clean : list Customer.t;
  orders_clean : OrdersFrame
}.

(** What a run leaves in the five tables. *)
Record Tables := {
  olist_master : Load;
  sales_summary : list SalesSummary.t;
  delivery_summary : list DeliverySummary.t;
  product_summary : list ProductSummary.t;
  state_summary : list StateSummary.t
}.

(** The functions of [pipeline_olist.py].  Each [create_*] function is
    modelled by the rows it inserts into its freshly created table. *)
Module PipelineOlist.

Definition create_sales_summary (merged_df : list Merged.t)
  : list SalesSummary.t :=
  let sales_summary := sales_summary_agg merged_df in
  let sales_summary := map sales_fillna sales_summary in
  map (fun row =>
         SalesSummary.mk
           (str_or_None (SalesSummary.customer_id row))
           (str_or_None (SalesSummary.customer_state row))
           (str_or_None (SalesSummary.customer_city row))
           (float_or_zero (SalesSummary.total_spent row))
           (SalesSummary.total_orders row)
           (SalesSummary.total_items row)
           (float_or_zero (SalesSummary.avg_order_value row))
           (float_or_zero (SalesSummary.avg_price row))
           (float_or_zero (SalesSummary.avg_freight row)))
      sales_summary.

Definition create_product_summary (merged_df : list Merged.t)
  : list ProductSummary.t :=
  map (fun kg =>
         let '(pid, g) := kg in
         ProductSummary.mk (Some pid)
           (pd.nunique Merged.order_id g)
           (pd.count Merged.order_id g)
           (Some (pd.sum Merged.price g))
           (pd.mean Merged.price g)
           (Some (pd.sum Merged.freight_value g))
           (pd.mean Merged.freight_value g))
      (pd.groupby Merged.product_id merged_df).

Definition create_state_summary (merged_df : list Merged.t)
  : list StateSummary.t :=
  map (fun kg =>
         let '(st, g) := kg in
         StateSummary.mk (Some st)
           (pd.nunique Merged.customer_id g)
           (pd.nunique Merged.order_id g)
           (Some (pd.sum Merged.payment_value g))
           (pd.mean Merged.payment_value g)
           (pd.count Merged.order_id g))
      (pd.groupby Merged.customer_state merged_df).

Definition create_delivery_summary `{Env} (orders : OrdersFrame)
    (customers : list Customer.t)
  : list DeliverySummary.t * OrdersFrame :=
  delivery_summary_of orders customers.

(** One turn of the inner loop: the insertion of a row, or the count of its
    failure, logged for the first five. *)
Definition insert_row `{Host} (st : Load) (row : Series.t) : Load :=
  match insert_error (table (conn st)) (master_row row) with
  | None =>
      {| conn := execute_insert (conn st) (master_row row);
         total_rows := total_rows st + 1;
         errors := errors st;
         log := log st |}
  | Some e =>
      let errors := errors st + 1 in
      {| conn := conn st;
         total_rows := total_rows st;
         errors := errors;
         log := if (errors <=? 5)%nat
                then log st ++ [WarningErrorInserting e]
                else log st |}
  end.

(** One turn of the outer loop. *)
Definition insert_batch `{Host} (len : nat) (st : Load)
    (batch : list Series.t) : Load :=
  let st := fold_left insert_row batch st in
  {| conn := commit (conn st);
     total_rows := total_rows st;
     errors := errors st;
     log := log st ++ [InfoInserted (total_rows st) len (errors st)] |}.

Definition load_master_table `{Host} (connection : Connection)
    (merged_df : list Series.t) : Load :=
  let st := {| conn := drop_and_create connection;
               total_rows := 0;
               errors := 0;
               log := [InfoLoading; InfoTableCreated] |} in
  let st :=
    fold_left
      (fun st i =>
         let batch := iloc merged_df i (i + batch_size) in
         insert_batch (List.length merged_df) st batch)
      (range (List.length merged_df) batch_size) st in
  {| conn := conn st;
     total_rows := total_rows st;
     errors := errors st;
     log := log st ++ [InfoLoaded (total_rows st) (errors st)] |}.

(** The load stage of [run_pipeline]: the five tables, and the frames as the
    calls leave them. *)
Definition load_stage `{Env} `{Host} (connection : Connection) (h : Frames)
  : Tables * Frames :=
  let master := load_master_table connection (iterrows (merged_df h)) in
  let sales := create_sales_summary (merged_df h) in
  let '(delivery, orders) :=
    create_delivery_summary (orders_clean h) (customers_clean h) in
  let h := {| merged_df := merged_df h;
              customers_clean := customers_clean h;
              orders_clean := orders |} in
  let product := create_product_summary (merged_df h) in
  let state := create_state_summary (merged_df h) in
  ({| olist_master := master; sales_summary := sales;
      delivery_summary := delivery; product_summary := product;
      state_summary := state |}, h).

Definition run_pipeline `{Env} `{Host} (connection : Connection)
    (customers : list Customer.t) (order_items : list OrderItem.t)
    (payments : list Payment.t) (orders : list Order.t)
  : Tables * Frames :=
  let '(merged_df, customers_clean, orders_clean) :=
    transform_data customers order_items payments orders in
  load_stage connection
    {| merged_df := merged_df; customers_clean := customers_clean;
       orders_clean := RawOrders orders_clean |}.

End PipelineOlist.

(** The functions of [prefect_pipeline.py] that differ from their
    [pipeline_olist.py] counterpart. *)
Module PrefectPipeline.

(** No [fillna]; a cell is inserted as [float(row[...])], a text cell as it
    is. *)
Definition create_sales_summary (merged_df : list Merged.t)
  : list SalesSummary.t :=
  let sales_summary := sales_summary_agg merged_df in
  map (fun row =>
         SalesSummary.mk
           (SalesSummary.customer_id row)
           (SalesSummary.customer_state row)
           (SalesSummary.customer_city row)
           (SalesSummary.total_spent row)
           (SalesSummary.total_orders row)
           (SalesSummary.total_items row)
           (SalesSummary.avg_order_value row)
           (SalesSummary.avg_price row)
           (SalesSummary.avg_freight row))
      sales_summary.

Definition create_delivery_summary `{Env} (customers : list Customer.t)
    (orders : OrdersFrame)
  : list DeliverySummary.t * OrdersFrame :=
  delivery_summary_of orders customers.

(** The loading loop of this file counts the failures without logging
    them. *)
Definition insert_row `{Host} (st : Load) (row : Series.t) : Load :=
  match insert_error (table (conn st)) (master_row row) with
  | None =>
      {| conn := execute_insert (conn st) (master_row row);
         total_rows := total_rows st + 1;
         errors := errors st;
         log := log st |}
  | Some e =>
      {| conn := conn st;
         total_rows := total_rows st;
         errors := errors st + 1;
         log := log st |}
  end.

Definition load_master_table `{Host} (connection : Connection)
    (merged_df : list Series.t) : Load :=
  let st := {| conn := drop_and_create connection;
               total_rows := 0;
               errors := 0;
               log := [InfoLoading] |} in
  let st :=
    fold_left
      (fun st i =>
         let batch := iloc merged_df i (i + batch_size) in
         let st := fold_left insert_row batch st in
         {| conn := commit (conn st);
            total_rows := total_rows st;
            errors := errors st;
            log := log st |})
      (range (List.length merged_df) batch_size) st in
  {| conn := conn st;
     total_rows := total_rows st;
     errors := errors st;
     log := log st ++ [InfoLoaded (total_rows st) (errors st)] |}.

(** The tasks of [olist_etl_flow] after the transformation; the product and
    state summaries have the text of their [pipeline_olist.py]
    counterparts. *)
Definition load_tasks `{Env} `{Host} (connection : Connection) (h : Frames)
  : Tables * Frames :=
  let master_rows :=
    load_master_table connection (iterrows (merged_df h)) in
  let sales_rows := create_sales_summary (merged_df h) in
  let '(delivery_rows, orders) :=
    create_delivery_summary (customers_clean h) (orders_clean h) in
  let h := {| merged_df := merged_df h;
              customers_clean := customers_clean h;
              orders_clean := orders |} in
  let product_rows := PipelineOlist.create_product_summary (merged_df h) in
  let state_rows := PipelineOlist.create_state_summary (merged_df h) in
  ({| olist_master := master_rows; sales_summary := sales_rows;
      delivery_summary := delivery_rows; product_summary := product_rows;
      state_summary := state_rows |}, h).

Definition olist_etl_flow `{Env} `{Host} (connection : Connection)
    (customers : list Customer.t) (order_items : list OrderItem.t)
    (payments : list Payment.t) (orders : list Order.t)
  : Tables * Frames :=
  let '(merged_df, customers_clean, orders_clean) :=
    transform_data customers order_items payments orders in
  load_tasks connection
    {| merged_df := merged_df; customers_clean := customers_clean;
       orders_clean := RawOrders orders_clean |}.

End PrefectPipeline.

(** The rows of a merged relation in the group of a sales-summary row. *)
Definition sales_group (merged_df : list Merged.t) (s : SalesSummary.t)
  : list Merged.t :=
  filter (fun m =>
            key_eqb (Merged.customer_id m, Merged.customer_state m,
                     Merged.customer_city m)
                    (SalesSummary.customer_id s,
                     SalesSummary.customer_state s,
                     SalesSummary.customer_city s))
         merged_df.

(** The number of distinct cells of a column. *)
Definition distinct {A} (col : A -> option string) (g : list A) : nat :=
  List.length (nodup key_dec (map col g)).

(** The state in which [load_master_table] enters its loop, and the run of
    the inner loop body over all the rows, one after the other, with no
    batch and no commit. *)
Definition start_of_load (connection : Connection) : Load :=
  {| conn := drop_and_create connection;
     total_rows := 0;
     errors := 0;
     log := [InfoLoading; InfoTableCreated] |}.

Definition row_by_row `{Host} (connection : Connection)
    (merged_df : list Series.t) : Load :=
  fold_left PipelineOlist.insert_row merged_df (start_of_load connection).

Definition warnings (l : list LogRecord) : list LogRecord :=
  filter is_warning l.

(** The rows of a frame that the database takes, one after the other, when
    the table holds the rows [t] before the first: a row is taken when
    [cursor.execute] raises nothing on its parameters, the rows taken before
    it being in the table. *)
Fixpoint rows_taken `{Host} (t : list MasterRow.t) (rows : list Series.t)
  : list Series.t :=
  match rows with
  | [] => []
  | row :: rows' =>
      match insert_error t (master_row row) with
      | None => row :: rows_taken (t ++ [master_row row]) rows'
      | Some _ => rows_taken t rows'
      end
  end.

(** Whether the database takes the parameters of a row into an empty
    table. *)
Definition accepted `{Host} (row : Series.t) : bool :=
  match insert_error [] (master_row row) with
  | None => true
  | Some _ => false
  end.

(** Two states of the loop with the same table, counts and warnings. *)
Definition same_outcome (a b : Load) : Prop :=
  table (conn a) = table (conn b)
  /\ total_rows a = total_rows b
  /\ errors a = errors b
  /\ warnings (log a) = warnings (log b).

(* ------------------------------------------------------------------ *)
(** ** Counting rows, for the statements below *)

(** The number of rows of a frame whose column [col] holds the value [v]. *)
Definition rows_with {A} (col : A -> option string) (v : string)
    (df : list A) : nat :=
  List.length (filter (fun r => key_eqb (col r) (Some v)) df).


(** The rows of the right frame that a left row is joined with, and the
    number of merged rows the left row gives. *)
Definition matches {L R K} `{Key K} (on_l : L -> K) (on_r : R -> K)
    (right : list R) (l : L) : list R :=
  filter (fun r => key_eqb (on_l l) (on_r r)) right.

Definition fan {L R K} `{Key K} (on_l : L -> K) (on_r : R -> K)
    (right : list R) (l : L) : nat :=
  Nat.max (List.length (matches on_l on_r right l)) 1.

(* ------------------------------------------------------------------ *)
(** ** Small inputs and readings of the spec used in the statements below *)

Definition customer_c1 : Customer.t :=
  Customer.mk (Some "c1") (Int 1001) (Some "sao paulo") (Some "SP").

Definition order_o1 : Order.t :=
  Order.mk (Some "o1") (Some "c1") (Some "delivered")
           (Some "2018-01-01 10:00:00") (Some "2018-01-05 09:00:00").

(** An environment for the examples: the instants of the two texts of
    [order_o1], and a square root exact to six decimals. *)
Definition sample_env : Env := {|
  parse_datetime := fun s =>
    if string_dec s "2018-01-01 10:00:00" then Some 1514800800000000000%Z
    else if string_dec s "2018-01-05 09:00:00" then Some 1515142800000000000%Z
    else None;
  float_sqrt := fun q =>
    Qmake (Z.sqrt (Qnum q * 1000000000000 / Zpos (Qden q))) 1000000
|}.

(** A host for the examples: the database rejects a state longer than the
    ten characters of its column. *)
Definition sample_host : Host := {|
  float_of_text := fun s =>
    if string_dec s "10.5" then Some (Some (21 # 2)%Q) else None;
  text_of_float := fun _ => "0.0";
  insert_error := fun _ p =>
    match MasterRow.customer_state p with
    | Str s => if (10 <? String.length s)%nat
               then Some "Data too long for column 'customer_state'"
               else None
    | _ => None
    end
|}.

Definition empty_connection : Connection :=
  {| committed := []; pending := []; commits := 0 |}.

(** A row whose state is too long, and a row with one column only. *)
Definition row_long_state : Series.t :=
  [("order_id", Str "o2"); ("customer_state", Str "Rio de Janeiro")].

Definition row_order_only : Series.t := [("order_id", Str "o3")].

(** One customer with one order of two items paid in three payments. *)
Definition merged_2_items_3_payments : list Merged.t :=
  fst (fst (transform_data
    [customer_c1]
    [OrderItem.mk (Some "o1") (Some "p1") (Some 10%Q) (Some 1%Q);
     OrderItem.mk (Some "o1") (Some "p2") (Some 20%Q) (Some 2%Q)]
    [Payment.mk (Some "o1") (Some "credit_card") (Some 11%Q);
     Payment.mk (Some "o1") (Some "voucher") (Some 11%Q);
     Payment.mk (Some "o1") (Some "voucher") (Some 11%Q)]
    [order_o1])).

(** One customer with one order that has a payment and no order item. *)
Definition merged_no_item : list Merged.t :=
  fst (fst (transform_data
    [customer_c1] []
    [Payment.mk (Some "o1") (Some "credit_card") (Some 33%Q)]
    [order_o1])).

(** The fan-out count as the spec words it, for every cleaned input: the
    merged rows of an order id are as many as its order items times its
    payments, a relation without a match counting for one. *)
Definition spec_fan_out_count (customers : list Customer.t)
    (order_items : list OrderItem.t) (payments : list Payment.t)
    (orders : list Order.t) (O : string) : Prop :=
  rows_with Merged.order_id O
    (fst (fst (transform_data customers order_items payments orders)))
  = Nat.max (rows_with OrderItem.order_id O
               (pd.dropna [OrderItem.order_id] order_items)) 1
    * Nat.max (rows_with Payment.order_id O
                 (pd.dropna [Payment.order_id] payments)) 1.

(** A second customer row with the customer id of [customer_c1]. *)
Definition customer_c1_again : Customer.t :=
  Customer.mk (Some "c1") (Int 20000) (Some "rio de janeiro") (Some "RJ").

(** The reading of the spec in which the merged rows without a product form
    one group of the product summary. *)
Definition null_products_grouped (merged_df : list Merged.t) : Prop :=
  (exists m, In m merged_df /\ Merged.product_id m = None) ->
  exists s, In s (PipelineOlist.create_product_summary merged_df)
            /\ ProductSummary.product_id s = None.

(** A host whose database accepts every insertion. *)
Definition accepting_host : Host := {|
  float_of_text := fun _ => None;
  text_of_float := fun _ => "0.0";
  insert_error := fun _ _ => None
|}.

(** The rows of a frame picked by a list of flags, in frame order. *)
Fixpoint select {A} (kept : list bool) (df : list A) : list A :=
  match kept, df with
  | true :: kept', r :: df' => r :: select kept' df'
  | false :: kept', _ :: df' => select kept' df'
  | _, _ => []
  end.

(* ================================================================== *)
(** * Properties *)

(** ** Cleaning *)

Section Dropna.
Context {A B : Type}.
Variable subset : list (A -> option B).

Lemma dropna_In (df : list A) (r : A) :
  In r (pd.dropna subset df) <->
  In r df /\ forall c, In c subset -> c r <> None.
Proof.
  unfold pd.dropna. rewrite filter_In, forallb_forall.
  split; intros [Hin Hall]; split; trivial; intros c Hc.
  - specialize (Hall c Hc). destruct (c r); [discriminate | discriminate Hall].
  - specialize (Hall c Hc). destruct (c r); [reflexivity | contradiction].
Qed.

Lemma dropna_length (df : list A) :
  List.length (pd.dropna subset df) <= List.length df.
Proof. apply filter_length_le. Qed.

Lemma dropna_nil : pd.dropna subset [] = [].
Proof. reflexivity. Qed.

End Dropna.

Lemma dropna_Forall {A B} (subset : list (A -> option B)) (df : list A) :
  Forall (fun r => forall c, In c subset -> c r <> None)
         (pd.dropna subset df).
Proof.
  apply Forall_forall. intros r Hr. apply dropna_In in Hr. apply Hr.
Qed.

(** C8.  The cleaner keeps only rows whose required columns are all present,
    never returns more rows than it was given, and maps the empty relation
    to the empty relation: for every relation and every set of required
    columns, and so for the four calls of [transform_data] ([customer_id]
    for customers; [order_id] and [customer_id] for orders; [order_id] for
    order items and for payments), two of whose results [transform_data]
    returns. *)
Theorem cleaning_is_exclusionary :
  (forall (A B : Type) (subset : list (A -> option B)) (df : list A),
      Forall (fun r => forall c, In c subset -> c r <> None)
             (pd.dropna subset df)
      /\ (forall r, In r (pd.dropna subset df) -> In r df)
      /\ List.length (pd.dropna subset df) <= List.length df
      /\ pd.dropna subset (@nil A) = [])
  /\ forall customers order_items payments orders,
      let customers' := snd (fst (transform_data customers order_items
                                                  payments orders)) in
      let orders' := snd (transform_data customers order_items
                                         payments orders) in
      let order_items' := pd.dropna [OrderItem.order_id] order_items in
      let payments' := pd.dropna [Payment.order_id] payments in
      (Forall (fun c => Customer.customer_id c <> None) customers'
       /\ List.length customers' <= List.length customers)
      /\ (Forall (fun o => Order.order_id o <> None
                           /\ Order.customer_id o <> None) orders'
          /\ List.length orders' <= List.length orders)
      /\ (Forall (fun i => OrderItem.order_id i <> None) order_items'
          /\ List.length order_items' <= List.length order_items)
      /\ (Forall (fun p => Payment.order_id p <> None) payments'
          /\ List.length payments' <= List.length payments).
Proof.
  split.
  - intros A B subset df. repeat split.
    + apply dropna_Forall.
    + intros r Hr. apply dropna_In in Hr. apply Hr.
    + apply dropna_length.
  - intros customers order_items payments orders. cbv zeta.
    unfold transform_data. cbn [fst snd].
    repeat split; try apply dropna_length;
      (eapply Forall_impl; [| apply dropna_Forall]);
      cbn; intros r Hr; repeat split; apply Hr; auto.
Qed.

(** ** The left join *)

Section Merge.
Context {L R K : Type} `{Key K}.
Variables (on_l : L -> K) (on_r : R -> K).

Local Abbreviation matches := (matches on_l on_r).
Local Abbreviation fan := (fan on_l on_r).

Lemma merge_cons l left right :
  pd.merge on_l on_r (l :: left) right =
  match matches right l with
  | [] => [(l, None)]
  | ms => map (fun r => (l, Some r)) ms
  end ++ pd.merge on_l on_r left right.
Proof. reflexivity. Qed.

Lemma joined_fst l right x :
  In x match matches right l with
       | [] => [(l, None)]
       | ms => map (fun r => (l, Some r)) ms
       end -> fst x = l.
Proof.
  destruct (matches right l) as [| r ms].
  - intros [<- | []]. reflexivity.
  - intros Hx. apply in_map_iff in Hx. destruct Hx as [r' [<- _]].
    reflexivity.
Qed.

Lemma joined_length l right :
  List.length match matches right l with
              | [] => [(l, @None R)]
              | ms => map (fun r => (l, Some r)) ms
              end = fan right l.
Proof.
  unfold fan. destruct (matches right l) as [| r ms]; cbn [List.length].
  - reflexivity.
  - rewrite length_map. cbn [List.length]. lia.
Qed.

Lemma filter_all {X} (f : X -> bool) (l : list X) :
  (forall x, In x l -> f x = true) -> filter f l = l.
Proof.
  induction l as [| a l IH]; intros Hall; cbn; trivial.
  rewrite (Hall a (or_introl eq_refl)), IH; auto using in_cons.
Qed.

Lemma filter_none {X} (f : X -> bool) (l : list X) :
  (forall x, In x l -> f x = false) -> filter f l = [].
Proof.
  induction l as [| a l IH]; intros Hall; cbn; trivial.
  rewrite (Hall a (or_introl eq_refl)), IH; auto using in_cons.
Qed.

(** Each left row selected by [f] contributes its matches, or one row when
    it has none. *)
Lemma merge_count (f : L -> bool) left right :
  List.length (filter (fun x => f (fst x)) (pd.merge on_l on_r left right)) =
  list_sum (map (fan right) (filter f left)).
Proof.
  induction left as [| l left IH]; [reflexivity |].
  rewrite merge_cons, filter_app, length_app, IH. cbn [filter].
  destruct (f l) eqn:Hf.
  - rewrite filter_all, joined_length; [reflexivity |].
    intros x Hx. apply joined_fst in Hx. now rewrite Hx.
  - rewrite filter_none; [reflexivity |].
    intros x Hx. apply joined_fst in Hx. now rewrite Hx.
Qed.

Lemma merge_count_const (f : L -> bool) (n : nat) left right :
  (forall l, f l = true -> fan right l = n) ->
  List.length (filter (fun x => f (fst x)) (pd.merge on_l on_r left right)) =
  List.length (filter f left) * n.
Proof.
  intros Hn. rewrite merge_count.
  induction left as [| l left IH]; [reflexivity |]. cbn [filter].
  destruct (f l) eqn:Hf; [| exact IH].
  cbn [map List.length].
  change (fan right l + list_sum (map (fan right) (filter f left)) =
          S (List.length (filter f left)) * n).
  rewrite IH, (Hn l Hf), Nat.mul_succ_l. lia.
Qed.

(** A left join never drops a left row. *)
Lemma merge_keeps_left l left right :
  In l left -> exists x, In x (pd.merge on_l on_r left right) /\ fst x = l.
Proof.
  intros Hl. unfold pd.merge.
  destruct (matches right l) as [| r ms] eqn:Hm.
  - exists (l, None). split; [| reflexivity].
    apply in_flat_map. exists l. split; [exact Hl |].
    fold (matches right l). rewrite Hm. now left.
  - exists (l, Some r). split; [| reflexivity].
    apply in_flat_map. exists l. split; [exact Hl |].
    fold (matches right l). rewrite Hm. now left.
Qed.

Lemma merge_fst_In x left right :
  In x (pd.merge on_l on_r left right) -> In (fst x) left.
Proof.
  unfold pd.merge. rewrite in_flat_map. intros [l [Hl Hx]].
  apply joined_fst in Hx. now rewrite Hx.
Qed.

End Merge.

Lemma key_eqb_eq {K} `{Key K} (x y : K) : key_eqb x y = true <-> x = y.
Proof. unfold key_eqb. destruct (key_dec x y); split; congruence. Qed.

Lemma key_eqb_sym {K} `{Key K} (x y : K) : key_eqb x y = key_eqb y x.
Proof. unfold key_eqb. destruct (key_dec x y), (key_dec y x); congruence. Qed.

Lemma key_eqb_refl {K} `{Key K} (x : K) : key_eqb x x = true.
Proof. now apply key_eqb_eq. Qed.

(** ** Fan-out of the merged relation *)

Section FanOut.
Variables (customers : list Customer.t) (order_items : list OrderItem.t)
          (payments : list Payment.t) (orders : list Order.t).

Local Abbreviation merged_df :=
  (fst (fst (transform_data customers order_items payments orders))).
Local Abbreviation customers' :=
  (snd (fst (transform_data customers order_items payments orders))).
Local Abbreviation orders' :=
  (snd (transform_data customers order_items payments orders)).
Local Abbreviation order_items' := (pd.dropna [OrderItem.order_id] order_items).
Local Abbreviation payments' := (pd.dropna [Payment.order_id] payments).

Lemma fan_by_key {L R} (on_l : L -> option string) (on_r : R -> option string)
    (right : list R) (l : L) (O : string) :
  key_eqb (on_l l) (Some O) = true ->
  fan on_l on_r right l = Nat.max (rows_with on_r O right) 1.
Proof.
  intros Hl. apply key_eqb_eq in Hl. unfold fan, matches, rows_with.
  rewrite Hl. f_equal. f_equal. apply filter_ext. intros r.
  apply key_eqb_sym.
Qed.

(** The merged rows of an order id: each cleaned order row with that id
    gives one row per matching customer, order item and payment, a relation
    without a match counting for one. *)
Lemma merged_rows_of_order (O : string) :
  rows_with Merged.order_id O merged_df =
  list_sum (map (fan Order.customer_id Customer.customer_id customers')
                (filter (fun o => key_eqb (Order.order_id o) (Some O))
                        orders'))
  * Nat.max (rows_with OrderItem.order_id O order_items') 1
  * Nat.max (rows_with Payment.order_id O payments') 1.
Proof.
  unfold rows_with at 1. unfold transform_data. cbn [fst snd].
  unfold Merged.order_id, Merged.order.
  rewrite (merge_count_const
             (fun oci : Order.t * option Customer.t * option OrderItem.t =>
                Order.order_id (fst (fst oci))) Payment.order_id
             (fun oci : Order.t * option Customer.t * option OrderItem.t =>
                key_eqb (Order.order_id (fst (fst oci))) (Some O))
             (n := Nat.max (rows_with Payment.order_id O payments') 1)).
  2:{ intros l Hl. now apply fan_by_key. }
  f_equal.
  rewrite (merge_count_const
             (fun oc : Order.t * option Customer.t =>
                Order.order_id (fst oc)) OrderItem.order_id
             (fun oc : Order.t * option Customer.t =>
                key_eqb (Order.order_id (fst oc)) (Some O))
             (n := Nat.max (rows_with OrderItem.order_id O order_items') 1)).
  2:{ intros l Hl. now apply fan_by_key. }
  f_equal.
  apply (merge_count Order.customer_id Customer.customer_id
           (fun o => key_eqb (Order.order_id o) (Some O))).
Qed.

(** Every cleaned order is the order of some merged row. *)
Lemma merged_keeps_orders (o : Order.t) :
  In o orders' -> exists m, In m merged_df /\ Merged.order m = o.
Proof.
  unfold transform_data. cbn [fst snd]. intros Ho.
  destruct (merge_keeps_left Order.customer_id Customer.customer_id o _
              (pd.dropna [Customer.customer_id] customers) Ho)
    as [oc [Hoc Hfst]].
  destruct (merge_keeps_left (fun oc => Order.order_id (fst oc))
              OrderItem.order_id oc _ order_items' Hoc)
    as [oci [Hoci Hfst2]].
  destruct (merge_keeps_left (fun oci => Order.order_id (fst (fst oci)))
              Payment.order_id oci _ payments' Hoci)
    as [m [Hm Hfst3]].
  exists m. split; [exact Hm |].
  unfold Merged.order. now rewrite Hfst3, Hfst2, Hfst.
Qed.

(** The order of a merged row is a cleaned order. *)
Lemma merged_order_In (m : Merged.t) :
  In m merged_df -> In (Merged.order m) orders'.
Proof.
  unfold transform_data. cbn [fst snd]. intros Hm.
  apply merge_fst_In in Hm. apply merge_fst_In in Hm.
  apply merge_fst_In in Hm. exact Hm.
Qed.

End FanOut.

(** The count of the spec fails when two cleaned customer rows share a
    customer id: the order [o1], without order item and without payment, is
    joined with both and gives two merged rows, not one. *)
Lemma fan_out_fails_on_shared_customer_id :
  ~ spec_fan_out_count [customer_c1; customer_c1_again] [] [] [order_o1] "o1".
Proof. unfold spec_fan_out_count. vm_compute. discriminate. Qed.

(** C2, as the code has it.  Fan-out and left-join completeness.  Each
    cleaned order row with order id [O] gives [max c 1 * max i 1 * max p 1]
    merged rows, where [c] counts the cleaned customers with its customer id
    and [i] and [p] the cleaned order items and payments of [O].  So when [O]
    names one cleaned order row, whose customer id matches at most one
    cleaned customer row, the merged relation holds exactly
    [max i 1 * max p 1] rows with [order_id = O].  In every case each cleaned
    order is the order of at least one merged row. *)
Theorem fan_out_correctness :
  forall customers order_items payments orders (O : string),
    let merged_df :=
      fst (fst (transform_data customers order_items payments orders)) in
    let customers' :=
      snd (fst (transform_data customers order_items payments orders)) in
    let orders' :=
      snd (transform_data customers order_items payments orders) in
    let i := rows_with OrderItem.order_id O
               (pd.dropna [OrderItem.order_id] order_items) in
    let p := rows_with Payment.order_id O
               (pd.dropna [Payment.order_id] payments) in
    rows_with Merged.order_id O merged_df =
      list_sum (map (fan Order.customer_id Customer.customer_id customers')
                    (filter (fun o => key_eqb (Order.order_id o) (Some O))
                            orders'))
      * Nat.max i 1 * Nat.max p 1
    /\ (rows_with Order.order_id O orders' = 1 ->
        (forall o, In o orders' -> Order.order_id o = Some O ->
           List.length (matches Order.customer_id Customer.customer_id
                                customers' o) <= 1) ->
        rows_with Merged.order_id O merged_df = Nat.max i 1 * Nat.max p 1)
    /\ (forall o, In o orders' ->
          exists m, In m merged_df /\ Merged.order_id m = Order.order_id o).
Proof.
  intros customers order_items payments orders O. cbv zeta.
  split; [apply merged_rows_of_order |]. split.
  - intros Hone Hcust. rewrite merged_rows_of_order.
    unfold rows_with in Hone.
    set (os := filter (fun o => key_eqb (Order.order_id o) (Some O))
                      (snd (transform_data customers order_items
                                           payments orders))) in *.
    assert (Hos : forall o, In o os ->
              fan Order.customer_id Customer.customer_id
                (snd (fst (transform_data customers order_items
                                          payments orders))) o = 1).
    { intros o Ho. apply filter_In in Ho. destruct Ho as [Ho Hk].
      apply key_eqb_eq in Hk. specialize (Hcust o Ho Hk).
      unfold fan. lia. }
    destruct os as [| o [| o2 os]]; try discriminate Hone.
    cbn [map list_sum fold_right]. rewrite (Hos o (or_introl eq_refl)).
    now rewrite Nat.add_0_r, Nat.mul_1_l.
  - intros o Ho. destruct (merged_keeps_orders _ order_items payments _ _ Ho)
      as [m [Hm Heq]].
    exists m. split; [exact Hm |]. unfold Merged.order_id. now rewrite Heq.
Qed.

Lemma fan_out_correctness_witness :
  rows_with Merged.order_id "o1"
    (fst (fst (transform_data
       [Customer.mk (Some "c1") (Int 1001) (Some "sao paulo") (Some "SP")]
       [OrderItem.mk (Some "o1") (Some "p1") (Some 10%Q) (Some 1%Q);
        OrderItem.mk (Some "o1") (Some "p2") (Some 20%Q) (Some 2%Q)]
       [Payment.mk (Some "o1") (Some "credit_card") (Some 11%Q);
        Payment.mk (Some "o1") (Some "voucher") (Some 11%Q);
        Payment.mk (Some "o1") (Some "voucher") (Some 11%Q)]
       [Order.mk (Some "o1") (Some "c1") (Some "delivered")
                 (Some "2018-01-01 10:00:00") (Some "2018-01-05 09:00:00")])))
  = 6.
Proof.
  refine (proj1 (proj2 (fan_out_correctness _ _ _ _ "o1")) _ _).
  - vm_compute. reflexivity.
  - intros o _ _. unfold matches.
    etransitivity; [apply filter_length_le | vm_compute; lia].
Defined.

(** ** Grouping *)

Section GroupBy.
Context {A K : Type} `{Key K}.
Variable key : A -> option K.

Lemma insert_key_perm (k : K) (ks : list K) :
  Permutation (pd.insert_key k ks) (k :: ks).
Proof.
  induction ks as [| k' ks IH]; cbn; [reflexivity |].
  destruct (key_leb k k'); [reflexivity |].
  rewrite IH. apply perm_swap.
Qed.

Lemma sort_keys_perm (ks : list K) : Permutation (pd.sort_keys ks) ks.
Proof.
  induction ks as [| k ks IH]; cbn; [reflexivity |].
  rewrite insert_key_perm. now constructor.
Qed.

Lemma group_keys_NoDup (df : list A) : NoDup (pd.group_keys key df).
Proof.
  unfold pd.group_keys.
  eapply Permutation_NoDup; [symmetry; apply sort_keys_perm |].
  apply NoDup_nodup.
Qed.

Lemma group_keys_In (df : list A) (k : K) :
  In k (pd.group_keys key df) <-> exists r, In r df /\ key r = Some k.
Proof.
  unfold pd.group_keys. split.
  - intros Hk. apply (Permutation_in _ (sort_keys_perm _)) in Hk.
    apply nodup_In, in_flat_map in Hk. destruct Hk as [r [Hr Hk]].
    exists r. split; [exact Hr |].
    destruct (key r); [destruct Hk as [-> | []]; reflexivity | destruct Hk].
  - intros [r [Hr Hk]].
    apply (Permutation_in _ (Permutation_sym (sort_keys_perm _))).
    apply nodup_In, in_flat_map. exists r. split; [exact Hr |].
    rewrite Hk. now left.
Qed.

Lemma groupby_In (df : list A) (k : K) (g : list A) :
  In (k, g) (pd.groupby key df) <->
  In k (pd.group_keys key df) /\ g = filter (pd.in_group key k) df.
Proof.
  unfold pd.groupby. rewrite in_map_iff. split.
  - intros [k' [Heq Hk]]. inversion Heq; subst. auto.
  - intros [Hk ->]. exists k. auto.
Qed.

Lemma in_group_true (k : K) (r : A) :
  pd.in_group key k r = true <-> key r = Some k.
Proof.
  unfold pd.in_group. destruct (key r) as [k' |].
  - rewrite key_eqb_eq. split; congruence.
  - split; discriminate.
Qed.

(** A group is never empty. *)
Lemma groupby_nonempty (df : list A) (k : K) (g : list A) :
  In (k, g) (pd.groupby key df) -> g <> [].
Proof.
  intros Hg. apply groupby_In in Hg. destruct Hg as [Hk ->].
  apply group_keys_In in Hk. destruct Hk as [r [Hr Hk]].
  intros Hnil. assert (Hin : In r (filter (pd.in_group key k) df)).
  { apply filter_In. split; [exact Hr |]. now apply in_group_true. }
  rewrite Hnil in Hin. destruct Hin.
Qed.

Lemma sum_indicator (ks : list K) (k0 : K) :
  NoDup ks ->
  list_sum (map (fun k => if key_eqb k k0 then 1 else 0) ks) =
  if in_dec key_dec k0 ks then 1 else 0.
Proof.
  induction 1 as [| k ks Hnotin Hnd IH]; [reflexivity |].
  cbn [map]. change (list_sum (?a :: ?l)) with (a + list_sum l).
  rewrite IH. unfold key_eqb.
  destruct (key_dec k k0) as [-> | Hne].
  - destruct (in_dec key_dec k0 ks); [contradiction |].
    destruct (in_dec key_dec k0 (k0 :: ks)) as [_ | Hn]; [reflexivity |].
    exfalso. apply Hn. now left.
  - destruct (in_dec key_dec k0 ks) as [Hin | Hnin];
      destruct (in_dec key_dec k0 (k :: ks)) as [Hin' | Hnin'];
      try reflexivity.
    + exfalso. apply Hnin'. now right.
    + exfalso. destruct Hin' as [-> | Hin']; [now apply Hne | contradiction].
Qed.

Lemma group_sizes_over (ks : list K) (df : list A) :
  NoDup ks ->
  (forall r k, In r df -> key r = Some k -> In k ks) ->
  list_sum (map (fun k => List.length (filter (pd.in_group key k) df)) ks) =
  List.length (filter (fun r => pd.notna (key r)) df).
Proof.
  intros Hnd. induction df as [| r df IH]; intros Hcov.
  - cbn. clear. induction ks as [| k ks IHk]; [reflexivity | exact IHk].
  - assert (Hsplit :
      list_sum (map (fun k => List.length
                                (filter (pd.in_group key k) (r :: df))) ks) =
      list_sum (map (fun k => if pd.in_group key k r then 1 else 0) ks) +
      list_sum (map (fun k => List.length
                                (filter (pd.in_group key k) df)) ks)).
    { clear. induction ks as [| k ks IHk]; [reflexivity |].
      cbn [map]. change (list_sum (?a :: ?l)) with (a + list_sum l).
      rewrite IHk. cbn [filter].
      destruct (pd.in_group key k r); cbn [List.length]; lia. }
    rewrite Hsplit, IH by (intros r' k Hr'; apply Hcov; now right).
    cbn [filter]. unfold pd.in_group at 1.
    destruct (key r) as [k0 |] eqn:Hk.
    + cbn [pd.notna pd.isna negb List.length].
      rewrite (sum_indicator k0 Hnd).
      destruct (in_dec key_dec k0 ks) as [_ | Hn]; [reflexivity |].
      exfalso. apply Hn. apply (Hcov r k0); [now left | exact Hk].
    + cbn [pd.notna pd.isna negb].
      assert (Hz : list_sum (map (fun _ : K => 0) ks) = 0).
      { clear. induction ks; cbn; auto. }
      rewrite Hz. reflexivity.
Qed.

(** The groups partition the rows whose key is not null. *)
Lemma groupby_sizes (df : list A) :
  list_sum (map (fun kg => List.length (snd kg)) (pd.groupby key df)) =
  List.length (filter (fun r => pd.notna (key r)) df).
Proof.
  unfold pd.groupby. rewrite map_map. cbn [snd].
  apply group_sizes_over; [apply group_keys_NoDup |].
  intros r k Hr Hk. apply group_keys_In. eauto.
Qed.

End GroupBy.

(** ** Aggregations *)

Section Aggregations.
Context {A B : Type}.
Variable col : A -> option B.

Lemma count_filter (g : list A) :
  pd.count col g = List.length (filter (fun r => pd.notna (col r)) g).
Proof.
  induction g as [| r g IH]; [reflexivity |]. cbn [pd.count filter].
  unfold pd.notna in *. destruct (pd.isna (col r)); cbn [negb List.length];
    now rewrite IH.
Qed.

Lemma count_values (g : list A) :
  pd.count col g = List.length (pd.values col g).
Proof.
  induction g as [| r g IH]; [reflexivity |]. cbn [pd.count pd.values].
  destruct (col r); cbn [pd.isna List.length]; now rewrite IH.
Qed.

Lemma count_le_length (g : list A) : pd.count col g <= List.length g.
Proof. rewrite count_filter. apply filter_length_le. Qed.

Lemma count_all (g : list A) :
  (forall r, In r g -> col r <> None) -> pd.count col g = List.length g.
Proof.
  intros Hall. rewrite count_filter, filter_all; [reflexivity |].
  intros r Hr. specialize (Hall r Hr). unfold pd.notna.
  destruct (col r); [reflexivity | contradiction].
Qed.

Lemma values_all (g : list A) :
  (forall r, In r g -> col r <> None) ->
  map col g = map Some (pd.values col g).
Proof.
  induction g as [| r g IH]; intros Hall; [reflexivity |].
  cbn [map pd.values]. pose proof (Hall r (or_introl eq_refl)) as Hr.
  destruct (col r); [| contradiction].
  cbn [map]. f_equal. apply IH. intros r' Hr'. apply Hall. now right.
Qed.

End Aggregations.

Lemma nodup_map_Some {K} `{Key K} (l : list K) :
  nodup key_dec (map Some l) = map Some (nodup key_dec l).
Proof.
  induction l as [| a l IH]; [reflexivity |]. cbn [map nodup].
  destruct (in_dec key_dec a l) as [Hin | Hnin];
    destruct (in_dec key_dec (Some a) (map Some l)) as [Hin' | Hnin'].
  - exact IH.
  - exfalso. apply Hnin'. now apply in_map.
  - exfalso. apply Hnin. apply in_map_iff in Hin'.
    destruct Hin' as [b [Hb Hin']]. now inversion Hb; subst.
  - cbn [map]. now rewrite IH.
Qed.

(** On a column without null cell, ['nunique'] counts the distinct cells. *)
Lemma nunique_all {A} (col : A -> option string) (g : list A) :
  (forall r, In r g -> col r <> None) -> pd.nunique col g = distinct col g.
Proof.
  intros Hall. unfold pd.nunique, distinct.
  rewrite (values_all col g Hall), nodup_map_Some, length_map. reflexivity.
Qed.

(** The order id of a merged row is never null. *)
Lemma merged_order_id_notna customers order_items payments orders m :
  In m (fst (fst (transform_data customers order_items payments orders))) ->
  Merged.order_id m <> None.
Proof.
  intros Hm. apply merged_order_In in Hm. unfold transform_data in Hm.
  cbn [fst snd] in Hm. apply dropna_In in Hm. destruct Hm as [_ Hm].
  apply (Hm Order.order_id). now left.
Qed.

(** ** The sales summary *)

Lemma sales_agg_In (merged_df : list Merged.t) (s : SalesSummary.t) :
  In s (sales_summary_agg merged_df) ->
  exists a b c,
    let g := filter (pd.in_group
                       (key3 Merged.customer_id Merged.customer_state
                             Merged.customer_city) (a, b, c)) merged_df in
    s = SalesSummary.mk (Some a) (Some b) (Some c)
          (Some (pd.sum Merged.payment_value g))
          (pd.nunique Merged.order_id g) (pd.count Merged.order_id g)
          (pd.mean Merged.payment_value g) (pd.mean Merged.price g)
          (pd.mean Merged.freight_value g).
Proof.
  unfold sales_summary_agg. rewrite in_map_iff.
  intros [[[[a b] c] g] [Hs Hg]]. apply groupby_In in Hg.
  destruct Hg as [_ ->]. exists a, b, c. now subst s.
Qed.

Lemma sales_group_key (merged_df : list Merged.t) (s : SalesSummary.t)
    (a b c : string) :
  SalesSummary.customer_id s = Some a ->
  SalesSummary.customer_state s = Some b ->
  SalesSummary.customer_city s = Some c ->
  sales_group merged_df s =
  filter (pd.in_group (key3 Merged.customer_id Merged.customer_state
                            Merged.customer_city) (a, b, c)) merged_df.
Proof.
  intros Ha Hb Hc. unfold sales_group. rewrite Ha, Hb, Hc.
  apply filter_ext. intros m. unfold pd.in_group, key3.
  destruct (Merged.customer_id m) as [a' |],
           (Merged.customer_state m) as [b' |],
           (Merged.customer_city m) as [c' |];
    unfold key_eqb;
    repeat match goal with
           | |- context [key_dec ?x ?y] => destruct (key_dec x y)
           end; congruence.
Qed.

Lemma sales_rows_counts (merged_df : list Merged.t) (s : SalesSummary.t) :
  In s (PipelineOlist.create_sales_summary merged_df)
  \/ In s (PrefectPipeline.create_sales_summary merged_df) ->
  SalesSummary.total_orders s =
    pd.nunique Merged.order_id (sales_group merged_df s)
  /\ SalesSummary.total_items s =
    pd.count Merged.order_id (sales_group merged_df s).
Proof.
  unfold PipelineOlist.create_sales_summary,
         PrefectPipeline.create_sales_summary.
  rewrite map_map, !in_map_iff.
  intros [[s0 [Hs Hin]] | [s0 [Hs Hin]]];
    apply sales_agg_In in Hin; destruct Hin as [a [b [c Hs0]]];
    cbv zeta in Hs0; subst s0; cbn in Hs; subst s;
    erewrite sales_group_key by reflexivity; cbn; auto.
Qed.

(** C1.  On the merged relation of [transform_data], each row of the sales
    summary, as inserted by either pipeline file, has [total_orders] equal to
    the number of distinct order ids of its (customer_id, customer_state,
    customer_city) group and [total_items] equal to the number of rows of
    that group; for one customer with one order of two items and three
    payments both files insert the single row with [total_orders = 1] and
    [total_items = 6]. *)
Theorem distinct_counting_correctness :
  (forall customers order_items payments orders (s : SalesSummary.t),
      let merged_df :=
        fst (fst (transform_data customers order_items payments orders)) in
      In s (PipelineOlist.create_sales_summary merged_df)
      \/ In s (PrefectPipeline.create_sales_summary merged_df) ->
      SalesSummary.total_orders s =
        distinct Merged.order_id (sales_group merged_df s)
      /\ SalesSummary.total_items s =
        List.length (sales_group merged_df s))
  /\ map (fun s => (SalesSummary.total_orders s, SalesSummary.total_items s))
         (PipelineOlist.create_sales_summary merged_2_items_3_payments)
     = [(1, 6)]
  /\ map (fun s => (SalesSummary.total_orders s, SalesSummary.total_items s))
         (PrefectPipeline.create_sales_summary merged_2_items_3_payments)
     = [(1, 6)].
Proof.
  split; [| split; vm_compute; reflexivity].
  intros customers order_items payments orders s merged_df Hs.
  apply sales_rows_counts in Hs. destruct Hs as [-> ->].
  assert (Hnn : forall m, In m (sales_group merged_df s) ->
                          Merged.order_id m <> None).
  { intros m Hm. apply filter_In in Hm.
    eapply merged_order_id_notna. apply Hm. }
  split; [now apply nunique_all | now apply count_all].
Qed.

Lemma distinct_counting_correctness_witness :
  exists s,
    In s (PipelineOlist.create_sales_summary merged_2_items_3_payments)
    /\ SalesSummary.total_orders s =
         distinct Merged.order_id (sales_group merged_2_items_3_payments s)
    /\ SalesSummary.total_items s =
         List.length (sales_group merged_2_items_3_payments s).
Proof.
  destruct (PipelineOlist.create_sales_summary merged_2_items_3_payments)
    as [| s l] eqn:Hl; [discriminate Hl |].
  exists s. split; [now left |].
  apply (proj1 distinct_counting_correctness
           [customer_c1]
           [OrderItem.mk (Some "o1") (Some "p1") (Some 10%Q) (Some 1%Q);
            OrderItem.mk (Some "o1") (Some "p2") (Some 20%Q) (Some 2%Q)]
           [Payment.mk (Some "o1") (Some "credit_card") (Some 11%Q);
            Payment.mk (Some "o1") (Some "voucher") (Some 11%Q);
            Payment.mk (Some "o1") (Some "voucher") (Some 11%Q)]
           [order_o1] s).
  left. fold merged_2_items_3_payments. rewrite Hl. now left.
Defined.

Lemma filter_notna_isna {A B} (col : A -> option B) (df : list A) :
  List.length (filter (fun r => pd.notna (col r)) df)
  + List.length (filter (fun r => pd.isna (col r)) df) = List.length df.
Proof.
  induction df as [| r df IH]; [reflexivity |]. cbn [filter].
  unfold pd.notna in *. destruct (pd.isna (col r)); cbn [negb List.length];
    lia.
Qed.

Lemma list_sum_map_ext {X} (f g : X -> nat) (l : list X) :
  (forall x, In x l -> f x = g x) ->
  list_sum (map f l) = list_sum (map g l).
Proof. intros Hext. f_equal. now apply map_ext_in. Qed.

(** ** The state summary *)

(** C7.  Aggregate conservation.  On the merged relation of
    [transform_data], the [total_items] of the state summary add up to the
    number of merged rows whose [customer_state] is not null; the rows with a
    null state are in no group (no summary row has a null state), so the sum
    and the number of null-state rows add up to the row count. *)
Theorem aggregate_conservation :
  forall customers order_items payments orders,
    let merged_df :=
      fst (fst (transform_data customers order_items payments orders)) in
    let state_summary := PipelineOlist.create_state_summary merged_df in
    list_sum (map StateSummary.total_items state_summary)
    = List.length (filter (fun m => pd.notna (Merged.customer_state m))
                          merged_df)
    /\ list_sum (map StateSummary.total_items state_summary)
       + List.length (filter (fun m => pd.isna (Merged.customer_state m))
                             merged_df)
       = List.length merged_df
    /\ Forall (fun s => StateSummary.customer_state s <> None) state_summary.
Proof.
  intros customers order_items payments orders merged_df state_summary.
  assert (Hsum :
    list_sum (map StateSummary.total_items state_summary)
    = List.length (filter (fun m => pd.notna (Merged.customer_state m))
                          merged_df)).
  { unfold state_summary, PipelineOlist.create_state_summary.
    rewrite map_map, <- groupby_sizes.
    apply list_sum_map_ext. intros [st g] Hg. cbn.
    apply groupby_In in Hg. destruct Hg as [_ ->].
    apply count_all. intros m Hm. apply filter_In in Hm.
    eapply merged_order_id_notna. apply Hm. }
  split; [exact Hsum |]. split.
  - rewrite Hsum. apply filter_notna_isna.
  - apply Forall_forall. intros s Hs.
    unfold state_summary, PipelineOlist.create_state_summary in Hs.
    apply in_map_iff in Hs. destruct Hs as [[st g] [<- _]]. discriminate.
Qed.

(** ** The product summary *)

Lemma product_summary_In (merged_df : list Merged.t) (s : ProductSummary.t) :
  In s (PipelineOlist.create_product_summary merged_df) ->
  exists pid,
    In pid (pd.group_keys Merged.product_id merged_df)
    /\ let g := filter (pd.in_group Merged.product_id pid) merged_df in
       s = ProductSummary.mk (Some pid)
             (pd.nunique Merged.order_id g) (pd.count Merged.order_id g)
             (Some (pd.sum Merged.price g)) (pd.mean Merged.price g)
             (Some (pd.sum Merged.freight_value g))
             (pd.mean Merged.freight_value g).
Proof.
  unfold PipelineOlist.create_product_summary. rewrite in_map_iff.
  intros [[pid g] [Hs Hg]]. apply groupby_In in Hg. destruct Hg as [Hk ->].
  exists pid. split; [exact Hk |]. now subst s.
Qed.

(** The reading with a null-product group fails on an order without order item:
    its merged row has a null [product_id] and the product summary is
    empty. *)
Lemma null_products_not_grouped :
  ~ null_products_grouped merged_no_item.
Proof.
  unfold null_products_grouped. intros Hgrouped.
  destruct Hgrouped as [s [Hs _]].
  - eexists. split; [left; reflexivity | reflexivity].
  - vm_compute in Hs. exact Hs.
Qed.

(** C3, as the code has it.  [groupby('product_id')] drops the rows whose
    [product_id] is null: every row of the product summary has a product id
    and aggregates exactly the merged rows with that id, and on the merged
    relation of [transform_data] the summary's [total_items_sold] add up to
    the number of merged rows that have a product id.  The rows without one
    are excluded. *)
Theorem null_products_excluded :
  (forall (merged_df : list Merged.t) (s : ProductSummary.t),
      In s (PipelineOlist.create_product_summary merged_df) ->
      exists pid,
        ProductSummary.product_id s = Some pid
        /\ ProductSummary.total_items_sold s =
           pd.count Merged.order_id
             (filter (fun m => key_eqb (Merged.product_id m) (Some pid))
                     merged_df))
  /\ (forall (merged_df : list Merged.t) (m : Merged.t) (k : string)
             (g : list Merged.t),
        In (k, g) (pd.groupby Merged.product_id merged_df) ->
        In m g -> Merged.product_id m <> None)
  /\ (forall customers order_items payments orders,
        let merged_df :=
          fst (fst (transform_data customers order_items payments orders)) in
        list_sum (map ProductSummary.total_items_sold
                      (PipelineOlist.create_product_summary merged_df))
        = List.length (filter (fun m => pd.notna (Merged.product_id m))
                              merged_df)).
Proof.
  split; [| split].
  - intros merged_df s Hs. apply product_summary_In in Hs.
    destruct Hs as [pid [_ Hs]]. cbv zeta in Hs. exists pid. subst s.
    cbn. split; [reflexivity |]. f_equal. apply filter_ext. intros m.
    unfold pd.in_group. destruct (Merged.product_id m) as [p |].
    + unfold key_eqb. destruct (key_dec pid p), (key_dec (Some p) (Some pid));
        congruence.
    + reflexivity.
  - intros merged_df m k g Hg Hm. apply groupby_In in Hg.
    destruct Hg as [_ ->]. apply filter_In in Hm. destruct Hm as [_ Hm].
    apply in_group_true in Hm. congruence.
  - intros customers order_items payments orders merged_df.
    unfold PipelineOlist.create_product_summary.
    rewrite map_map, <- groupby_sizes.
    apply list_sum_map_ext. intros [pid g] Hg. cbn.
    apply groupby_In in Hg. destruct Hg as [_ ->].
    apply count_all. intros m Hm. apply filter_In in Hm.
    eapply merged_order_id_notna. apply Hm.
Qed.

Lemma null_products_excluded_witness :
  exists s pid,
    In s (PipelineOlist.create_product_summary merged_2_items_3_payments)
    /\ ProductSummary.product_id s = Some pid
    /\ ProductSummary.total_items_sold s =
       pd.count Merged.order_id
         (filter (fun m => key_eqb (Merged.product_id m) (Some pid))
                 merged_2_items_3_payments).
Proof.
  destruct (PipelineOlist.create_product_summary merged_2_items_3_payments)
    as [| s l] eqn:Hl; [discriminate Hl |].
  assert (Hin : In s (PipelineOlist.create_product_summary
                        merged_2_items_3_payments))
    by (rewrite Hl; now left).
  destruct (proj1 null_products_excluded _ s Hin) as [pid Hpid].
  exists s, pid. rewrite <- Hl. split; [exact Hin | exact Hpid].
Defined.

(** ** The two sales-summary implementations *)

(** What [pipeline_olist.py] inserts is what [prefect_pipeline.py] inserts
    with the null float cells filled with 0. *)
Lemma sales_olist_is_filled_prefect (merged_df : list Merged.t) :
  PipelineOlist.create_sales_summary merged_df =
  map sales_fillna (PrefectPipeline.create_sales_summary merged_df).
Proof.
  unfold PipelineOlist.create_sales_summary,
         PrefectPipeline.create_sales_summary.
  rewrite !map_map. apply map_ext. intros [cid st city ts n1 n2 a1 a2 a3].
  cbn. destruct cid, st, city, ts, a1, a2, a3; reflexivity.
Qed.

(** C4, at an order with a payment and no order item.  The group's prices are
    all null, so [avg_price] and [avg_freight] are null after the
    aggregation: [pipeline_olist.py] inserts 0 for them,
    [prefect_pipeline.py] inserts the null, and the rows the two files insert
    differ. *)
Theorem sales_summaries_differ_without_items :
  map SalesSummary.avg_price
      (PipelineOlist.create_sales_summary merged_no_item) = [Some 0%Q]
  /\ map SalesSummary.avg_price
         (PrefectPipeline.create_sales_summary merged_no_item) = [None]
  /\ map SalesSummary.avg_freight
         (PrefectPipeline.create_sales_summary merged_no_item) = [None]
  /\ PipelineOlist.create_sales_summary merged_no_item
     <> PrefectPipeline.create_sales_summary merged_no_item.
Proof.
  repeat split; try (vm_compute; reflexivity).
  intros Heq.
  apply (f_equal (map SalesSummary.avg_price)) in Heq.
  vm_compute in Heq. discriminate Heq.
Qed.

(** ** The delivery summary *)

Lemma percent_bounds (a b : nat) :
  a <= b -> 0 < b ->
  exists r, pd.percent a b = Some r /\ (0 <= r)%Q /\ (r <= 100)%Q.
Proof.
  intros Hab Hb. destruct b as [| b]; [lia |].
  unfold pd.percent. eexists. split; [reflexivity |].
  assert (Hpos : (0 < inject_Z (Z.of_nat (S b)))%Q).
  { change 0%Q with (inject_Z 0). rewrite <- Zlt_Qlt. lia. }
  assert (Hnn : (0 <= inject_Z (Z.of_nat a))%Q).
  { change 0%Q with (inject_Z 0). rewrite <- Zle_Qle. lia. }
  assert (Hle : (inject_Z (Z.of_nat a) <= inject_Z (Z.of_nat (S b)))%Q).
  { rewrite <- Zle_Qle. lia. }
  split.
  - apply Qmult_le_0_compat; [| discriminate].
    apply Qle_shift_div_l; [exact Hpos |]. now rewrite Qmult_0_l.
  - setoid_replace 100%Q with (1 * 100)%Q at 2 by reflexivity.
    apply Qmult_le_compat_r; [| discriminate].
    apply Qle_shift_div_r; [exact Hpos |]. now rewrite Qmult_1_l.
Qed.

Section Delivery.
Context `{Env}.

Lemma delivery_summary_In (orders : list Order.t)
    (customers : list Customer.t) (s : DeliverySummary.t) :
  In s (fst (PipelineOlist.create_delivery_summary (RawOrders orders)
                                                   customers)) ->
  exists st,
    let g := delivery_group orders customers st in
    g <> []
    /\ s = DeliverySummary.mk (Some st)
             (pd.count delivery_order_id g)
             (pd.count delivery_days g)
             (pd.percent (pd.count delivery_days g)
                         (pd.count delivery_order_id g))
             (pd.mean (pd.as_float delivery_days) g)
             (pd.median delivery_days g)
             (pd.min delivery_days g)
             (pd.max delivery_days g)
             (pd.std (pd.as_float delivery_days) g).
Proof.
  unfold PipelineOlist.create_delivery_summary, delivery_summary_of.
  cbn [fst]. rewrite in_map_iff. intros [[st g] [Hs Hg]].
  pose proof Hg as Hne. apply groupby_nonempty in Hne.
  apply groupby_In in Hg. destruct Hg as [_ Hg].
  assert (Hgrp : g = delivery_group orders customers st).
  { rewrite Hg. unfold delivery_group. apply filter_ext. intros x.
    unfold pd.in_group. destruct (delivery_state x) as [st' |].
    - unfold key_eqb.
      destruct (key_dec st st'), (key_dec (Some st') (Some st)); congruence.
    - reflexivity. }
  exists st. cbv zeta. rewrite <- Hgrp. split; [exact Hne |]. now subst s.
Qed.

(** The rows of a state's group are joined from the given orders. *)
Lemma delivery_group_In (orders : list Order.t) (customers : list Customer.t)
    (st : string) (x : DeliveryRow) :
  In x (delivery_group orders customers st) ->
  exists o, In o orders /\ fst x = assign_delivery_columns o.
Proof.
  unfold delivery_group. intros Hx. apply filter_In in Hx.
  destruct Hx as [Hx _]. apply merge_fst_In in Hx.
  apply in_map_iff in Hx. destruct Hx as [o [Ho Hin]]. eauto.
Qed.

End Delivery.

(** C5.  Delivery rate bound.  For the cleaned orders and customers that
    [transform_data] returns, every row of the delivery summary has
    [delivered_orders <= total_orders] and a [delivery_rate] that is a
    number between 0 and 100; [total_orders] counts all the orders of the
    state's group and [delivered_orders] those with a non-null
    [delivery_days]. *)
Theorem delivery_rate_bound :
  forall (E : Env) customers order_items payments orders s,
    let customers_clean :=
      snd (fst (transform_data customers order_items payments orders)) in
    let orders_clean :=
      snd (transform_data customers order_items payments orders) in
    In s (fst (PipelineOlist.create_delivery_summary
                 (RawOrders orders_clean) customers_clean)) ->
    DeliverySummary.delivered_orders s <= DeliverySummary.total_orders s
    /\ (exists r, DeliverySummary.delivery_rate s = Some r
                  /\ (0 <= r)%Q /\ (r <= 100)%Q)
    /\ (exists st,
          let g := delivery_group orders_clean customers_clean st in
          DeliverySummary.customer_state s = Some st
          /\ DeliverySummary.total_orders s = List.length g
          /\ DeliverySummary.delivered_orders s =
             List.length (filter (fun x => pd.notna (delivery_days x)) g)).
Proof.
  intros E customers order_items payments orders s customers_clean
         orders_clean Hs.
  apply delivery_summary_In in Hs. destruct Hs as [st [Hne Hs]].
  set (g := delivery_group orders_clean customers_clean st) in *.
  assert (Htotal : pd.count delivery_order_id g = List.length g).
  { apply count_all. intros x Hx. apply delivery_group_In in Hx.
    destruct Hx as [o [Ho Hfst]]. unfold delivery_order_id. rewrite Hfst.
    cbn. unfold orders_clean, transform_data in Ho. cbn [snd] in Ho.
    apply dropna_In in Ho. destruct Ho as [_ Ho].
    apply (Ho Order.order_id). now left. }
  assert (Hdel : pd.count delivery_days g <= List.length g)
    by apply count_le_length.
  subst s.
  cbn [DeliverySummary.customer_state DeliverySummary.total_orders
       DeliverySummary.delivered_orders DeliverySummary.delivery_rate].
  rewrite Htotal. split; [exact Hdel |]. split.
  - apply percent_bounds; [exact Hdel |].
    destruct g; [contradiction | cbn; lia].
  - exists st. cbv zeta. fold g. repeat split. apply count_filter.
Qed.

Lemma delivery_rate_bound_witness :
  exists s,
    In s (fst (@PipelineOlist.create_delivery_summary sample_env
                 (RawOrders [order_o1]) [customer_c1]))
    /\ DeliverySummary.delivered_orders s <= DeliverySummary.total_orders s
    /\ exists r, DeliverySummary.delivery_rate s = Some r
                 /\ (0 <= r)%Q /\ (r <= 100)%Q.
Proof.
  destruct (fst (@PipelineOlist.create_delivery_summary sample_env
                   (RawOrders [order_o1]) [customer_c1]))
    as [| s l] eqn:Hl; [discriminate Hl |].
  exists s. split; [now left |].
  destruct (@delivery_rate_bound sample_env [customer_c1] [] [] [order_o1] s)
    as [Hle [Hrate _]].
  - cbv zeta. change (In s (fst (@PipelineOlist.create_delivery_summary
                                  sample_env (RawOrders [order_o1])
                                  [customer_c1]))).
    rewrite Hl. now left.
  - split; [exact Hle | exact Hrate].
Defined.

(** ** Null cells are skipped by the aggregations *)

Section SkipNull.
Context {A : Type}.

Lemma values_Some {B} (l : list B) : pd.values (fun v => Some v) l = l.
Proof. induction l as [| v l IH]; cbn; [reflexivity | now rewrite IH]. Qed.

Lemma count_skipna {B} (col : A -> option B) (g : list A) :
  pd.count col g = List.length (pd.values col g).
Proof. apply count_values. Qed.

Lemma min_skipna {K} `{Key K} (col : A -> option K) (g : list A) :
  pd.min col g = pd.min (fun v => Some v) (pd.values col g).
Proof.
  induction g as [| r g IH]; [reflexivity |]. cbn [pd.min pd.values].
  destruct (col r); [cbn [pd.min]; now rewrite IH | exact IH].
Qed.

Lemma max_skipna {K} `{Key K} (col : A -> option K) (g : list A) :
  pd.max col g = pd.max (fun v => Some v) (pd.values col g).
Proof.
  induction g as [| r g IH]; [reflexivity |]. cbn [pd.max pd.values].
  destruct (col r); [cbn [pd.max]; now rewrite IH | exact IH].
Qed.

Lemma values_as_float (col : A -> option Z) (g : list A) :
  pd.values (pd.as_float col) g =
  pd.values (fun z => Some (inject_Z z)) (pd.values col g).
Proof.
  induction g as [| r g IH]; [reflexivity |]. unfold pd.as_float in *.
  cbn [pd.values]. destruct (col r); [cbn [pd.values]; now rewrite IH |].
  exact IH.
Qed.

Lemma count_as_float (col : A -> option Z) (g : list A) :
  pd.count (pd.as_float col) g =
  pd.count (fun z => Some (inject_Z z)) (pd.values col g).
Proof. now rewrite !count_values, values_as_float. Qed.

Lemma sum_as_float (col : A -> option Z) (g : list A) :
  pd.sum (pd.as_float col) g =
  pd.sum (fun z => Some (inject_Z z)) (pd.values col g).
Proof.
  induction g as [| r g IH]; [reflexivity |]. unfold pd.as_float in *.
  cbn [pd.sum pd.values]. destruct (col r); [cbn [pd.sum]; now rewrite IH |].
  exact IH.
Qed.

Lemma mean_skipna (col : A -> option Z) (g : list A) :
  pd.mean (pd.as_float col) g =
  pd.mean (fun z => Some (inject_Z z)) (pd.values col g).
Proof. unfold pd.mean. now rewrite count_as_float, sum_as_float. Qed.

Lemma std_skipna `{Env} (col : A -> option Z) (g : list A) :
  pd.std (pd.as_float col) g =
  pd.std (fun z => Some (inject_Z z)) (pd.values col g).
Proof.
  unfold pd.std. now rewrite count_as_float, mean_skipna, values_as_float.
Qed.

End SkipNull.

(** The extrema of a list of integers. *)
Lemma min_spec (l : list Z) :
  match pd.min (fun v => Some v) l with
  | Some m => In m l /\ Forall (fun d => (m <= d)%Z) l
  | None => l = []
  end.
Proof.
  induction l as [| v l IH]; [reflexivity |]. cbn [pd.min].
  destruct (pd.min (fun v => Some v) l) as [m |].
  - destruct IH as [Hin Hall]. cbn [key_leb Z_Key].
    destruct (Z.leb_spec v m) as [Hle | Hlt].
    + split; [now left |]. constructor; [lia |].
      eapply Forall_impl; [| exact Hall]. cbn. intros; lia.
    + split; [now right |]. constructor; [lia | exact Hall].
  - subst l. split; [now left |]. constructor; [lia | constructor].
Qed.

Lemma max_spec (l : list Z) :
  match pd.max (fun v => Some v) l with
  | Some m => In m l /\ Forall (fun d => (d <= m)%Z) l
  | None => l = []
  end.
Proof.
  induction l as [| v l IH]; [reflexivity |]. cbn [pd.max].
  destruct (pd.max (fun v => Some v) l) as [m |].
  - destruct IH as [Hin Hall]. cbn [key_leb Z_Key].
    destruct (Z.leb_spec v m) as [Hle | Hlt].
    + split; [now right |]. constructor; [lia | exact Hall].
    + split; [now left |]. constructor; [lia |].
      eapply Forall_impl; [| exact Hall]. cbn. intros; lia.
  - subst l. split; [now left |]. constructor; [lia | constructor].
Qed.

(** [sort_keys] sorts integers. *)
Lemma insert_key_sorted (k : Z) (ks : list Z) :
  Sorted Z.le ks -> Sorted Z.le (pd.insert_key k ks).
Proof.
  induction 1 as [| k' ks Hs IH Hhd]; cbn [pd.insert_key].
  - repeat constructor.
  - cbn [key_leb Z_Key]. destruct (Z.leb_spec k k') as [Hle | Hlt].
    + constructor; [now constructor | now constructor].
    + constructor; [exact IH |].
      destruct ks as [| k'' ks]; cbn [pd.insert_key].
      * constructor. lia.
      * cbn [key_leb Z_Key]. destruct (Z.leb_spec k k''); constructor;
          [lia | now inversion Hhd].
Qed.

Lemma sort_keys_sorted (ks : list Z) : Sorted Z.le (pd.sort_keys ks).
Proof.
  induction ks as [| k ks IH]; cbn; [constructor |].
  now apply insert_key_sorted.
Qed.

Lemma floor_days (a d : Z) :
  (a / pd.ns_per_day = d <->
   pd.ns_per_day * d <= a < pd.ns_per_day * (d + 1))%Z.
Proof.
  unfold pd.ns_per_day. split.
  - intros <-.
    pose proof (Z.mul_div_le a 86400000000000 eq_refl).
    pose proof (Z.mul_succ_div_gt a 86400000000000 eq_refl). lia.
  - intros [Hlo Hhi]. symmetry.
    apply (Z.div_unique a 86400000000000 d (a - 86400000000000 * d)); lia.
Qed.

Section DeliveryDays.
Context `{Env}.

(** [delivery_days] is defined exactly when both texts parse, and is then
    the number of whole days below the difference of the two instants. *)
Lemma delivery_days_defined (o : Order.t) (d : Z) :
  TimedOrder.delivery_days (assign_delivery_columns o) = Some d <->
  exists sp sd p dl,
    Order.order_purchase_timestamp o = Some sp /\ parse_datetime sp = Some p
    /\ Order.order_delivered_customer_date o = Some sd
    /\ parse_datetime sd = Some dl
    /\ (pd.ns_per_day * d <= dl - p < pd.ns_per_day * (d + 1))%Z.
Proof.
  unfold assign_delivery_columns. cbn [TimedOrder.delivery_days].
  unfold pd.days_between, pd.to_datetime. split.
  - destruct (Order.order_delivered_customer_date o) as [sd |];
      [| discriminate].
    destruct (parse_datetime sd) as [dl |] eqn:Hd; [| discriminate].
    destruct (Order.order_purchase_timestamp o) as [sp |]; [| discriminate].
    destruct (parse_datetime sp) as [p |] eqn:Hp; [| discriminate].
    intros Heq. injection Heq as Hdiv. apply floor_days in Hdiv.
    exists sp, sd, p, dl. repeat split; trivial; apply Hdiv.
  - intros [sp [sd [p [dl [-> [Hp [-> [Hd Hfloor]]]]]]]].
    rewrite Hd, Hp. f_equal. now apply floor_days.
Qed.

Lemma values_defined_days (g : list DeliveryRow) :
  (forall x, In x g ->
     delivery_days x =
     pd.days_between (TimedOrder.order_delivered_customer_date (fst x))
                     (TimedOrder.order_purchase_timestamp (fst x))) ->
  pd.values delivery_days g = defined_days g.
Proof.
  induction g as [| x g IH]; intros Hrows; [reflexivity |].
  cbn [pd.values defined_days flat_map].
  rewrite (Hrows x (or_introl eq_refl)). unfold pd.days_between.
  fold (defined_days g).
  rewrite <- IH by (intros y Hy; apply Hrows; now right).
  destruct (TimedOrder.order_delivered_customer_date (fst x)),
           (TimedOrder.order_purchase_timestamp (fst x)); reflexivity.
Qed.

Lemma delivery_group_days (orders : list Order.t)
    (customers : list Customer.t) (st : string) :
  pd.values delivery_days (delivery_group orders customers st) =
  defined_days (delivery_group orders customers st).
Proof.
  apply values_defined_days. intros x Hx. apply delivery_group_In in Hx.
  destruct Hx as [o [_ Hfst]]. unfold delivery_days. now rewrite Hfst.
Qed.

End DeliveryDays.

(** C6.  In the delivery aggregator [delivery_days] of an order is non-null
    exactly when its purchase and delivered texts both parse, and is then the
    whole-day floor of the difference of the two instants; and every
    aggregate of a state's row is computed from the defined latencies of the
    state's orders alone: [delivered_orders] is their number, the numerator
    of [delivery_rate], and the mean, median, minimum, maximum and standard
    deviation are those of the list of defined latencies. *)
Theorem delivery_days_defined_and_nulls_excluded :
  forall (E : Env),
    (forall (o : Order.t) (d : Z),
        TimedOrder.delivery_days (assign_delivery_columns o) = Some d <->
        exists sp sd p dl,
          Order.order_purchase_timestamp o = Some sp
          /\ parse_datetime sp = Some p
          /\ Order.order_delivered_customer_date o = Some sd
          /\ parse_datetime sd = Some dl
          /\ (pd.ns_per_day * d <= dl - p < pd.ns_per_day * (d + 1))%Z)
    /\ forall orders customers s,
        In s (fst (PipelineOlist.create_delivery_summary (RawOrders orders)
                                                         customers)) ->
        exists st,
          let days := defined_days (delivery_group orders customers st) in
          DeliverySummary.customer_state s = Some st
          /\ DeliverySummary.delivered_orders s = List.length days
          /\ DeliverySummary.delivery_rate s =
             pd.percent (List.length days) (DeliverySummary.total_orders s)
          /\ DeliverySummary.avg_delivery_days s =
             pd.mean (fun d => Some (inject_Z d)) days
          /\ (exists sorted,
                Permutation sorted days /\ Sorted Z.le sorted
                /\ DeliverySummary.median_delivery_days s = pd.middle sorted)
          /\ match DeliverySummary.fastest_delivery s with
             | Some m => In m days /\ Forall (fun d => (m <= d)%Z) days
             | None => days = []
             end
          /\ match DeliverySummary.slowest_delivery s with
             | Some m => In m days /\ Forall (fun d => (d <= m)%Z) days
             | None => days = []
             end
          /\ DeliverySummary.std_delivery_days s =
             pd.std (fun d => Some (inject_Z d)) days.
Proof.
  intros E. split; [apply delivery_days_defined |].
  intros orders customers s Hs. apply delivery_summary_In in Hs.
  destruct Hs as [st [_ Hs]]. exists st. cbv zeta in *.
  set (g := delivery_group orders customers st) in *.
  pose proof (delivery_group_days orders customers st) as Hdays.
  fold g in Hdays. subst s.
  cbn [DeliverySummary.customer_state DeliverySummary.total_orders
       DeliverySummary.delivered_orders DeliverySummary.delivery_rate
       DeliverySummary.avg_delivery_days DeliverySummary.median_delivery_days
       DeliverySummary.fastest_delivery DeliverySummary.slowest_delivery
       DeliverySummary.std_delivery_days].
  rewrite count_skipna, mean_skipna, std_skipna, min_skipna, max_skipna.
  unfold pd.median. rewrite Hdays.
  repeat split.
  - exists (pd.sort_keys (defined_days g)).
    split; [apply sort_keys_perm |]. split; [apply sort_keys_sorted |].
    reflexivity.
  - apply min_spec.
  - apply max_spec.
Qed.

Lemma delivery_days_defined_and_nulls_excluded_witness :
  exists s st,
    In s (fst (@PipelineOlist.create_delivery_summary sample_env
                 (RawOrders [order_o1]) [customer_c1]))
    /\ DeliverySummary.customer_state s = Some st
    /\ DeliverySummary.delivered_orders s =
       List.length (defined_days
                      (@delivery_group sample_env [order_o1] [customer_c1]
                                       st)).
Proof.
  destruct (fst (@PipelineOlist.create_delivery_summary sample_env
                   (RawOrders [order_o1]) [customer_c1]))
    as [| s l] eqn:Hl; [discriminate Hl |].
  assert (Hin : In s (fst (@PipelineOlist.create_delivery_summary sample_env
                             (RawOrders [order_o1]) [customer_c1])))
    by (rewrite Hl; now left).
  destruct (proj2 (delivery_days_defined_and_nulls_excluded sample_env)
              [order_o1] [customer_c1] s Hin) as [st [Hst [Hn _]]].
  exists s, st. rewrite <- Hl. split; [exact Hin |].
  split; [exact Hst | exact Hn].
Defined.

(** ** The frames after the load stage *)

Lemma load_stage_frames `{Env} `{Host} (connection : Connection)
    (h : Frames) :
  snd (PipelineOlist.load_stage connection h) =
  {| merged_df := merged_df h;
     customers_clean := customers_clean h;
     orders_clean :=
       snd (PipelineOlist.create_delivery_summary (orders_clean h)
                                                  (customers_clean h)) |}.
Proof. reflexivity. Qed.

Lemma load_tasks_frames `{Env} `{Host} (connection : Connection)
    (h : Frames) :
  snd (PrefectPipeline.load_tasks connection h) =
  {| merged_df := merged_df h;
     customers_clean := customers_clean h;
     orders_clean :=
       snd (PrefectPipeline.create_delivery_summary (customers_clean h)
                                                    (orders_clean h)) |}.
Proof. reflexivity. Qed.

(** C10.  [create_delivery_summary], in both pipeline files, leaves the
    cleaned orders frame it was given changed: the two timestamp columns hold
    the coerce-parsed instants of their texts, a [delivery_days] column is
    added, the other columns are as they were, and the frame differs from
    the one passed in.  After the load stage of either file the merged
    relation and the cleaned customers are the frames [transform_data]
    returned, and the cleaned orders frame is the changed one. *)
Theorem delivery_summary_mutates_orders :
  forall (E : Env) (S0 : Host) (connection : Connection)
         customers order_items payments orders,
    let merged := fst (fst (transform_data customers order_items
                                           payments orders)) in
    let customers' := snd (fst (transform_data customers order_items
                                               payments orders)) in
    let orders' := snd (transform_data customers order_items
                                       payments orders) in
    let after := TimedOrders (map assign_delivery_columns orders') in
    snd (PipelineOlist.create_delivery_summary (RawOrders orders')
                                               customers') = after
    /\ snd (PrefectPipeline.create_delivery_summary customers'
                                                    (RawOrders orders'))
       = after
    /\ after <> RawOrders orders'
    /\ (forall o,
          let t := assign_delivery_columns o in
          TimedOrder.order_id t = Order.order_id o
          /\ TimedOrder.customer_id t = Order.customer_id o
          /\ TimedOrder.order_status t = Order.order_status o
          /\ TimedOrder.order_purchase_timestamp t =
             pd.to_datetime (Order.order_purchase_timestamp o)
          /\ TimedOrder.order_delivered_customer_date t =
             pd.to_datetime (Order.order_delivered_customer_date o)
          /\ TimedOrder.delivery_days t =
             pd.days_between
               (pd.to_datetime (Order.order_delivered_customer_date o))
               (pd.to_datetime (Order.order_purchase_timestamp o)))
    /\ snd (PipelineOlist.run_pipeline connection customers order_items
                                       payments orders)
       = {| merged_df := merged; customers_clean := customers';
            orders_clean := after |}
    /\ snd (PrefectPipeline.olist_etl_flow connection customers order_items
                                           payments orders)
       = {| merged_df := merged; customers_clean := customers';
            orders_clean := after |}.
Proof.
  intros E S0 connection customers order_items payments orders.
  cbv zeta. repeat split; try reflexivity.
  discriminate.
Qed.

(** ** Batches *)

Section Batches.
Context {A : Type}.
Variable step : nat.
Hypothesis step_pos : 0 < step.

Lemma firstn_then_firstn (a b : nat) (l : list A) :
  firstn a l ++ firstn b (skipn a l) = firstn (a + b) l.
Proof.
  revert l. induction a as [| a IH]; intros l; [reflexivity |].
  destruct l as [| x l]; cbn [firstn skipn Nat.add app].
  - now rewrite firstn_nil.
  - now rewrite IH.
Qed.

Lemma slices_firstn (df : list A) (m : nat) :
  List.concat (map (fun i => iloc df i (i + step))
              (map (fun k => k * step) (seq 0 m))) = firstn (m * step) df.
Proof.
  induction m as [| m IH]; [reflexivity |].
  rewrite seq_S, !map_app, concat_app, IH. cbn [map List.concat Nat.add].
  rewrite app_nil_r. unfold iloc.
  replace (m * step + step - m * step) with step by lia.
  rewrite firstn_then_firstn. f_equal. lia.
Qed.

Lemma div_up_covers (n : nat) : n <= (n + step - 1) / step * step.
Proof.
  pose proof (Nat.div_mod_eq (n + step - 1) step) as Hdm.
  pose proof (Nat.mod_upper_bound (n + step - 1) step) as Hmod.
  nia.
Qed.

Lemma div_up_tight (n k : nat) : k < (n + step - 1) / step -> k * step < n.
Proof.
  intros Hk.
  pose proof (Nat.div_mod_eq (n + step - 1) step) as Hdm.
  nia.
Qed.

Lemma slices_concat (df : list A) :
  List.concat (map (fun i => iloc df i (i + step))
              (range (List.length df) step)) = df.
Proof.
  unfold range. rewrite slices_firstn. apply firstn_all2.
  apply div_up_covers.
Qed.

Lemma slices_length (df : list A) :
  Forall (fun b => 1 <= List.length b <= step)
         (map (fun i => iloc df i (i + step))
              (range (List.length df) step)).
Proof.
  unfold range. rewrite map_map. apply Forall_forall. intros b Hb.
  apply in_map_iff in Hb. destruct Hb as [k [<- Hk]].
  apply in_seq in Hk. cbn [Nat.add] in Hk. destruct Hk as [_ Hk].
  apply div_up_tight in Hk. unfold iloc.
  replace (k * step + step - k * step) with step by lia.
  rewrite length_firstn, length_skipn. lia.
Qed.

End Batches.

Lemma batches_concat {A} (df : list A) : List.concat (batches df) = df.
Proof. apply slices_concat. unfold batch_size. lia. Qed.

Lemma batches_length {A} (df : list A) :
  Forall (fun b => 1 <= List.length b <= batch_size) (batches df).
Proof. apply slices_length. unfold batch_size. lia. Qed.

Lemma batches_number {A} (df : list A) :
  List.length (batches df) =
  (List.length df + batch_size - 1) / batch_size.
Proof. unfold batches, range. now rewrite !length_map, length_seq. Qed.

Lemma fold_left_map {X Y Z} (f : Z -> Y -> Z) (g : X -> Y) (l : list X)
    (z : Z) :
  fold_left f (map g l) z = fold_left (fun z x => f z (g x)) l z.
Proof. revert z. induction l as [| x l IH]; intros z; cbn; auto. Qed.

Lemma fold_left_concat {X Z} (f : Z -> X -> Z) (ls : list (list X)) (z : Z) :
  fold_left f (List.concat ls) z = fold_left (fun z l => fold_left f l z) ls z.
Proof.
  revert z. induction ls as [| l ls IH]; intros z; [reflexivity |].
  cbn [List.concat fold_left]. now rewrite fold_left_app, IH.
Qed.

(** ** The loading loop *)

Section LoadLoop.
Context `{Host}.

Lemma insert_row_same (a b : Load) (row : Series.t) :
  same_outcome a b ->
  same_outcome (PipelineOlist.insert_row a row)
               (PipelineOlist.insert_row b row).
Proof.
  intros [Ht [Hn [He Hw]]]. unfold PipelineOlist.insert_row.
  rewrite Ht, He. destruct (insert_error _ _) as [e |].
  - cbv zeta. unfold same_outcome. cbn [conn total_rows errors log].
    repeat split; try assumption.
    destruct (errors b + 1 <=? 5)%nat; [| exact Hw].
    unfold warnings in *. now rewrite !filter_app, Hw.
  - unfold same_outcome, table in *. cbn. rewrite !app_assoc, Ht, Hn.
    repeat split; trivial.
Qed.

Lemma insert_rows_same (rows : list Series.t) (a b : Load) :
  same_outcome a b ->
  same_outcome (fold_left PipelineOlist.insert_row rows a)
               (fold_left PipelineOlist.insert_row rows b).
Proof.
  revert a b. induction rows as [| row rows IH]; intros a b Hab; [easy |].
  cbn [fold_left]. apply IH. now apply insert_row_same.
Qed.

Lemma commit_table (c : Connection) : table (commit c) = table c.
Proof. unfold table, commit. cbn. now rewrite app_nil_r. Qed.

Lemma insert_batch_same (len : nat) (batch : list Series.t) (a b : Load) :
  same_outcome a b ->
  same_outcome (PipelineOlist.insert_batch len a batch)
               (fold_left PipelineOlist.insert_row batch b).
Proof.
  intros Hab. apply (insert_rows_same batch) in Hab.
  destruct Hab as [Ht [Hn [He Hw]]]. unfold PipelineOlist.insert_batch.
  unfold same_outcome. cbn [conn total_rows errors log].
  rewrite commit_table. repeat split; trivial.
  unfold warnings in *. rewrite filter_app. cbn. now rewrite app_nil_r.
Qed.

Lemma insert_batches_same (len : nat) (bs : list (list Series.t))
    (a b : Load) :
  same_outcome a b ->
  same_outcome (fold_left (PipelineOlist.insert_batch len) bs a)
               (fold_left PipelineOlist.insert_row (List.concat bs) b).
Proof.
  revert a b. induction bs as [| batch bs IH]; intros a b Hab; [easy |].
  cbn [fold_left List.concat]. rewrite fold_left_app. apply IH.
  now apply insert_batch_same.
Qed.

(** A row is inserted or counted as an error, and the first five errors are
    logged. *)
Lemma insert_row_counts (st : Load) (row : Series.t) :
  let st' := PipelineOlist.insert_row st row in
  total_rows st' + errors st' = total_rows st + errors st + 1
  /\ (List.length (table (conn st)) = total_rows st ->
      List.length (table (conn st')) = total_rows st')
  /\ (List.length (warnings (log st)) = Nat.min (errors st) 5 ->
      List.length (warnings (log st')) = Nat.min (errors st') 5).
Proof.
  unfold PipelineOlist.insert_row.
  destruct (insert_error _ _) as [e |]; cbv zeta;
    cbn [conn total_rows errors log].
  - split; [lia |]. split; [trivial |]. intros Hw.
    destruct (Nat.leb_spec (errors st + 1) 5) as [Hle | Hgt].
    + unfold warnings in *. rewrite filter_app, length_app, Hw. cbn. lia.
    + rewrite Hw. lia.
  - split; [lia |]. split; [| trivial]. intros Hlen.
    unfold table, execute_insert in *. cbn.
    rewrite app_assoc, length_app, Hlen. cbn. lia.
Qed.

Lemma insert_rows_counts (rows : list Series.t) (st : Load) :
  let st' := fold_left PipelineOlist.insert_row rows st in
  total_rows st' + errors st' =
    total_rows st + errors st + List.length rows
  /\ (List.length (table (conn st)) = total_rows st ->
      List.length (table (conn st')) = total_rows st')
  /\ (List.length (warnings (log st)) = Nat.min (errors st) 5 ->
      List.length (warnings (log st')) = Nat.min (errors st') 5).
Proof.
  revert st. induction rows as [| row rows IH]; intros st; cbv zeta.
  - cbn. repeat split; trivial; lia.
  - cbn [fold_left List.length].
    destruct (insert_row_counts st row) as [H1 [H2 H3]].
    destruct (IH (PipelineOlist.insert_row st row)) as [I1 [I2 I3]].
    cbv zeta in *. repeat split; [lia | auto | auto].
Qed.

(** The commits: one per batch, after which nothing is pending. *)
Lemma insert_row_commits (st : Load) (row : Series.t) :
  commits (conn (PipelineOlist.insert_row st row)) = commits (conn st)
  /\ committed (conn (PipelineOlist.insert_row st row)) =
     committed (conn st).
Proof.
  unfold PipelineOlist.insert_row.
  destruct (insert_error _ _); cbn; auto.
Qed.

Lemma insert_rows_commits (rows : list Series.t) (st : Load) :
  commits (conn (fold_left PipelineOlist.insert_row rows st)) =
    commits (conn st)
  /\ committed (conn (fold_left PipelineOlist.insert_row rows st)) =
     committed (conn st).
Proof.
  revert st. induction rows as [| row rows IH]; intros st; [easy |].
  cbn [fold_left]. destruct (IH (PipelineOlist.insert_row st row)) as [-> ->].
  apply insert_row_commits.
Qed.

Lemma insert_batch_commits (len : nat) (st : Load) (batch : list Series.t) :
  let st' := PipelineOlist.insert_batch len st batch in
  commits (conn st') = S (commits (conn st))
  /\ pending (conn st') = []
  /\ committed (conn st') =
     table (conn (fold_left PipelineOlist.insert_row batch st)).
Proof.
  cbv zeta. unfold PipelineOlist.insert_batch. cbn.
  destruct (insert_rows_commits batch st) as [-> _]. auto.
Qed.

Lemma insert_batches_commits (len : nat) (bs : list (list Series.t))
    (st : Load) :
  pending (conn st) = [] ->
  let st' := fold_left (PipelineOlist.insert_batch len) bs st in
  commits (conn st') = commits (conn st) + List.length bs
  /\ pending (conn st') = [].
Proof.
  revert st. induction bs as [| batch bs IH]; intros st Hp; cbv zeta.
  - cbn. split; [lia | exact Hp].
  - cbn [fold_left List.length].
    destruct (insert_batch_commits len st batch) as [Hc [Hp' _]].
    cbv zeta in Hc, Hp'.
    destruct (IH _ Hp') as [Hc' Hp'']. cbv zeta in Hc', Hp''.
    rewrite Hc', Hc. split; [lia | exact Hp''].
Qed.

Lemma table_execute_insert (c : Connection) (p : MasterRow.t) :
  table (execute_insert c p) = table c ++ [p].
Proof. unfold table, execute_insert. cbn. now rewrite app_assoc. Qed.

(** The rows the loop inserts are the rows the database takes. *)
Lemma insert_rows_taken (rows : list Series.t) (st : Load) :
  table (conn (fold_left PipelineOlist.insert_row rows st))
  = table (conn st) ++ map master_row (rows_taken (table (conn st)) rows)
  /\ total_rows (fold_left PipelineOlist.insert_row rows st)
     = total_rows st + List.length (rows_taken (table (conn st)) rows).
Proof.
  revert st. induction rows as [| row rows IH]; intros st.
  - cbn. rewrite app_nil_r. split; [reflexivity | lia].
  - cbn [fold_left rows_taken].
    destruct (IH (PipelineOlist.insert_row st row)) as [Ht Hn].
    rewrite Ht, Hn. unfold PipelineOlist.insert_row.
    destruct (insert_error (table (conn st)) (master_row row)) as [e |];
      cbv zeta; cbn [conn total_rows].
    + split; reflexivity.
    + rewrite table_execute_insert. cbn [map List.length].
      rewrite <- app_assoc. cbn [app]. split; [reflexivity | lia].
Qed.

(** When the verdict of the database on a row does not depend on the rows
    of the table, the rows taken are the accepted rows of the frame. *)
Lemma rows_taken_accepted (t : list MasterRow.t) (rows : list Series.t) :
  (forall t' p, insert_error t' p = insert_error [] p) ->
  rows_taken t rows = filter accepted rows.
Proof.
  intros Hind. revert t. induction rows as [| row rows IH]; intros t;
    [reflexivity |].
  cbn [rows_taken filter]. unfold accepted at 1. rewrite (Hind t).
  destruct (insert_error [] (master_row row)); [apply IH |].
  now rewrite IH.
Qed.

Lemma rows_taken_length (t : list MasterRow.t) (rows : list Series.t) :
  List.length (rows_taken t rows) <= List.length rows.
Proof.
  revert t. induction rows as [| row rows IH]; intros t; [reflexivity |].
  cbn [rows_taken]. destruct (insert_error t (master_row row)).
  - cbn [List.length]. specialize (IH t). lia.
  - cbn [List.length]. specialize (IH (t ++ [master_row row])). lia.
Qed.

End LoadLoop.

Section SafeAccess.
Context `{Host}.

Lemma get_missing (row : Series.t) (column : string) (default : value) :
  (forall v, ~ In (column, v) row) -> Series.get row column default = default.
Proof.
  induction row as [| [label v] row IH]; intros Hmiss; [reflexivity |].
  cbn [Series.get]. destruct (string_dec label column) as [-> | _].
  - exfalso. apply (Hmiss v). now left.
  - apply IH. intros v' Hv'. apply (Hmiss v'). now right.
Qed.

Lemma safe_get_missing (row : Series.t) (column : string) (default : value) :
  (forall v, ~ In (column, v) row) -> safe_get row column default = default.
Proof.
  intros Hmiss. unfold safe_get. rewrite get_missing by exact Hmiss.
  now destruct (value_isna default).
Qed.

Lemma cell_or_null (v : value) : (if value_isna v then Null else v) = v.
Proof. now destruct v. Qed.

(** A cell that is missing or null reads as the default of its accessor. *)
Lemma safe_defaults (row : Series.t) (column : string) :
  Series.get row column Null = Null ->
  safe_get row column Null = Null
  /\ safe_float (safe_get row column Null) (Some 0%Q) = Some 0%Q
  /\ safe_datetime (safe_get row column Null) = None.
Proof. intros Hget. unfold safe_get. rewrite Hget. cbn. auto. Qed.

Lemma load_master_table_batches (connection : Connection)
    (merged_df : list Series.t) :
  let st := fold_left
              (PipelineOlist.insert_batch (List.length merged_df))
              (batches merged_df) (start_of_load connection) in
  PipelineOlist.load_master_table connection merged_df =
  {| conn := conn st;
     total_rows := total_rows st;
     errors := errors st;
     log := log st ++ [InfoLoaded (total_rows st) (errors st)] |}.
Proof.
  cbv zeta. unfold PipelineOlist.load_master_table, batches.
  now rewrite fold_left_map.
Qed.

End SafeAccess.

(** C9.  Loading the master table, as [pipeline_olist.py] does it.  Every
    row is attempted, and is either inserted or counted as an error: the
    table, the number of inserted rows and the number of errors are those of
    the row-by-row run of the loop body.  In that body a row the database
    rejects changes nothing but the error count and, for the first five
    errors, the log; a row it takes is written: its parameters are appended
    to the table, the number of inserted rows goes up by one, no error is
    counted and nothing is logged.  So a row is counted as an error exactly
    when the database rejects its parameters, and the table ends with the
    parameters of all the rows the database took, in the order of the
    frame, committed: a rejected row aborts neither its batch nor the run.
    The log holds a warning for each of the first five errors and no more,
    and ends with the record of the two totals.  The rows are taken in
    batches of at most 1000, whose concatenation is the frame, with one
    commit per batch, after which nothing is pending.  A missing or null
    cell reads as the default of its accessor, as does a text that [float]
    refuses, and a present cell as it is, so a row without any column still
    gives its tuple of parameters, and a row without the columns of an
    order item is written with a null [product_id] and prices of 0. *)
Theorem master_load_tolerates_row_failures :
  forall (S0 : Host) (connection : Connection) (merged_df : list Series.t),
    let r := PipelineOlist.load_master_table connection merged_df in
    let rr := row_by_row connection merged_df in
    (total_rows r + errors r = List.length merged_df
     /\ committed (conn r) = table (conn rr)
     /\ pending (conn r) = []
     /\ total_rows r = total_rows rr
     /\ errors r = errors rr
     /\ List.length (committed (conn r)) = total_rows r)
    /\ (forall (st : Load) (row : Series.t) (e : string),
          insert_error (table (conn st)) (master_row row) = Some e ->
          conn (PipelineOlist.insert_row st row) = conn st
          /\ total_rows (PipelineOlist.insert_row st row) = total_rows st
          /\ errors (PipelineOlist.insert_row st row) = errors st + 1
          /\ log (PipelineOlist.insert_row st row) =
             if (errors st + 1 <=? 5)%nat
             then log st ++ [WarningErrorInserting e]
             else log st)
    /\ (forall (st : Load) (row : Series.t),
          insert_error (table (conn st)) (master_row row) = None ->
          conn (PipelineOlist.insert_row st row) =
            execute_insert (conn st) (master_row row)
          /\ table (conn (PipelineOlist.insert_row st row)) =
             table (conn st) ++ [master_row row]
          /\ total_rows (PipelineOlist.insert_row st row) = total_rows st + 1
          /\ errors (PipelineOlist.insert_row st row) = errors st
          /\ log (PipelineOlist.insert_row st row) = log st)
    /\ (forall (st : Load) (row : Series.t),
          errors (PipelineOlist.insert_row st row) = errors st <->
          insert_error (table (conn st)) (master_row row) = None)
    /\ (committed (conn r) = map master_row (rows_taken [] merged_df)
        /\ total_rows r = List.length (rows_taken [] merged_df)
        /\ errors r =
           List.length merged_df - List.length (rows_taken [] merged_df)
        /\ ((forall t p, insert_error t p = insert_error [] p) ->
            committed (conn r) = map master_row (filter accepted merged_df)
            /\ total_rows r = List.length (filter accepted merged_df)))
    /\ (List.length (warnings (log r)) = Nat.min (errors r) 5
        /\ exists l, log r = l ++ [InfoLoaded (total_rows r) (errors r)])
    /\ (List.concat (batches merged_df) = merged_df
        /\ Forall (fun b => 1 <= List.length b <= 1000) (batches merged_df)
        /\ List.length (batches merged_df) =
           (List.length merged_df + 999) / 1000
        /\ commits (conn r) =
           commits connection + List.length (batches merged_df)
        /\ forall (len : nat) (st : Load) (batch : list Series.t),
             pending (conn (PipelineOlist.insert_batch len st batch)) = []
             /\ commits (conn (PipelineOlist.insert_batch len st batch)) =
                S (commits (conn st)))
    /\ ((forall (row : Series.t) (column : string) (default : value),
           (forall v, ~ In (column, v) row) ->
           safe_get row column default = default)
        /\ (forall (row : Series.t) (column : string),
              Series.get row column Null = Null ->
              safe_get row column Null = Null
              /\ safe_float (safe_get row column Null) (Some 0%Q) = Some 0%Q
              /\ safe_datetime (safe_get row column Null) = None)
        /\ (forall (s : string) (default : option Q),
              float_of_text s = None ->
              safe_float (Str s) default = default)
        /\ master_row [] =
           MasterRow.mk Null Null Null Null Null Null None None
                        (Some 0%Q) (Some 0%Q) Null (Some 0%Q) Null
        /\ ((forall (row : Series.t) (column : string) (default v : value),
               Series.get row column default = v ->
               value_isna v = false ->
               safe_get row column default = v)
            /\ (forall (q : Q) (default : option Q),
                  safe_float (Float q) default = Some q)
            /\ (forall (z : Z) (default : option Q),
                  safe_float (Int z) default = Some (inject_Z z))
            /\ (forall (s : string) (x default : option Q),
                  float_of_text s = Some x ->
                  safe_float (Str s) default = x)
            /\ (forall s : string, safe_datetime (Str s) = Some s)
            /\ forall row : Series.t,
                 let cell := fun column => Series.get row column Null in
                 master_row row =
                 MasterRow.mk
                   (cell "order_id") (cell "customer_id")
                   (cell "customer_city") (cell "customer_state")
                   (cell "customer_zip_code_prefix") (cell "order_status")
                   (safe_datetime (cell "order_purchase_timestamp"))
                   (safe_datetime (cell "order_delivered_customer_date"))
                   (safe_float (cell "price") (Some 0%Q))
                   (safe_float (cell "freight_value") (Some 0%Q))
                   (cell "payment_type")
                   (safe_float (cell "payment_value") (Some 0%Q))
                   (cell "product_id"))
        /\ (forall (st : Load) (row : Series.t),
              (forall v, ~ In ("product_id", v) row) ->
              (forall v, ~ In ("price", v) row) ->
              (forall v, ~ In ("freight_value", v) row) ->
              (MasterRow.product_id (master_row row) = Null
               /\ MasterRow.price (master_row row) = Some 0%Q
               /\ MasterRow.freight_value (master_row row) = Some 0%Q)
              /\ (insert_error (table (conn st)) (master_row row) = None ->
                  table (conn (PipelineOlist.insert_row st row)) =
                    table (conn st) ++ [master_row row]
                  /\ errors (PipelineOlist.insert_row st row) = errors st))).
Proof.
  intros S0 connection merged_df r rr.
  set (st := fold_left (PipelineOlist.insert_batch (List.length merged_df))
                       (batches merged_df) (start_of_load connection)).
  assert (Hr : r = {| conn := conn st; total_rows := total_rows st;
                      errors := errors st;
                      log := log st ++ [InfoLoaded (total_rows st)
                                                   (errors st)] |})
    by apply load_master_table_batches.
  assert (Hsame : same_outcome st rr).
  { unfold rr, row_by_row.
    replace (fold_left PipelineOlist.insert_row merged_df
                       (start_of_load connection))
      with (fold_left PipelineOlist.insert_row
                      (List.concat (batches merged_df))
                      (start_of_load connection))
      by now rewrite batches_concat.
    apply insert_batches_same. repeat split. }
  destruct Hsame as [Ht [Hn [He Hw]]].
  destruct (insert_rows_counts merged_df (start_of_load connection))
    as [Hcount [Hlen Hwarn]].
  cbv zeta in Hcount, Hlen, Hwarn. fold (row_by_row connection merged_df) in *.
  fold rr in Hcount, Hlen, Hwarn.
  specialize (Hlen eq_refl). specialize (Hwarn eq_refl).
  cbn [start_of_load total_rows errors] in Hcount.
  destruct (insert_batches_commits (List.length merged_df)
              (batches merged_df) (start_of_load connection) eq_refl)
    as [Hcommits Hpending].
  cbv zeta in Hcommits, Hpending. fold st in Hcommits, Hpending.
  assert (Hcommitted : committed (conn st) = table (conn rr)).
  { rewrite <- Ht. unfold table. rewrite Hpending. now rewrite app_nil_r. }
  destruct (insert_rows_taken merged_df (start_of_load connection))
    as [Htaken Hntaken].
  fold (row_by_row connection merged_df) in Htaken, Hntaken.
  fold rr in Htaken, Hntaken.
  change (table (conn (start_of_load connection))) with (@nil MasterRow.t)
    in Htaken, Hntaken.
  cbn [app start_of_load total_rows] in Htaken, Hntaken.
  assert (Hrow_ok : forall (st0 : Load) (row : Series.t),
            insert_error (table (conn st0)) (master_row row) = None ->
            conn (PipelineOlist.insert_row st0 row) =
              execute_insert (conn st0) (master_row row)
            /\ table (conn (PipelineOlist.insert_row st0 row)) =
               table (conn st0) ++ [master_row row]
            /\ total_rows (PipelineOlist.insert_row st0 row) =
               total_rows st0 + 1
            /\ errors (PipelineOlist.insert_row st0 row) = errors st0
            /\ log (PipelineOlist.insert_row st0 row) = log st0).
  { intros st0 row Hnone. unfold PipelineOlist.insert_row. rewrite Hnone.
    cbn [conn total_rows errors log]. rewrite table_execute_insert. auto. }
  rewrite Hr. cbn [conn total_rows errors log].
  split; [| split; [| split; [| split; [| split; [| split; [| split]]]]]].
  - repeat split; try congruence; lia.
  - intros st0 row e He0. unfold PipelineOlist.insert_row. rewrite He0.
    cbn. auto.
  - exact Hrow_ok.
  - intros st0 row. unfold PipelineOlist.insert_row.
    destruct (insert_error (table (conn st0)) (master_row row)) as [e |];
      cbv zeta; cbn [errors]; split; try reflexivity; try discriminate.
    intros Habs. lia.
  - pose proof (rows_taken_length [] merged_df) as Hle.
    split; [congruence |]. split; [lia |]. split; [lia |].
    intros Hind. rewrite <- (rows_taken_accepted [] merged_df Hind).
    split; [congruence | lia].
  - split.
    + unfold warnings in *. rewrite filter_app, length_app, Hw, He.
      cbn [filter is_warning List.length]. rewrite Nat.add_0_r. exact Hwarn.
    + eexists. reflexivity.
  - split; [apply batches_concat |]. split; [apply batches_length |].
    split.
    { rewrite batches_number. unfold batch_size. f_equal. lia. }
    split; [exact Hcommits |].
    intros len st0 batch.
    destruct (insert_batch_commits len st0 batch) as [Hc [Hp _]]. auto.
  - split; [apply @safe_get_missing |]. split; [apply @safe_defaults |].
    split; [intros s default Hraise; cbn; now rewrite Hraise |].
    split; [reflexivity |].
    split.
    { split.
      { intros row column default v Hget Hv. unfold safe_get.
        rewrite Hget, Hv. reflexivity. }
      split; [reflexivity |]. split; [reflexivity |].
      split; [intros s x default Hx; cbn; now rewrite Hx |].
      split; [reflexivity |].
      intros row. cbv zeta. unfold master_row, safe_get.
      now rewrite !cell_or_null. }
    intros st0 row Hid Hprice Hfreight. split.
    + unfold master_row.
      cbn [MasterRow.product_id MasterRow.price MasterRow.freight_value].
      rewrite !safe_get_missing by assumption. cbn. auto.
    + intros Hnone. destruct (Hrow_ok st0 row Hnone) as [_ [Htab [_ [Herr _]]]].
      split; assumption.
Qed.

Lemma master_load_tolerates_row_failures_witness :
  let r := @PipelineOlist.load_master_table sample_host empty_connection
             [row_order_only; row_long_state; row_order_only] in
  (committed (conn r)
   = map (@master_row sample_host) [row_order_only; row_order_only]
   /\ total_rows r = 2)
  /\ (errors (@PipelineOlist.insert_row sample_host
                (start_of_load empty_connection) row_long_state) = 0 + 1
      /\ total_rows (@PipelineOlist.insert_row sample_host
                       (start_of_load empty_connection) row_long_state) = 0)
  /\ (table (conn (@PipelineOlist.insert_row sample_host
                     (start_of_load empty_connection) row_order_only))
      = [@master_row sample_host row_order_only]
      /\ MasterRow.price (@master_row sample_host row_order_only)
         = Some 0%Q)
  /\ @safe_float sample_host (safe_get row_order_only "price" Null)
                 (Some 0%Q) = Some 0%Q.
Proof.
  pose proof (@master_load_tolerates_row_failures sample_host
                empty_connection
                [row_order_only; row_long_state; row_order_only])
    as [_ [Hskip [_ [_ [[_ [_ [_ Hall]]] [_ [_ Hdef]]]]]]].
  destruct Hdef as [_ [Hdef [_ [_ [_ Hmiss]]]]].
  split; [| split; [| split]].
  - apply Hall. intros t p. reflexivity.
  - destruct (Hskip (start_of_load empty_connection) row_long_state
                "Data too long for column 'customer_state'" eq_refl)
      as [_ [Ht [He _]]].
    split; [exact He | exact Ht].
  - destruct (Hmiss (start_of_load empty_connection) row_order_only)
      as [[_ [Hprice _]] Hwritten].
    + intros v [Hv | []]. discriminate Hv.
    + intros v [Hv | []]. discriminate Hv.
    + intros v [Hv | []]. discriminate Hv.
    + split; [| exact Hprice].
      destruct (Hwritten eq_refl) as [Htab _]. exact Htab.
  - apply (Hdef row_order_only "price"). reflexivity.
Defined.

(** The loop on three rows, the second of which the database rejects. *)
Example load_three_rows :
  let r := @PipelineOlist.load_master_table sample_host empty_connection
             [row_order_only; row_long_state; row_order_only] in
  total_rows r = 2 /\ errors r = 1 /\ commits (conn r) = 1
  /\ List.length (committed (conn r)) = 2
  /\ log r = [InfoLoading; InfoTableCreated;
              WarningErrorInserting
                "Data too long for column 'customer_state'";
              InfoInserted 2 3 1; InfoLoaded 2 1].
Proof. vm_compute. repeat split. Qed.

(* ================================================================== *)
(** * Further properties of the pipeline *)

(** ** Cleaning and merging *)

Lemma dropna_idempotent {A B} (subset : list (A -> option B)) (df : list A) :
  pd.dropna subset (pd.dropna subset df) = pd.dropna subset df.
Proof.
  unfold pd.dropna. apply filter_all. intros r Hr.
  apply filter_In in Hr. apply Hr.
Qed.

(** X1.  Transforming again the cleaned frames changes nothing: the merged
    relation and the two cleaned frames returned are those of the first
    transformation, whatever rows with missing identifiers the raw frames
    had. *)
Theorem transform_data_of_cleaned_frames :
  forall customers order_items payments orders,
    transform_data
      (pd.dropna [Customer.customer_id] customers)
      (pd.dropna [OrderItem.order_id] order_items)
      (pd.dropna [Payment.order_id] payments)
      (pd.dropna [Order.order_id; Order.customer_id] orders)
    = transform_data customers order_items payments orders.
Proof.
  intros. unfold transform_data. now rewrite !dropna_idempotent.
Qed.

Section MergeSound.
Context {L R K : Type} `{Key K}.
Variables (on_l : L -> K) (on_r : R -> K).

(** A merged row pairs a left row with a right row of the same key, or with
    none when no right row has its key. *)
Lemma merge_sound (left : list L) (right : list R) (x : L * option R) :
  In x (pd.merge on_l on_r left right) ->
  In (fst x) left
  /\ match snd x with
     | Some r => In r right /\ on_r r = on_l (fst x)
     | None => forall r, In r right -> on_r r <> on_l (fst x)
     end.
Proof.
  unfold pd.merge. rewrite in_flat_map. intros [l [Hl Hx]].
  destruct (filter (fun r => key_eqb (on_l l) (on_r r)) right)
    as [| r0 ms] eqn:Hm.
  - destruct Hx as [<- | []]. cbn. split; [exact Hl |].
    intros r Hr Heq.
    assert (Hin : In r (filter (fun r => key_eqb (on_l l) (on_r r)) right)).
    { apply filter_In. split; [exact Hr |]. now apply key_eqb_eq. }
    rewrite Hm in Hin. destruct Hin.
  - apply in_map_iff in Hx. destruct Hx as [r [<- Hr]]. cbn.
    split; [exact Hl |]. rewrite <- Hm in Hr. apply filter_In in Hr.
    destruct Hr as [Hr Hk]. apply key_eqb_eq in Hk. auto.
Qed.

Lemma merge_length_ge (left : list L) (right : list R) :
  List.length left <= List.length (pd.merge on_l on_r left right).
Proof.
  induction left as [| l left IH]; [apply Nat.le_refl |].
  rewrite merge_cons, length_app, joined_length. unfold fan.
  cbn [List.length]. lia.
Qed.

Lemma merge_nil_right (left : list L) :
  pd.merge on_l on_r left [] = map (fun l => (l, None)) left.
Proof.
  induction left as [| l left IH]; [reflexivity |].
  rewrite merge_cons. cbn. now rewrite IH.
Qed.

End MergeSound.

(** X2.  Every row of the merged relation is a cleaned order with a cleaned
    customer of its customer id, a cleaned order item of its order id and a
    cleaned payment of its order id; a right-hand part is missing only when
    no cleaned row has the key. *)
Theorem merged_rows_are_joined_on_their_keys :
  forall customers order_items payments orders (m : Merged.t),
    In m (fst (fst (transform_data customers order_items payments orders))) ->
    In (Merged.order m) (pd.dropna [Order.order_id; Order.customer_id] orders)
    /\ match Merged.customer m with
       | Some c => In c (pd.dropna [Customer.customer_id] customers)
                   /\ Customer.customer_id c = Merged.customer_id m
       | None => forall c, In c (pd.dropna [Customer.customer_id] customers) ->
                           Customer.customer_id c <> Merged.customer_id m
       end
    /\ match Merged.item m with
       | Some it => In it (pd.dropna [OrderItem.order_id] order_items)
                    /\ OrderItem.order_id it = Merged.order_id m
       | None => forall it,
                   In it (pd.dropna [OrderItem.order_id] order_items) ->
                   OrderItem.order_id it <> Merged.order_id m
       end
    /\ match Merged.payment m with
       | Some p => In p (pd.dropna [Payment.order_id] payments)
                   /\ Payment.order_id p = Merged.order_id m
       | None => forall p, In p (pd.dropna [Payment.order_id] payments) ->
                           Payment.order_id p <> Merged.order_id m
       end.
Proof.
  intros customers order_items payments orders m Hm.
  unfold transform_data in Hm. cbn [fst snd] in Hm.
  apply merge_sound in Hm. destruct Hm as [Hoci Hpay].
  apply merge_sound in Hoci. destruct Hoci as [Hoc Hitem].
  apply merge_sound in Hoc. destruct Hoc as [Ho Hcust].
  unfold Merged.order, Merged.customer, Merged.item, Merged.payment,
         Merged.customer_id, Merged.order_id.
  repeat split; assumption.
Qed.

Lemma merged_rows_are_joined_on_their_keys_witness :
  exists m,
    In m merged_2_items_3_payments
    /\ match Merged.payment m with
       | Some p => Payment.order_id p = Merged.order_id m
       | None => False
       end.
Proof.
  destruct merged_2_items_3_payments as [| m l] eqn:Hl; [discriminate Hl |].
  exists m. split; [now left |].
  assert (Hin : In m merged_2_items_3_payments) by (rewrite Hl; now left).
  pose proof (merged_rows_are_joined_on_their_keys _ _ _ _ m Hin)
    as [_ [_ [_ Hp]]].
  injection Hl as Hm _. subst m. cbn in Hp |- *. apply Hp.
Defined.

(** X3.  The merged relation has at least as many rows as the cleaned orders;
    without any customer, order item and payment it is the cleaned orders,
    each with null right-hand columns, and without orders it is empty. *)
Theorem merged_relation_size_and_empty_frames :
  (forall customers order_items payments orders,
      List.length (snd (transform_data customers order_items payments orders))
      <= List.length
           (fst (fst (transform_data customers order_items payments orders))))
  /\ (forall orders,
        fst (fst (transform_data [] [] [] orders)) =
        map (fun o => (o, None, None, None))
            (pd.dropna [Order.order_id; Order.customer_id] orders))
  /\ (forall customers order_items payments,
        fst (fst (transform_data customers order_items payments [])) = []).
Proof.
  split; [| split].
  - intros. unfold transform_data. cbn [fst snd].
    etransitivity; [| apply merge_length_ge].
    etransitivity; [| apply merge_length_ge]. apply merge_length_ge.
  - intros orders. unfold transform_data. cbn [fst snd pd.dropna filter].
    rewrite !merge_nil_right, !map_map. reflexivity.
  - reflexivity.
Qed.

(** ** The payments of an order in the merged relation *)

Lemma values_app {A B} (col : A -> option B) (a b : list A) :
  pd.values col (a ++ b) = pd.values col a ++ pd.values col b.
Proof.
  induction a as [| r a IH]; cbn [app pd.values]; [reflexivity |].
  destruct (col r); [cbn [app]; now rewrite IH | exact IH].
Qed.

Lemma concat_repeat_length {X} (l : list X) (n : nat) :
  List.length (List.concat (repeat l n)) = n * List.length l.
Proof.
  induction n as [| n IH]; [reflexivity |].
  cbn [repeat List.concat]. rewrite length_app, IH. lia.
Qed.

Section MergeValues.
Context {L R K B : Type} `{Key K}.
Variables (on_l : L -> K) (on_r : R -> K) (val : R -> option B).

Lemma values_joined (l : L) (right : list R) :
  pd.values (fun x : L * option R => pd.right_col val (snd x))
            match matches on_l on_r right l with
            | [] => [(l, None)]
            | ms => map (fun r => (l, Some r)) ms
            end
  = pd.values val (matches on_l on_r right l).
Proof.
  destruct (matches on_l on_r right l) as [| r0 ms]; [reflexivity |].
  generalize (r0 :: ms). intros rs.
  induction rs as [| r rs IH]; [reflexivity |].
  cbn [map pd.values snd pd.right_col]. now rewrite IH.
Qed.

(** When the left rows selected by [f] all match the rows [M] of the right
    frame, the cells of a right-hand column over their merged rows are the
    cells of [M], once per selected left row. *)
Lemma merge_values_right (f : L -> bool) (M : list R) (left : list L)
    (right : list R) :
  (forall l, f l = true -> matches on_l on_r right l = M) ->
  pd.values (fun x : L * option R => pd.right_col val (snd x))
            (filter (fun x => f (fst x)) (pd.merge on_l on_r left right))
  = List.concat (repeat (pd.values val M) (List.length (filter f left))).
Proof.
  intros HM. induction left as [| l left IH]; [reflexivity |].
  rewrite merge_cons, filter_app, values_app, IH. cbn [filter].
  destruct (f l) eqn:Hf.
  + rewrite filter_all
      by (intros x Hx; apply joined_fst in Hx; now rewrite Hx).
    rewrite values_joined, (HM l Hf). reflexivity.
  + rewrite filter_none
      by (intros x Hx; apply joined_fst in Hx; now rewrite Hx).
    reflexivity.
Qed.

End MergeValues.

Section PaymentsOfAnOrder.
Variables (customers : list Customer.t) (order_items : list OrderItem.t)
          (payments : list Payment.t) (orders : list Order.t) (O : string).

Local Abbreviation merged_df :=
  (fst (fst (transform_data customers order_items payments orders))).
Local Abbreviation customers' :=
  (snd (fst (transform_data customers order_items payments orders))).
Local Abbreviation orders' :=
  (snd (transform_data customers order_items payments orders)).
Local Abbreviation order_items' := (pd.dropna [OrderItem.order_id] order_items).
Local Abbreviation payments' := (pd.dropna [Payment.order_id] payments).
Local Abbreviation merged_of_O :=
  (filter (fun m => key_eqb (Merged.order_id m) (Some O)) merged_df).
Local Abbreviation payments_of_O :=
  (filter (fun p => key_eqb (Payment.order_id p) (Some O)) payments').

(** The rows of [O] before the payments are joined. *)
Local Abbreviation with_items :=
  (pd.merge (fun oc : Order.t * option Customer.t => Order.order_id (fst oc))
     OrderItem.order_id
     (pd.merge Order.customer_id Customer.customer_id orders' customers')
     order_items').

Local Abbreviation of_O :=
  (fun oci : Order.t * option Customer.t * option OrderItem.t =>
     key_eqb (Order.order_id (fst (fst oci))) (Some O)).

Lemma payments_matched (l : Order.t * option Customer.t * option OrderItem.t) :
  of_O l = true ->
  matches (fun oci : Order.t * option Customer.t * option OrderItem.t =>
             Order.order_id (fst (fst oci)))
          Payment.order_id payments' l = payments_of_O.
Proof.
  intros Hl. apply key_eqb_eq in Hl. unfold matches. rewrite Hl.
  apply filter_ext. intros p. apply key_eqb_sym.
Qed.

Lemma merged_payment_values :
  pd.values Merged.payment_value merged_of_O
  = List.concat (repeat (pd.values Payment.payment_value payments_of_O)
                        (List.length (filter of_O with_items))).
Proof.
  unfold transform_data. cbn [fst snd].
  apply (merge_values_right
           (fun oci : Order.t * option Customer.t * option OrderItem.t =>
              Order.order_id (fst (fst oci)))
           Payment.order_id Payment.payment_value of_O).
  apply payments_matched.
Qed.

Lemma merged_rows_by_payments :
  List.length merged_of_O =
  List.length (filter of_O with_items)
  * Nat.max (List.length payments_of_O) 1.
Proof.
  unfold transform_data. cbn [fst snd].
  apply (merge_count_const
           (fun oci : Order.t * option Customer.t * option OrderItem.t =>
              Order.order_id (fst (fst oci)))
           Payment.order_id of_O).
  intros l Hl. unfold fan. now rewrite payments_matched.
Qed.

Lemma rows_before_payments :
  List.length (filter of_O with_items) =
  list_sum (map (fan Order.customer_id Customer.customer_id customers')
                (filter (fun o => key_eqb (Order.order_id o) (Some O))
                        orders'))
  * Nat.max (rows_with OrderItem.order_id O order_items') 1.
Proof.
  unfold transform_data. cbn [fst snd].
  rewrite (merge_count_const
             (fun oc : Order.t * option Customer.t =>
                Order.order_id (fst oc)) OrderItem.order_id
             (fun oc : Order.t * option Customer.t =>
                key_eqb (Order.order_id (fst oc)) (Some O))
             (n := Nat.max (rows_with OrderItem.order_id O order_items') 1)).
  2:{ intros l Hl. now apply fan_by_key. }
  f_equal.
  apply (merge_count Order.customer_id Customer.customer_id
           (fun o => key_eqb (Order.order_id o) (Some O))).
Qed.

Lemma one_order_one_customer :
  rows_with Order.order_id O orders' = 1 ->
  (forall o, In o orders' -> Order.order_id o = Some O ->
     List.length (matches Order.customer_id Customer.customer_id
                          customers' o) <= 1) ->
  list_sum (map (fan Order.customer_id Customer.customer_id customers')
                (filter (fun o => key_eqb (Order.order_id o) (Some O))
                        orders')) = 1.
Proof.
  unfold rows_with. intros Hone Hcust.
  set (os := filter (fun o => key_eqb (Order.order_id o) (Some O)) orders')
    in *.
  assert (Hos : forall o, In o os ->
            fan Order.customer_id Customer.customer_id customers' o = 1).
  { intros o Ho. apply filter_In in Ho. destruct Ho as [Ho Hk].
    apply key_eqb_eq in Hk. specialize (Hcust o Ho Hk). unfold fan. lia. }
  destruct os as [| o [| o2 os]]; try discriminate Hone.
  cbn [map list_sum fold_right]. rewrite (Hos o (or_introl eq_refl)).
  reflexivity.
Qed.

End PaymentsOfAnOrder.

(** X5.  The payments of an order are repeated once per joined order item:
    in the merged rows of an order id [O], the [payment_value] column holds
    the payment values of [O], in their order, once for each row [O] has
    before the payments are joined, that is once per cleaned order row,
    matching customer and order item of [O].  When [O] names one cleaned
    order, of at most one cleaned customer, the column holds them once per
    order item of [O], and once when it has none.  The sums of the
    summaries are taken over that column. *)
Theorem payments_summed_once_per_order_item :
  forall customers order_items payments orders (O : string),
    let merged_df :=
      fst (fst (transform_data customers order_items payments orders)) in
    let customers' :=
      snd (fst (transform_data customers order_items payments orders)) in
    let orders' :=
      snd (transform_data customers order_items payments orders) in
    let merged_of_O :=
      filter (fun m => key_eqb (Merged.order_id m) (Some O)) merged_df in
    let payments_of_O :=
      filter (fun p => key_eqb (Payment.order_id p) (Some O))
             (pd.dropna [Payment.order_id] payments) in
    let i := rows_with OrderItem.order_id O
               (pd.dropna [OrderItem.order_id] order_items) in
    let c := list_sum
               (map (fan Order.customer_id Customer.customer_id customers')
                    (filter (fun o => key_eqb (Order.order_id o) (Some O))
                            orders')) in
    (pd.values Merged.payment_value merged_of_O
     = List.concat (repeat (pd.values Payment.payment_value payments_of_O)
                           (c * Nat.max i 1))
     /\ pd.count Merged.payment_value merged_of_O
        = c * Nat.max i 1 * pd.count Payment.payment_value payments_of_O)
    /\ (rows_with Order.order_id O orders' = 1 ->
        (forall o, In o orders' -> Order.order_id o = Some O ->
           List.length (matches Order.customer_id Customer.customer_id
                                customers' o) <= 1) ->
        pd.values Merged.payment_value merged_of_O
        = List.concat (repeat (pd.values Payment.payment_value payments_of_O)
                              (Nat.max i 1))
        /\ pd.count Merged.payment_value merged_of_O
           = Nat.max i 1 * pd.count Payment.payment_value payments_of_O).
Proof.
  intros customers order_items payments orders O. cbv zeta.
  assert (Hcount : forall n,
    pd.values Merged.payment_value
      (filter (fun m => key_eqb (Merged.order_id m) (Some O))
         (fst (fst (transform_data customers order_items payments orders))))
    = List.concat
        (repeat (pd.values Payment.payment_value
                   (filter (fun p => key_eqb (Payment.order_id p) (Some O))
                           (pd.dropna [Payment.order_id] payments))) n) ->
    pd.count Merged.payment_value
      (filter (fun m => key_eqb (Merged.order_id m) (Some O))
         (fst (fst (transform_data customers order_items payments orders))))
    = n * pd.count Payment.payment_value
            (filter (fun p => key_eqb (Payment.order_id p) (Some O))
                    (pd.dropna [Payment.order_id] payments))).
  { intros n Hv. rewrite !count_values, Hv. apply concat_repeat_length. }
  split.
  - assert (Hv := merged_payment_values customers order_items payments
                    orders O).
    rewrite rows_before_payments in Hv.
    split; [exact Hv | now apply Hcount].
  - intros Hone Hcust.
    assert (Hv := merged_payment_values customers order_items payments
                    orders O).
    rewrite rows_before_payments in Hv.
    rewrite (@one_order_one_customer _ _ _ _ _ Hone Hcust) in Hv.
    rewrite Nat.mul_1_l in Hv.
    split; [exact Hv | now apply Hcount].
Qed.

Lemma payments_summed_once_per_order_item_witness :
  pd.values Merged.payment_value
    (filter (fun m => key_eqb (Merged.order_id m) (Some "o1"))
            merged_2_items_3_payments)
  = [11%Q; 11%Q; 11%Q; 11%Q; 11%Q; 11%Q].
Proof.
  destruct (payments_summed_once_per_order_item
              [customer_c1]
              [OrderItem.mk (Some "o1") (Some "p1") (Some 10%Q) (Some 1%Q);
               OrderItem.mk (Some "o1") (Some "p2") (Some 20%Q) (Some 2%Q)]
              [Payment.mk (Some "o1") (Some "credit_card") (Some 11%Q);
               Payment.mk (Some "o1") (Some "voucher") (Some 11%Q);
               Payment.mk (Some "o1") (Some "voucher") (Some 11%Q)]
              [order_o1] "o1") as [_ Hone].
  cbv zeta in Hone. destruct Hone as [Hv _].
  - vm_compute. reflexivity.
  - intros o _ _. unfold matches.
    etransitivity; [apply filter_length_le | vm_compute; lia].
  - unfold merged_2_items_3_payments. rewrite Hv. vm_compute. reflexivity.
Defined.

(** ** The keys of the summaries *)

Section TotalOrder.
Context {K : Type} `{Key K}.
Hypothesis leb_total : forall x y : K, key_leb x y = true \/ key_leb y x = true.

Lemma insert_key_ascending (k : K) (ks : list K) :
  Sorted (fun a b => key_leb a b = true) ks ->
  Sorted (fun a b => key_leb a b = true) (pd.insert_key k ks).
Proof.
  induction 1 as [| k' ks Hs IH Hhd]; cbn [pd.insert_key].
  - repeat constructor.
  - destruct (key_leb k k') eqn:Hle.
    + constructor; [now constructor | now constructor].
    + assert (Hge : key_leb k' k = true)
        by (destruct (leb_total k k'); congruence).
      constructor; [exact IH |].
      destruct ks as [| k'' ks]; cbn [pd.insert_key].
      * now constructor.
      * destruct (key_leb k k''); constructor;
          [exact Hge | now inversion Hhd].
Qed.

Lemma sort_keys_ascending (ks : list K) :
  Sorted (fun a b => key_leb a b = true) (pd.sort_keys ks).
Proof.
  induction ks as [| k ks IH]; cbn; [constructor |].
  now apply insert_key_ascending.
Qed.

End TotalOrder.

Lemma Sorted_map {X Y} (R : X -> X -> Prop) (R' : Y -> Y -> Prop)
    (f : X -> Y) (l : list X) :
  (forall a b, R a b -> R' (f a) (f b)) ->
  Sorted R l -> Sorted R' (map f l).
Proof.
  intros Hf. induction 1 as [| a l Hs IH Hhd]; cbn; constructor; trivial.
  destruct Hhd; cbn; constructor. now apply Hf.
Qed.

Lemma NoDup_map_Some {X} (l : list X) : NoDup l -> NoDup (map Some l).
Proof.
  induction 1 as [| a l Hnotin Hnd IH]; cbn; constructor; trivial.
  rewrite in_map_iff. intros [b [Hb Hin]]. now inversion Hb; subst.
Qed.

Section SummaryKeys.
Context {A : Type}.
Variables (key : A -> option string) (df : list A).

(** The key cells of a summary grouped on one text column: one per distinct
    non-null key of the frame, in ascending order. *)
Lemma summary_keys :
  let keys := map Some (pd.group_keys key df) in
  NoDup keys
  /\ (forall k, In (Some k) keys <-> exists r, In r df /\ key r = Some k)
  /\ ~ In None keys
  /\ Sorted (fun a b => key_leb a b = true) keys.
Proof.
  cbv zeta. split; [| split; [| split]].
  - apply NoDup_map_Some, group_keys_NoDup.
  - intros k. rewrite <- group_keys_In, in_map_iff. split.
    + intros [k' [Hk Hin]]. now inversion Hk; subst.
    + intros Hin. eauto.
  - rewrite in_map_iff. intros [k [Hk _]]. discriminate.
  - apply (Sorted_map (R := fun a b : string => key_leb a b = true)).
    + intros a b Hab. exact Hab.
    + apply sort_keys_ascending. exact String.leb_total.
Qed.

End SummaryKeys.

(** X6.  The state summary has exactly one row per distinct non-null
    [customer_state] of the merged relation, none for the null state, and its
    rows come in ascending order of the state. *)
Theorem state_summary_one_row_per_state :
  forall (merged_df : list Merged.t),
    let states := map StateSummary.customer_state
                      (PipelineOlist.create_state_summary merged_df) in
    NoDup states
    /\ (forall st, In (Some st) states <->
                   exists m, In m merged_df
                             /\ Merged.customer_state m = Some st)
    /\ ~ In None states
    /\ Sorted (fun a b => option_leb a b = true) states.
Proof.
  intros merged_df states.
  assert (Hstates : states =
                    map Some (pd.group_keys Merged.customer_state merged_df)).
  { unfold states, PipelineOlist.create_state_summary, pd.groupby.
    rewrite !map_map. reflexivity. }
  rewrite Hstates. apply summary_keys.
Qed.

(** X7.  The product summary has exactly one row per distinct non-null
    [product_id] of the merged relation, in ascending order of the id. *)
Theorem product_summary_one_row_per_product :
  forall (merged_df : list Merged.t),
    let products := map ProductSummary.product_id
                        (PipelineOlist.create_product_summary merged_df) in
    NoDup products
    /\ (forall pid, In (Some pid) products <->
                    exists m, In m merged_df
                              /\ Merged.product_id m = Some pid)
    /\ ~ In None products
    /\ Sorted (fun a b => option_leb a b = true) products.
Proof.
  intros merged_df products.
  assert (Hproducts : products =
                      map Some (pd.group_keys Merged.product_id merged_df)).
  { unfold products, PipelineOlist.create_product_summary, pd.groupby.
    rewrite !map_map. reflexivity. }
  rewrite Hproducts. apply summary_keys.
Qed.

(** The key cells of a sales-summary row. *)
Lemma sales_keys_of_agg (merged_df : list Merged.t) :
  map (fun s => (SalesSummary.customer_id s, SalesSummary.customer_state s,
                 SalesSummary.customer_city s))
      (sales_summary_agg merged_df)
  = map (fun k : string * string * string =>
           (Some (fst (fst k)), Some (snd (fst k)), Some (snd k)))
        (pd.group_keys (key3 Merged.customer_id Merged.customer_state
                             Merged.customer_city) merged_df).
Proof.
  unfold sales_summary_agg, pd.groupby. rewrite !map_map.
  apply map_ext. intros [[a b] c]. reflexivity.
Qed.

Lemma sales_keys_same (merged_df : list Merged.t) :
  map (fun s => (SalesSummary.customer_id s, SalesSummary.customer_state s,
                 SalesSummary.customer_city s))
      (PipelineOlist.create_sales_summary merged_df)
  = map (fun s => (SalesSummary.customer_id s, SalesSummary.customer_state s,
                   SalesSummary.customer_city s))
        (sales_summary_agg merged_df)
  /\ map (fun s => (SalesSummary.customer_id s,
                    SalesSummary.customer_state s,
                    SalesSummary.customer_city s))
         (PrefectPipeline.create_sales_summary merged_df)
     = map (fun s => (SalesSummary.customer_id s,
                      SalesSummary.customer_state s,
                      SalesSummary.customer_city s))
           (sales_summary_agg merged_df).
Proof.
  unfold PipelineOlist.create_sales_summary,
         PrefectPipeline.create_sales_summary.
  split; rewrite !map_map; apply map_ext_in; intros s Hs;
    apply sales_agg_In in Hs; destruct Hs as [a [b [c Hs]]];
    cbv zeta in Hs; subst s; reflexivity.
Qed.

Lemma key3_Some {A} (c1 c2 c3 : A -> option string) (r : A)
    (a b c : string) :
  key3 c1 c2 c3 r = Some (a, b, c) <->
  c1 r = Some a /\ c2 r = Some b /\ c3 r = Some c.
Proof.
  unfold key3. destruct (c1 r), (c2 r), (c3 r); split;
    try discriminate; try (intros [? [? ?]]; discriminate).
  - intros Heq. inversion Heq. auto.
  - intros [Ha [Hb Hc]]. congruence.
Qed.

(** X8.  The sales summary, in both pipeline files, has exactly one row per
    distinct (customer_id, customer_state, customer_city) triple of the
    merged relation whose three cells are all present; a merged row with a
    null state or city belongs to no row of the summary. *)
Theorem sales_summary_one_row_per_customer_key :
  forall (merged_df : list Merged.t) (summary : list SalesSummary.t),
    summary = PipelineOlist.create_sales_summary merged_df
    \/ summary = PrefectPipeline.create_sales_summary merged_df ->
    let keys := map (fun s => (SalesSummary.customer_id s,
                               SalesSummary.customer_state s,
                               SalesSummary.customer_city s)) summary in
    NoDup keys
    /\ (forall k, In k keys ->
          exists a b c, k = (Some a, Some b, Some c))
    /\ (forall a b c,
          In (Some a, Some b, Some c) keys <->
          exists m, In m merged_df
                    /\ Merged.customer_id m = Some a
                    /\ Merged.customer_state m = Some b
                    /\ Merged.customer_city m = Some c).
Proof.
  intros merged_df summary Hsummary keys.
  assert (Hkeys : keys =
    map (fun k : string * string * string =>
           (Some (fst (fst k)), Some (snd (fst k)), Some (snd k)))
        (pd.group_keys (key3 Merged.customer_id Merged.customer_state
                             Merged.customer_city) merged_df)).
  { unfold keys. destruct (sales_keys_same merged_df) as [Ho Hp].
    destruct Hsummary as [-> | ->]; [rewrite Ho | rewrite Hp];
      apply sales_keys_of_agg. }
  rewrite Hkeys. split; [| split].
  - apply Finite.Injective_map_NoDup; [| apply group_keys_NoDup].
    intros [[a b] c] [[a' b'] c'] Heq. cbn in Heq. congruence.
  - intros k Hk. apply in_map_iff in Hk. destruct Hk as [[[a b] c] [<- _]].
    cbn. eauto.
  - intros a b c. rewrite in_map_iff. split.
    + intros [[[a' b'] c'] [Heq Hin]]. cbn in Heq. inversion Heq; subst.
      apply group_keys_In in Hin. destruct Hin as [m [Hm Hk]].
      apply key3_Some in Hk. eauto.
    + intros [m [Hm [Ha [Hb Hc]]]]. exists (a, b, c). split; [reflexivity |].
      apply group_keys_In. exists m. split; [exact Hm |].
      now apply key3_Some.
Qed.

Lemma sales_summary_one_row_per_customer_key_witness :
  NoDup (map (fun s => (SalesSummary.customer_id s,
                        SalesSummary.customer_state s,
                        SalesSummary.customer_city s))
             (PipelineOlist.create_sales_summary merged_2_items_3_payments)).
Proof.
  apply (sales_summary_one_row_per_customer_key
           merged_2_items_3_payments (or_introl eq_refl)).
Defined.

(** ** The counts of a summary row *)

Lemma nunique_le_count {A} (col : A -> option string) (g : list A) :
  pd.nunique col g <= pd.count col g.
Proof.
  unfold pd.nunique. rewrite count_values.
  apply NoDup_incl_length; [apply NoDup_nodup |].
  intros x Hx. now apply nodup_In in Hx.
Qed.

Lemma nunique_positive {A} (col : A -> option string) (g : list A) :
  g <> [] -> (forall r, In r g -> col r <> None) -> 1 <= pd.nunique col g.
Proof.
  intros Hne Hall. destruct g as [| r g]; [contradiction |].
  unfold pd.nunique. cbn [pd.values].
  pose proof (Hall r (or_introl eq_refl)) as Hr.
  destruct (col r) as [v |]; [| contradiction].
  assert (Hin : In v (nodup key_dec (v :: pd.values col g)))
    by (apply nodup_In; now left).
  destruct (nodup key_dec (v :: pd.values col g)); [destruct Hin |].
  cbn [List.length]. lia.
Qed.

Lemma state_summary_In (merged_df : list Merged.t) (s : StateSummary.t) :
  In s (PipelineOlist.create_state_summary merged_df) ->
  exists st,
    let g := filter (pd.in_group Merged.customer_state st) merged_df in
    g <> []
    /\ s = StateSummary.mk (Some st)
             (pd.nunique Merged.customer_id g)
             (pd.nunique Merged.order_id g)
             (Some (pd.sum Merged.payment_value g))
             (pd.mean Merged.payment_value g)
             (pd.count Merged.order_id g).
Proof.
  unfold PipelineOlist.create_state_summary. rewrite in_map_iff.
  intros [[st g] [Hs Hg]]. pose proof Hg as Hne.
  apply groupby_nonempty in Hne. apply groupby_In in Hg.
  destruct Hg as [_ ->]. exists st. split; [exact Hne | now subst s].
Qed.

Lemma merged_customer_id_notna customers order_items payments orders m :
  In m (fst (fst (transform_data customers order_items payments orders))) ->
  Merged.customer_id m <> None.
Proof.
  intros Hm. apply merged_order_In in Hm. unfold transform_data in Hm.
  cbn [fst snd] in Hm. apply dropna_In in Hm. destruct Hm as [_ Hm].
  apply (Hm Order.customer_id). right. now left.
Qed.

(** X9.  On the merged relation of [transform_data] a row of the state summary
    counts at least one customer and one order, and never more distinct
    customers or orders than merged rows; a row of the product summary
    counts at least one order and never more orders than items sold. *)
Theorem summary_distinct_counts_are_bounded :
  forall customers order_items payments orders,
    let merged_df :=
      fst (fst (transform_data customers order_items payments orders)) in
    (forall s, In s (PipelineOlist.create_state_summary merged_df) ->
       1 <= StateSummary.total_customers s <= StateSummary.total_items s
       /\ 1 <= StateSummary.total_orders s <= StateSummary.total_items s)
    /\ (forall s, In s (PipelineOlist.create_product_summary merged_df) ->
          1 <= ProductSummary.total_orders s
            <= ProductSummary.total_items_sold s).
Proof.
  intros customers order_items payments orders merged_df. split.
  - intros s Hs. apply state_summary_In in Hs.
    destruct Hs as [st [Hne Hs]]. cbv zeta in Hne, Hs.
    set (g := filter (pd.in_group Merged.customer_state st) merged_df) in *.
    assert (Hoid : forall m, In m g -> Merged.order_id m <> None).
    { intros m Hm. apply filter_In in Hm.
      eapply merged_order_id_notna. apply Hm. }
    assert (Hcid : forall m, In m g -> Merged.customer_id m <> None).
    { intros m Hm. apply filter_In in Hm.
      eapply merged_customer_id_notna. apply Hm. }
    subst s. cbn [StateSummary.total_customers StateSummary.total_orders
                  StateSummary.total_items].
    pose proof (nunique_positive Merged.customer_id Hne Hcid).
    pose proof (nunique_positive Merged.order_id Hne Hoid).
    pose proof (nunique_le_count Merged.order_id g).
    pose proof (nunique_le_count Merged.customer_id g).
    rewrite (count_all Merged.customer_id g Hcid) in *.
    rewrite (count_all Merged.order_id g Hoid) in *. lia.
  - intros s Hs. apply product_summary_In in Hs.
    destruct Hs as [pid [Hk Hs]]. cbv zeta in Hs.
    set (g := filter (pd.in_group Merged.product_id pid) merged_df) in *.
    assert (Hne : g <> []).
    { apply group_keys_In in Hk. destruct Hk as [m [Hm Hk]].
      intros Hnil. assert (Hin : In m g).
      { apply filter_In. split; [exact Hm |]. now apply in_group_true. }
      rewrite Hnil in Hin. destruct Hin. }
    assert (Hoid : forall m, In m g -> Merged.order_id m <> None).
    { intros m Hm. apply filter_In in Hm.
      eapply merged_order_id_notna. apply Hm. }
    subst s. cbn [ProductSummary.total_orders
                  ProductSummary.total_items_sold].
    pose proof (nunique_positive Merged.order_id Hne Hoid).
    pose proof (nunique_le_count Merged.order_id g). lia.
Qed.

Lemma summary_distinct_counts_are_bounded_witness :
  exists s,
    In s (PipelineOlist.create_state_summary merged_2_items_3_payments)
    /\ 1 <= StateSummary.total_orders s <= StateSummary.total_items s.
Proof.
  destruct (PipelineOlist.create_state_summary merged_2_items_3_payments)
    as [| s l] eqn:Hl; [discriminate Hl |].
  exists s. split; [now left |].
  apply (proj1 (summary_distinct_counts_are_bounded
                  [customer_c1]
                  [OrderItem.mk (Some "o1") (Some "p1") (Some 10%Q)
                                (Some 1%Q);
                   OrderItem.mk (Some "o1") (Some "p2") (Some 20%Q)
                                (Some 2%Q)]
                  [Payment.mk (Some "o1") (Some "credit_card") (Some 11%Q);
                   Payment.mk (Some "o1") (Some "voucher") (Some 11%Q);
                   Payment.mk (Some "o1") (Some "voucher") (Some 11%Q)]
                  [order_o1])).
  fold merged_2_items_3_payments. rewrite Hl. now left.
Defined.

(** ** Sums and means *)

Section Means.
Context {A : Type}.
Variable col : A -> option Q.

Lemma count_zero_iff {B} (c : A -> option B) (g : list A) :
  pd.count c g = 0 <-> forall r, In r g -> c r = None.
Proof.
  induction g as [| r g IH]; cbn [pd.count].
  - split; [intros _ r [] | reflexivity].
  - destruct (c r) eqn:Hr; cbn [pd.isna].
    + split; [discriminate |]. intros Hall.
      specialize (Hall r (or_introl eq_refl)). congruence.
    + rewrite IH. split.
      * intros Hall r' [<- | Hr']; auto.
      * intros Hall r' Hr'. apply Hall. now right.
Qed.

Lemma mean_None_iff (g : list A) :
  pd.mean col g = None <-> forall r, In r g -> col r = None.
Proof.
  rewrite <- count_zero_iff. unfold pd.mean.
  destruct (pd.count col g); split; congruence.
Qed.

Lemma sum_all_null (g : list A) :
  (forall r, In r g -> col r = None) -> pd.sum col g = 0%Q.
Proof.
  induction g as [| r g IH]; intros Hall; [reflexivity |]. cbn [pd.sum].
  rewrite (Hall r (or_introl eq_refl)). apply IH.
  intros r' Hr'. apply Hall. now right.
Qed.

End Means.

(** X10.  A row of the state summary has a null [avg_order_value] exactly
    when no merged row of its state has a payment, that is when the count
    of its payment cells is 0; its [total_revenue] is never null, and is 0
    when the average is null.  The null average is inserted as it is. *)
Theorem state_summary_average_and_revenue :
  forall (merged_df : list Merged.t) (s : StateSummary.t),
    In s (PipelineOlist.create_state_summary merged_df) ->
    exists st,
      let g := filter (pd.in_group Merged.customer_state st) merged_df in
      StateSummary.customer_state s = Some st
      /\ (StateSummary.avg_order_value s = None <->
          forall m, In m g -> Merged.payment_value m = None)
      /\ (StateSummary.avg_order_value s = None <->
          pd.count Merged.payment_value g = 0)
      /\ (StateSummary.avg_order_value s = None ->
          StateSummary.total_revenue s = Some 0%Q)
      /\ StateSummary.total_revenue s <> None.
Proof.
  intros merged_df s Hs. apply state_summary_In in Hs.
  destruct Hs as [st [_ Hs]]. exists st. cbv zeta in *. subst s.
  cbn [StateSummary.customer_state StateSummary.avg_order_value
       StateSummary.total_revenue].
  split; [reflexivity |]. split; [apply mean_None_iff |]. split.
  - rewrite mean_None_iff. symmetry. apply count_zero_iff.
  - split; [| discriminate]. intros Hnone. rewrite mean_None_iff in Hnone.
    now rewrite sum_all_null by exact Hnone.
Qed.

Lemma state_summary_average_and_revenue_witness :
  exists s st,
    In s (PipelineOlist.create_state_summary merged_no_item)
    /\ StateSummary.customer_state s = Some st.
Proof.
  destruct (PipelineOlist.create_state_summary merged_no_item)
    as [| s l] eqn:Hl; [discriminate Hl |].
  assert (Hin : In s (PipelineOlist.create_state_summary merged_no_item))
    by (rewrite Hl; now left).
  destruct (state_summary_average_and_revenue _ _ Hin) as [st [Hst _]].
  exists s, st. rewrite <- Hl. split; [exact Hin | exact Hst].
Defined.

(** X11.  The rows [pipeline_olist.py] inserts into the sales summary have no
    null
    cell: a mean without any value is inserted as 0.  In the rows
    [prefect_pipeline.py] inserts, [total_spent] is never null and
    [avg_price] is null exactly when no merged row of the group has a
    price. *)
Theorem sales_summary_null_cells :
  forall (merged_df : list Merged.t) (s : SalesSummary.t),
    (In s (PipelineOlist.create_sales_summary merged_df) ->
     SalesSummary.customer_id s <> None
     /\ SalesSummary.customer_state s <> None
     /\ SalesSummary.customer_city s <> None
     /\ SalesSummary.total_spent s <> None
     /\ SalesSummary.avg_order_value s <> None
     /\ SalesSummary.avg_price s <> None
     /\ SalesSummary.avg_freight s <> None
     /\ ((forall m, In m (sales_group merged_df s) ->
                    Merged.price m = None) ->
         SalesSummary.avg_price s = Some 0%Q))
    /\ (In s (PrefectPipeline.create_sales_summary merged_df) ->
        SalesSummary.total_spent s <> None
        /\ (SalesSummary.avg_price s = None <->
            forall m, In m (sales_group merged_df s) ->
                      Merged.price m = None)).
Proof.
  intros merged_df s. split.
  - unfold PipelineOlist.create_sales_summary. rewrite map_map, in_map_iff.
    intros [s0 [Hs Hin]]. apply sales_agg_In in Hin.
    destruct Hin as [a [b [c Hs0]]]. cbv zeta in Hs0. subst s0. cbn in Hs.
    subst s. erewrite sales_group_key by reflexivity.
    cbn [SalesSummary.customer_id SalesSummary.customer_state
         SalesSummary.customer_city SalesSummary.total_spent
         SalesSummary.avg_order_value SalesSummary.avg_price
         SalesSummary.avg_freight].
    repeat split; try discriminate;
      try (match goal with
           | |- float_or_zero (pd.fillna ?x) <> None =>
               destruct x; discriminate
           end).
    intros Hnull. rewrite <- mean_None_iff in Hnull. now rewrite Hnull.
  - unfold PrefectPipeline.create_sales_summary. rewrite in_map_iff.
    intros [s0 [Hs Hin]]. apply sales_agg_In in Hin.
    destruct Hin as [a [b [c Hs0]]]. cbv zeta in Hs0. subst s0. cbn in Hs.
    subst s. erewrite sales_group_key by reflexivity.
    cbn [SalesSummary.total_spent SalesSummary.avg_price].
    split; [discriminate | apply mean_None_iff].
Qed.

Lemma sales_summary_null_cells_witness :
  exists s,
    In s (PipelineOlist.create_sales_summary merged_no_item)
    /\ SalesSummary.avg_price s = Some 0%Q.
Proof.
  destruct (PipelineOlist.create_sales_summary merged_no_item)
    as [| s l] eqn:Hl; [discriminate Hl |].
  assert (Hin : In s (PipelineOlist.create_sales_summary merged_no_item))
    by (rewrite Hl; now left).
  exists s. rewrite <- Hl. split; [exact Hin |].
  apply (proj1 (sales_summary_null_cells merged_no_item s) Hin).
  intros m Hm. apply filter_In in Hm. destruct Hm as [Hm _].
  vm_compute in Hm. destruct Hm as [<- | []]. reflexivity.
Defined.

(** ** The statistics of a delivery row *)

Lemma values_inject (l : list Z) :
  pd.values (fun z => Some (inject_Z z)) l = map inject_Z l.
Proof. induction l as [| z l IH]; cbn; [reflexivity | now rewrite IH]. Qed.

Lemma count_inject (l : list Z) :
  pd.count (fun z => Some (inject_Z z)) l = List.length l.
Proof. now rewrite count_values, values_inject, length_map. Qed.

Lemma sum_lower_bound (lo : Z) (l : list Z) :
  Forall (fun d => (lo <= d)%Z) l ->
  (inject_Z lo * inject_Z (Z.of_nat (List.length l))
   <= pd.sum (fun z => Some (inject_Z z)) l)%Q.
Proof.
  induction 1 as [| d l Hd Hall IH]; cbn [List.length pd.sum].
  - rewrite Qmult_0_r. apply Qle_refl.
  - rewrite Nat2Z.inj_succ, <- Z.add_1_l, inject_Z_plus.
    setoid_replace (inject_Z lo * (inject_Z 1 + inject_Z (Z.of_nat
                                                          (List.length l))))%Q
      with (inject_Z lo
            + inject_Z lo * inject_Z (Z.of_nat (List.length l)))%Q by ring.
    apply Qplus_le_compat; [now rewrite <- Zle_Qle | exact IH].
Qed.

Lemma sum_upper_bound (hi : Z) (l : list Z) :
  Forall (fun d => (d <= hi)%Z) l ->
  (pd.sum (fun z => Some (inject_Z z)) l
   <= inject_Z hi * inject_Z (Z.of_nat (List.length l)))%Q.
Proof.
  induction 1 as [| d l Hd Hall IH]; cbn [List.length pd.sum].
  - rewrite Qmult_0_r. apply Qle_refl.
  - rewrite Nat2Z.inj_succ, <- Z.add_1_l, inject_Z_plus.
    setoid_replace (inject_Z hi * (inject_Z 1 + inject_Z (Z.of_nat
                                                          (List.length l))))%Q
      with (inject_Z hi
            + inject_Z hi * inject_Z (Z.of_nat (List.length l)))%Q by ring.
    apply Qplus_le_compat; [now rewrite <- Zle_Qle | exact IH].
Qed.

(** The mean of a non-empty list of integers lies between its bounds. *)
Lemma mean_between (lo hi : Z) (l : list Z) :
  l <> [] ->
  Forall (fun d => (lo <= d)%Z) l -> Forall (fun d => (d <= hi)%Z) l ->
  exists a, pd.mean (fun z => Some (inject_Z z)) l = Some a
            /\ (inject_Z lo <= a)%Q /\ (a <= inject_Z hi)%Q.
Proof.
  intros Hne Hlo Hhi. unfold pd.mean. rewrite count_inject.
  destruct (List.length l) as [| n] eqn:Hn.
  { destruct l; [contradiction | discriminate Hn]. }
  eexists. split; [reflexivity |].
  assert (Hpos : (0 < inject_Z (Z.of_nat (S n)))%Q).
  { change 0%Q with (inject_Z 0). rewrite <- Zlt_Qlt. lia. }
  split.
  - apply Qle_shift_div_l; [exact Hpos |]. rewrite <- Hn.
    now apply sum_lower_bound.
  - apply Qle_shift_div_r; [exact Hpos |]. rewrite <- Hn.
    now apply sum_upper_bound.
Qed.

Lemma count_as_float_same {A} (col : A -> option Z) (g : list A) :
  pd.count (pd.as_float col) g = pd.count col g.
Proof.
  induction g as [| r g IH]; [reflexivity |]. unfold pd.as_float in *.
  cbn [pd.count]. destruct (col r); cbn [pd.isna]; now rewrite IH.
Qed.

Lemma std_None_iff `{Env} {A} (col : A -> option Q) (g : list A) :
  pd.std col g = None <-> pd.count col g < 2.
Proof.
  unfold pd.std, pd.mean.
  destruct (pd.count col g) as [| [| n]]; split; try discriminate;
    try reflexivity; try lia; intros; lia.
Qed.

(** X12.  In a row of the delivery summary the five statistics of the latency
    are
    null together when the state has no delivered order; when it has one the
    fastest delivery is at most the slowest and the average lies between
    them; the standard deviation is null when fewer than two orders were
    delivered. *)
Theorem delivery_statistics_are_ordered :
  forall (E : Env) (orders : list Order.t) (customers : list Customer.t)
         (s : DeliverySummary.t),
    In s (fst (PipelineOlist.create_delivery_summary (RawOrders orders)
                                                     customers)) ->
    (DeliverySummary.delivered_orders s = 0 ->
     DeliverySummary.avg_delivery_days s = None
     /\ DeliverySummary.median_delivery_days s = None
     /\ DeliverySummary.fastest_delivery s = None
     /\ DeliverySummary.slowest_delivery s = None
     /\ DeliverySummary.std_delivery_days s = None)
    /\ (0 < DeliverySummary.delivered_orders s ->
        exists lo hi a,
          DeliverySummary.fastest_delivery s = Some lo
          /\ DeliverySummary.slowest_delivery s = Some hi
          /\ DeliverySummary.avg_delivery_days s = Some a
          /\ (lo <= hi)%Z
          /\ (inject_Z lo <= a)%Q /\ (a <= inject_Z hi)%Q)
    /\ (DeliverySummary.std_delivery_days s = None <->
        DeliverySummary.delivered_orders s < 2).
Proof.
  intros E orders customers s Hs. apply delivery_summary_In in Hs.
  destruct Hs as [st [_ Hs]]. cbv zeta in Hs.
  set (g := delivery_group orders customers st) in *. subst s.
  cbn [DeliverySummary.delivered_orders DeliverySummary.avg_delivery_days
       DeliverySummary.median_delivery_days DeliverySummary.fastest_delivery
       DeliverySummary.slowest_delivery DeliverySummary.std_delivery_days].
  rewrite std_None_iff, count_as_float_same.
  rewrite mean_skipna, min_skipna, max_skipna, count_skipna.
  unfold pd.median.
  set (days := pd.values delivery_days g).
  split; [| split; [| reflexivity]].
  - intros Hzero. destruct days; [| discriminate Hzero].
    repeat split. cbn [List.length]. lia.
  - intros Hpos.
    pose proof (min_spec days) as Hmin. pose proof (max_spec days) as Hmax.
    destruct days as [| d0 ds] eqn:Hd; [cbn in Hpos; lia |].
    rewrite <- Hd in *.
    destruct (pd.min (fun v => Some v) days) as [lo |];
      [| rewrite Hmin in Hd; discriminate Hd].
    destruct (pd.max (fun v => Some v) days) as [hi |];
      [| rewrite Hmax in Hd; discriminate Hd].
    destruct Hmin as [Hlo_in Hlo]. destruct Hmax as [Hhi_in Hhi].
    destruct (mean_between (lo := lo) (hi := hi) (l := days))
      as [a [Ha [Hla Hah]]]; trivial.
    { rewrite Hd. discriminate. }
    exists lo, hi, a. repeat split; trivial.
    rewrite Forall_forall in Hlo. now apply Hlo.
Qed.

Lemma delivery_statistics_are_ordered_witness :
  exists s,
    In s (fst (@PipelineOlist.create_delivery_summary sample_env
                 (RawOrders [order_o1]) [customer_c1]))
    /\ (DeliverySummary.std_delivery_days s = None <->
        DeliverySummary.delivered_orders s < 2).
Proof.
  destruct (fst (@PipelineOlist.create_delivery_summary sample_env
                   (RawOrders [order_o1]) [customer_c1]))
    as [| s l] eqn:Hl; [discriminate Hl |].
  assert (Hin : In s (fst (@PipelineOlist.create_delivery_summary sample_env
                             (RawOrders [order_o1]) [customer_c1])))
    by (rewrite Hl; now left).
  exists s. rewrite <- Hl. split; [exact Hin |].
  apply (@delivery_statistics_are_ordered sample_env [order_o1]
           [customer_c1] s Hin).
Defined.

(** X13.  An order delivered before it was purchased has a negative latency, -1
    within the first day before the purchase, and an order delivered less
    than a day after its purchase has latency 0: the latency is rounded
    down, not toward zero. *)
Theorem delivery_days_round_down :
  forall (E : Env) (o : Order.t) (p dl : Z),
    pd.to_datetime (Order.order_purchase_timestamp o) = Some p ->
    pd.to_datetime (Order.order_delivered_customer_date o) = Some dl ->
    exists d,
      TimedOrder.delivery_days (assign_delivery_columns o) = Some d
      /\ ((d < 0)%Z <-> (dl < p)%Z)
      /\ (d = 0%Z <-> (p <= dl < p + pd.ns_per_day)%Z)
      /\ (d = (-1)%Z <-> (p - pd.ns_per_day <= dl < p)%Z).
Proof.
  intros E o p dl Hp Hd. unfold assign_delivery_columns.
  cbn [TimedOrder.delivery_days]. rewrite Hp, Hd. cbn [pd.days_between].
  eexists. split; [reflexivity |].
  set (d := ((dl - p) / pd.ns_per_day)%Z).
  assert (Hfloor : (pd.ns_per_day * d <= dl - p
                    < pd.ns_per_day * (d + 1))%Z)
    by now apply floor_days.
  assert (Hns : (0 < pd.ns_per_day)%Z) by reflexivity.
  repeat split; intros; nia.
Qed.

Lemma delivery_days_round_down_witness :
  exists d,
    TimedOrder.delivery_days (@assign_delivery_columns sample_env order_o1)
    = Some d
    /\ ((d < 0)%Z <-> (1515142800000000000 < 1514800800000000000)%Z).
Proof.
  destruct (@delivery_days_round_down sample_env order_o1
              1514800800000000000%Z 1515142800000000000%Z eq_refl eq_refl)
    as [d [Hd [Hneg _]]].
  exists d. split; [exact Hd | exact Hneg].
Defined.

(** X14.  Calling [create_delivery_summary] again on the frame a first call left
    inserts the same rows and leaves that frame as it is. *)
Theorem delivery_summary_is_idempotent :
  forall (E : Env) (orders : OrdersFrame) (customers : list Customer.t),
    PipelineOlist.create_delivery_summary
      (snd (PipelineOlist.create_delivery_summary orders customers))
      customers
    = PipelineOlist.create_delivery_summary orders customers
    /\ PrefectPipeline.create_delivery_summary customers
         (snd (PrefectPipeline.create_delivery_summary customers orders))
       = PrefectPipeline.create_delivery_summary customers orders.
Proof.
  intros E orders customers.
  assert (Hfix : delivery_summary_of
                   (snd (delivery_summary_of orders customers)) customers
                 = delivery_summary_of orders customers).
  { unfold delivery_summary_of. cbn [snd].
    assert (Hrows :
      map reassign_delivery_columns
          match orders with
          | RawOrders rows => map assign_delivery_columns rows
          | TimedOrders rows => map reassign_delivery_columns rows
          end
      = match orders with
        | RawOrders rows => map assign_delivery_columns rows
        | TimedOrders rows => map reassign_delivery_columns rows
        end).
    { destruct orders as [rows | rows]; rewrite map_map; apply map_ext;
        intros o; reflexivity. }
    now rewrite Hrows. }
  split; exact Hfix.
Qed.

(** ** The master table after a load *)

Lemma same_outcome_sym (a b : Load) : same_outcome a b -> same_outcome b a.
Proof. intros [Ht [Hn [He Hw]]]. repeat split; congruence. Qed.

Lemma same_outcome_trans (a b c : Load) :
  same_outcome a b -> same_outcome b c -> same_outcome a c.
Proof.
  intros [Ht [Hn [He Hw]]] [Ht' [Hn' [He' Hw']]]. repeat split; congruence.
Qed.

Section LoadOutcome.
Context `{Host}.

(** What a load leaves: the table is committed, and the table, the counts
    and the warnings are those of the row-by-row run. *)
Lemma load_outcome (connection : Connection) (merged_df : list Series.t) :
  let r := PipelineOlist.load_master_table connection merged_df in
  let rr := row_by_row connection merged_df in
  committed (conn r) = table (conn rr)
  /\ pending (conn r) = []
  /\ total_rows r = total_rows rr
  /\ errors r = errors rr
  /\ warnings (log r) = warnings (log rr).
Proof.
  cbv zeta. rewrite load_master_table_batches. cbv zeta.
  set (st := fold_left (PipelineOlist.insert_batch (List.length merged_df))
                       (batches merged_df) (start_of_load connection)).
  cbn [conn total_rows errors log].
  assert (Hsame : same_outcome st (row_by_row connection merged_df)).
  { unfold row_by_row.
    replace (fold_left PipelineOlist.insert_row merged_df
                       (start_of_load connection))
      with (fold_left PipelineOlist.insert_row
                      (List.concat (batches merged_df))
                      (start_of_load connection))
      by now rewrite batches_concat.
    apply insert_batches_same. repeat split. }
  destruct Hsame as [Ht [Hn [He Hw]]].
  destruct (insert_batches_commits (List.length merged_df)
              (batches merged_df) (start_of_load connection) eq_refl)
    as [_ Hpending].
  cbv zeta in Hpending. fold st in Hpending.
  repeat split; trivial.
  - rewrite <- Ht. unfold table. now rewrite Hpending, app_nil_r.
  - unfold warnings in *. rewrite filter_app. cbn. now rewrite app_nil_r.
Qed.

Lemma row_by_row_any_connection (c1 c2 : Connection)
    (merged_df : list Series.t) :
  same_outcome (row_by_row c1 merged_df) (row_by_row c2 merged_df).
Proof. unfold row_by_row. apply insert_rows_same. repeat split. Qed.

End LoadOutcome.

(** X16.  The master table is rebuilt from nothing: the committed rows, the two
    counts and the logged warnings of a load are the same whatever the
    connection held before, so a second load of the same frame on the
    connection the first one left gives the same table. *)
Theorem master_table_is_rebuilt :
  forall (S0 : Host) (c1 c2 : Connection) (merged_df : list Series.t),
    let r1 := PipelineOlist.load_master_table c1 merged_df in
    let r2 := PipelineOlist.load_master_table c2 merged_df in
    (committed (conn r1) = committed (conn r2)
     /\ total_rows r1 = total_rows r2
     /\ errors r1 = errors r2
     /\ warnings (log r1) = warnings (log r2))
    /\ committed (conn (PipelineOlist.load_master_table (conn r1) merged_df))
       = committed (conn r1).
Proof.
  intros S0 c1 c2 merged_df.
  assert (Hany : forall c c',
    committed (conn (PipelineOlist.load_master_table c merged_df))
    = committed (conn (PipelineOlist.load_master_table c' merged_df))
    /\ total_rows (PipelineOlist.load_master_table c merged_df)
       = total_rows (PipelineOlist.load_master_table c' merged_df)
    /\ errors (PipelineOlist.load_master_table c merged_df)
       = errors (PipelineOlist.load_master_table c' merged_df)
    /\ warnings (log (PipelineOlist.load_master_table c merged_df))
       = warnings (log (PipelineOlist.load_master_table c' merged_df))).
  { intros c c'.
    destruct (load_outcome c merged_df) as [Hc [_ [Hn [He Hw]]]].
    destruct (load_outcome c' merged_df) as [Hc' [_ [Hn' [He' Hw']]]].
    destruct (row_by_row_any_connection c c' merged_df)
      as [Ht [Hn2 [He2 Hw2]]].
    cbv zeta in *. repeat split; congruence. }
  cbv zeta. split; [apply Hany |]. apply Hany.
Qed.

Section AcceptedRows.
Context `{Host}.

(** The rows inserted are rows of the frame, in frame order, each at most
    once: the flags tell which rows the database accepted. *)
Lemma insert_rows_select (rows : list Series.t) (st : Load) :
  exists kept,
    List.length kept = List.length rows
    /\ table (conn (fold_left PipelineOlist.insert_row rows st))
       = table (conn st) ++ map master_row (select kept rows)
    /\ total_rows (fold_left PipelineOlist.insert_row rows st)
       = total_rows st + List.length (filter (fun b => b) kept)
    /\ errors (fold_left PipelineOlist.insert_row rows st)
       = errors st + List.length (filter negb kept).
Proof.
  revert st. induction rows as [| row rows IH]; intros st.
  - exists []. cbn. rewrite app_nil_r. repeat split; lia.
  - cbn [fold_left].
    destruct (IH (PipelineOlist.insert_row st row))
      as [kept [Hlen [Ht [Hn He]]]].
    unfold PipelineOlist.insert_row in *.
    destruct (insert_error (table (conn st)) (master_row row)) as [e |].
    + exists (false :: kept). cbv zeta in *.
      cbn [conn total_rows errors] in *. cbn [List.length select filter negb].
      repeat split; try lia; trivial.
    + exists (true :: kept). cbn [conn total_rows errors] in *.
      cbn [List.length select filter negb map].
      repeat split; try lia.
      rewrite Ht. unfold table, execute_insert. cbn.
      now rewrite <- !app_assoc.
Qed.

Lemma insert_rows_all_accepted (rows : list Series.t) (st : Load) :
  (forall t p, insert_error t p = None) ->
  table (conn (fold_left PipelineOlist.insert_row rows st))
    = table (conn st) ++ map master_row rows
  /\ total_rows (fold_left PipelineOlist.insert_row rows st)
     = total_rows st + List.length rows
  /\ errors (fold_left PipelineOlist.insert_row rows st) = errors st
  /\ log (fold_left PipelineOlist.insert_row rows st) = log st.
Proof.
  intros Hacc. revert st. induction rows as [| row rows IH]; intros st.
  - cbn. rewrite app_nil_r. repeat split; lia.
  - cbn [fold_left].
    destruct (IH (PipelineOlist.insert_row st row)) as [Ht [Hn [He Hl]]].
    unfold PipelineOlist.insert_row in *. rewrite Hacc in *.
    cbn [conn total_rows errors log] in *. cbn [List.length map].
    repeat split; try lia; trivial.
    rewrite Ht. unfold table, execute_insert. cbn.
    now rewrite <- !app_assoc.
Qed.

End AcceptedRows.

(** X17.  The master table holds rows of the frame only, in the order of the
    frame and each at most once: the committed rows are the parameters of
    the rows the database accepted, [total_rows] counts them and [errors]
    the others. *)
Theorem master_table_is_a_selection_of_the_frame :
  forall (S0 : Host) (connection : Connection) (merged_df : list Series.t),
    let r := PipelineOlist.load_master_table connection merged_df in
    exists kept : list bool,
      List.length kept = List.length merged_df
      /\ committed (conn r) = map master_row (select kept merged_df)
      /\ total_rows r = List.length (filter (fun b => b) kept)
      /\ errors r = List.length (filter negb kept).
Proof.
  intros S0 connection merged_df r.
  destruct (load_outcome connection merged_df) as [Hc [_ [Hn [He _]]]].
  cbv zeta in Hc, Hn, He. fold r in Hc, Hn, He.
  destruct (insert_rows_select merged_df (start_of_load connection))
    as [kept [Hlen [Ht [Hn' He']]]].
  fold (row_by_row connection merged_df) in Ht, Hn', He'.
  exists kept. rewrite Hc, Hn, He, Ht, Hn', He'. cbn. auto.
Qed.

(** X18.  When the database rejects no insertion the master table holds the
    parameters of every row of the frame, in order; no error is counted and
    no warning logged. *)
Theorem master_table_without_failures :
  forall (S0 : Host) (connection : Connection) (merged_df : list Series.t),
    (forall t p, insert_error t p = None) ->
    let r := PipelineOlist.load_master_table connection merged_df in
    committed (conn r) = map master_row merged_df
    /\ total_rows r = List.length merged_df
    /\ errors r = 0
    /\ warnings (log r) = [].
Proof.
  intros S0 connection merged_df Hacc r.
  destruct (load_outcome connection merged_df) as [Hc [_ [Hn [He Hw]]]].
  cbv zeta in Hc, Hn, He, Hw. fold r in Hc, Hn, He, Hw.
  destruct (insert_rows_all_accepted merged_df (start_of_load connection)
              Hacc) as [Ht [Hn' [He' Hl']]].
  fold (row_by_row connection merged_df) in Ht, Hn', He', Hl'.
  rewrite Hc, Hn, He, Hw, Ht, Hn', He', Hl'. cbn. auto.
Qed.

Lemma master_table_without_failures_witness :
  let r := @PipelineOlist.load_master_table accepting_host empty_connection
             [row_order_only; row_long_state] in
  committed (conn r)
  = map (@master_row accepting_host) [row_order_only; row_long_state]
  /\ errors r = 0.
Proof.
  destruct (@master_table_without_failures accepting_host empty_connection
              [row_order_only; row_long_state] (fun _ _ => eq_refl))
    as [Hc [_ [He _]]].
  split; [exact Hc | exact He].
Defined.

(** ** The two loaders *)

Lemma fold_left_related {X S T} (Rel : S -> T -> Prop) (f : S -> X -> S)
    (g : T -> X -> T) (l : list X) (a : S) (b : T) :
  (forall a b x, Rel a b -> Rel (f a x) (g b x)) ->
  Rel a b -> Rel (fold_left f l a) (fold_left g l b).
Proof.
  intros Hstep. revert a b. induction l as [| x l IH]; intros a b Hab;
    [exact Hab |].
  cbn [fold_left]. apply IH. now apply Hstep.
Qed.

(** X19.  The loader of [prefect_pipeline.py] leaves the connection, the
    number of
    inserted rows and the number of errors that the loader of
    [pipeline_olist.py] leaves, and logs none of the failures: its log is
    the start record and the record of the two totals. *)
Theorem prefect_loader_agrees_and_logs_no_failure :
  forall (S0 : Host) (connection : Connection) (merged_df : list Series.t),
    let r := PipelineOlist.load_master_table connection merged_df in
    let r' := PrefectPipeline.load_master_table connection merged_df in
    conn r' = conn r
    /\ total_rows r' = total_rows r
    /\ errors r' = errors r
    /\ log r' = [InfoLoading; InfoLoaded (total_rows r) (errors r)].
Proof.
  intros S0 connection merged_df.
  set (Rel := fun a b : Load =>
         conn a = conn b /\ total_rows a = total_rows b
         /\ errors a = errors b /\ log b = [InfoLoading]).
  assert (Hrow : forall a b row,
            Rel a b ->
            Rel (PipelineOlist.insert_row a row)
                (PrefectPipeline.insert_row b row)).
  { intros a b row [Hc [Hn [He Hl]]].
    unfold Rel, PipelineOlist.insert_row, PrefectPipeline.insert_row.
    rewrite Hc. destruct (insert_error _ _);
      cbv zeta; cbn [conn total_rows errors log]; repeat split; congruence. }
  set (fo := fold_left
                (fun st i =>
                   PipelineOlist.insert_batch (List.length merged_df) st
                     (iloc merged_df i (i + batch_size)))
                (range (List.length merged_df) batch_size)
                (start_of_load connection)).
  set (fp := fold_left
                (fun st i =>
                   let st := fold_left PrefectPipeline.insert_row
                               (iloc merged_df i (i + batch_size)) st in
                   {| conn := commit (conn st);
                      total_rows := total_rows st;
                      errors := errors st;
                      log := log st |})
                (range (List.length merged_df) batch_size)
                {| conn := drop_and_create connection;
                   total_rows := 0; errors := 0; log := [InfoLoading] |}).
  assert (Hfold : Rel fo fp).
  { apply fold_left_related; [| repeat split].
    intros a b i Hab. cbv zeta. unfold PipelineOlist.insert_batch.
    assert (Hin : Rel (fold_left PipelineOlist.insert_row
                         (iloc merged_df i (i + batch_size)) a)
                      (fold_left PrefectPipeline.insert_row
                         (iloc merged_df i (i + batch_size)) b))
      by (apply fold_left_related; [exact Hrow | exact Hab]).
    destruct Hin as [Hc' [Hn' [He' Hl']]].
    unfold Rel. cbn [conn total_rows errors log].
    rewrite Hc', Hn', He'. auto. }
  destruct Hfold as [Hc [Hn [He Hl]]].
  change (conn fp = conn fo
          /\ total_rows fp = total_rows fo
          /\ errors fp = errors fo
          /\ log fp ++ [InfoLoaded (total_rows fp) (errors fp)]
             = [InfoLoading; InfoLoaded (total_rows fo) (errors fo)]).
  rewrite Hl, Hc, Hn, He. auto.
Qed.

(** ** The master row of a merged row *)

(** X20.  The parameters inserted for a row of the merged relation: each
    text cell as it is, null when missing; the zip code prefix as the cell
    the frame holds, so the integer that [read_csv] made of its digits, and
    the float of that integer when some order of the frame found no
    customer; the two timestamps as their text; a missing price, freight or
    payment as 0.  So an order without order item enters the master table
    with a null [product_id] and a price of 0. *)
Theorem master_row_of_a_merged_row :
  forall (S0 : Host) (merged_df : list Merged.t) (m : Merged.t),
    let promoted := customer_missing merged_df in
    let row := to_series promoted m in
    master_row row =
    MasterRow.mk
      (text_cell (Merged.order_id m))
      (text_cell (Merged.customer_id m))
      (text_cell (Merged.customer_city m))
      (text_cell (Merged.customer_state m))
      (if promoted then promote (Merged.customer_zip_code_prefix m)
       else Merged.customer_zip_code_prefix m)
      (text_cell (Merged.order_status m))
      (Merged.order_purchase_timestamp m)
      (Merged.order_delivered_customer_date m)
      (float_or_zero (Merged.price m))
      (float_or_zero (Merged.freight_value m))
      (text_cell (Merged.payment_type m))
      (float_or_zero (Merged.payment_value m))
      (text_cell (Merged.product_id m))
    /\ (Merged.item m = None ->
        MasterRow.product_id (master_row row) = Null
        /\ MasterRow.price (master_row row) = Some 0%Q
        /\ MasterRow.freight_value (master_row row) = Some 0%Q)
    /\ (forall (c : Customer.t) (z : Z),
          Merged.customer m = Some c ->
          Customer.customer_zip_code_prefix c = Int z ->
          MasterRow.customer_zip_code_prefix (master_row row) =
            if promoted then Float (inject_Z z) else Int z)
    /\ (forall (c : Customer.t) (s : string),
          Merged.customer m = Some c ->
          Customer.customer_zip_code_prefix c = Str s ->
          MasterRow.customer_zip_code_prefix (master_row row) = Str s)
    /\ (In m merged_df -> Merged.customer m = None ->
        promoted = true
        /\ MasterRow.customer_zip_code_prefix (master_row row) = Null).
Proof.
  intros S0 merged_df m promoted row.
  assert (Hrow : master_row row =
    MasterRow.mk
      (text_cell (Merged.order_id m))
      (text_cell (Merged.customer_id m))
      (text_cell (Merged.customer_city m))
      (text_cell (Merged.customer_state m))
      (if promoted then promote (Merged.customer_zip_code_prefix m)
       else Merged.customer_zip_code_prefix m)
      (text_cell (Merged.order_status m))
      (Merged.order_purchase_timestamp m)
      (Merged.order_delivered_customer_date m)
      (float_or_zero (Merged.price m))
      (float_or_zero (Merged.freight_value m))
      (text_cell (Merged.payment_type m))
      (float_or_zero (Merged.payment_value m))
      (text_cell (Merged.product_id m))).
  { unfold row, master_row, to_series, safe_get.
    cbn [Series.get string_dec string_rec string_rect ascii_dec ascii_rec
         ascii_rect bool_dec bool_rec bool_rect sumbool_rec sumbool_rect
         eq_rec_r eq_rec eq_rect eq_sym f_equal].
    rewrite !cell_or_null.
    f_equal;
      match goal with
      | |- safe_datetime (text_cell ?x) = _ => now destruct x
      | |- safe_float (float_cell ?x) _ = _ => now destruct x
      | _ => reflexivity
      end. }
  split; [exact Hrow |]. rewrite Hrow.
  cbn [MasterRow.product_id MasterRow.price MasterRow.freight_value
       MasterRow.customer_zip_code_prefix].
  split; [| split; [| split]].
  - intros Hitem.
    unfold Merged.product_id, Merged.price, Merged.freight_value.
    rewrite Hitem. cbn. auto.
  - intros c z Hc Hz. unfold Merged.customer_zip_code_prefix.
    rewrite Hc, Hz. reflexivity.
  - intros c s Hc Hs. unfold Merged.customer_zip_code_prefix.
    rewrite Hc, Hs. now destruct promoted.
  - intros Hin Hc.
    assert (Hp : promoted = true).
    { unfold promoted, customer_missing. apply existsb_exists.
      exists m. split; [exact Hin |]. now rewrite Hc. }
    split; [exact Hp |]. unfold Merged.customer_zip_code_prefix.
    rewrite Hc, Hp. reflexivity.
Qed.

Lemma master_row_of_a_merged_row_witness :
  exists m,
    In m merged_no_item
    /\ MasterRow.price
         (@master_row sample_host
            (to_series (customer_missing merged_no_item) m)) = Some 0%Q
    /\ MasterRow.customer_zip_code_prefix
         (@master_row sample_host
            (to_series (customer_missing merged_no_item) m)) = Int 1001.
Proof.
  destruct merged_no_item as [| m l] eqn:Hl; [discriminate Hl |].
  exists m. split; [now left |].
  destruct (master_row_of_a_merged_row sample_host (m :: l) m)
    as [_ [Hitem [Hzip _]]].
  injection Hl as <- <-. split.
  - apply Hitem. reflexivity.
  - apply (Hzip customer_c1 1001%Z); reflexivity.
Defined.

(** ** The order of the merged rows *)

Lemma map_const_repeat {X Y} (y : Y) (xs : list X) :
  map (fun _ : X => y) xs = repeat y (List.length xs).
Proof. induction xs as [| x xs IH]; cbn; [reflexivity | now rewrite IH]. Qed.

Lemma flat_map_repeat_repeat {X} (g : X -> nat) (x : X) (n : nat) :
  flat_map (fun o => repeat o (g o)) (repeat x n) = repeat x (n * g x).
Proof.
  induction n as [| n IH]; [reflexivity |].
  cbn [repeat flat_map Nat.mul]. now rewrite IH, repeat_app.
Qed.

Lemma flat_map_repeat_twice {X} (f g : X -> nat) (l : list X) :
  flat_map (fun o => repeat o (g o)) (flat_map (fun o => repeat o (f o)) l)
  = flat_map (fun o => repeat o (f o * g o)) l.
Proof.
  induction l as [| x l IH]; [reflexivity |].
  cbn [flat_map]. now rewrite flat_map_app, flat_map_repeat_repeat, IH.
Qed.

Lemma map_flat_map_repeat {X Y} (h : X -> Y) (f : Y -> nat) (l : list X) :
  map h (flat_map (fun x => repeat x (f (h x))) l)
  = flat_map (fun y => repeat y (f y)) (map h l).
Proof.
  induction l as [| x l IH]; [reflexivity |].
  cbn [flat_map map]. rewrite map_app, IH. f_equal.
  generalize (f (h x)). intros n.
  induction n as [| n IHn]; cbn; [reflexivity | now rewrite IHn].
Qed.

Section MergeOrder.
Context {L R K : Type} `{Key K}.
Variables (on_l : L -> K) (on_r : R -> K).

(** The left rows of a left join are the rows of the left frame in their
    order, each repeated once per match, or once without a match. *)
Lemma merge_fsts (left : list L) (right : list R) :
  map fst (pd.merge on_l on_r left right)
  = flat_map (fun l => repeat l (fan on_l on_r right l)) left.
Proof.
  induction left as [| l left IH]; [reflexivity |].
  rewrite merge_cons, map_app, IH. cbn [flat_map]. f_equal.
  unfold fan. destruct (matches on_l on_r right l) as [| r0 ms];
    [reflexivity |].
  rewrite map_map. cbn [fst]. rewrite map_const_repeat.
  f_equal. cbn [List.length]. lia.
Qed.

End MergeOrder.

(** X4.  The merged relation lists the cleaned orders in their order, each one
    repeated as many times as it has matching customers, order items and
    payments multiplied together, a relation without a match counting for
    one; so its length is the sum of those products. *)
Theorem merged_relation_follows_the_orders :
  forall customers order_items payments orders,
    let merged_df :=
      fst (fst (transform_data customers order_items payments orders)) in
    let customers' :=
      snd (fst (transform_data customers order_items payments orders)) in
    let orders' :=
      snd (transform_data customers order_items payments orders) in
    let copies := fun o =>
      fan Order.customer_id Customer.customer_id customers' o
      * fan Order.order_id OrderItem.order_id
            (pd.dropna [OrderItem.order_id] order_items) o
      * fan Order.order_id Payment.order_id
            (pd.dropna [Payment.order_id] payments) o in
    map Merged.order merged_df = flat_map (fun o => repeat o (copies o)) orders'
    /\ List.length merged_df = list_sum (map copies orders').
Proof.
  intros customers order_items payments orders. cbv zeta.
  assert (Horder :
    map Merged.order
        (fst (fst (transform_data customers order_items payments orders)))
    = flat_map
        (fun o => repeat o
           (fan Order.customer_id Customer.customer_id
                (snd (fst (transform_data customers order_items
                                          payments orders))) o
            * fan Order.order_id OrderItem.order_id
                  (pd.dropna [OrderItem.order_id] order_items) o
            * fan Order.order_id Payment.order_id
                  (pd.dropna [Payment.order_id] payments) o))
        (snd (transform_data customers order_items payments orders))).
  { unfold transform_data, Merged.order. cbn [fst snd].
    set (customers' := pd.dropna [Customer.customer_id] customers).
    set (orders' := pd.dropna [Order.order_id; Order.customer_id] orders).
    set (order_items' := pd.dropna [OrderItem.order_id] order_items).
    set (payments' := pd.dropna [Payment.order_id] payments).
    set (OC := pd.merge Order.customer_id Customer.customer_id
                        orders' customers').
    set (OCI := pd.merge (fun oc : Order.t * option Customer.t =>
                            Order.order_id (fst oc))
                         OrderItem.order_id OC order_items').
    set (C := fan Order.customer_id Customer.customer_id customers').
    set (I := fan Order.order_id OrderItem.order_id order_items').
    set (P := fan Order.order_id Payment.order_id payments').
    assert (H1 : map fst OC = flat_map (fun o => repeat o (C o)) orders')
      by apply merge_fsts.
    assert (H2 : map fst OCI
                 = flat_map (fun oc => repeat oc (I (fst oc))) OC)
      by apply (merge_fsts (fun oc : Order.t * option Customer.t =>
                              Order.order_id (fst oc)) OrderItem.order_id).
    assert (H3 : map fst (pd.merge
                            (fun oci : Order.t * option Customer.t
                                       * option OrderItem.t =>
                               Order.order_id (fst (fst oci)))
                            Payment.order_id OCI payments')
                 = flat_map (fun oci => repeat oci (P (fst (fst oci)))) OCI)
      by apply (merge_fsts (fun oci : Order.t * option Customer.t
                                      * option OrderItem.t =>
                              Order.order_id (fst (fst oci)))
                           Payment.order_id).
    transitivity
      (map (fun oci : Order.t * option Customer.t * option OrderItem.t =>
              fst (fst oci))
           (map fst (pd.merge
                       (fun oci : Order.t * option Customer.t
                                  * option OrderItem.t =>
                          Order.order_id (fst (fst oci)))
                       Payment.order_id OCI payments'))).
    { rewrite map_map. reflexivity. }
    rewrite H3.
    rewrite (map_flat_map_repeat
               (fun oci : Order.t * option Customer.t * option OrderItem.t =>
                  fst (fst oci)) P).
    replace (map (fun oci : Order.t * option Customer.t
                            * option OrderItem.t => fst (fst oci)) OCI)
      with (map fst (map fst OCI)) by (rewrite map_map; reflexivity).
    rewrite H2, (map_flat_map_repeat fst I), H1.
    rewrite !flat_map_repeat_twice.
    apply flat_map_ext. intros o. f_equal. lia. }
  split; [exact Horder |].
  rewrite <- (length_map Merged.order), Horder.
  generalize (snd (transform_data customers order_items payments orders)).
  intros os. induction os as [| o os IH]; [reflexivity |].
  cbn [flat_map map]. rewrite length_app, repeat_length, IH. reflexivity.
Qed.

(** ** The sizes of the summaries *)

Lemma In_values {A B} (col : A -> option B) (g : list A) (r : A) (v : B) :
  In r g -> col r = Some v -> In v (pd.values col g).
Proof.
  induction g as [| r' g IH]; intros Hin Hv; [destruct Hin |].
  cbn [pd.values]. destruct Hin as [-> | Hin].
  - rewrite Hv. now left.
  - destruct (col r'); [right |]; now apply IH.
Qed.

Lemma values_length_le {A B} (col : A -> option B) (g : list A) :
  List.length (pd.values col g) <= List.length g.
Proof. rewrite <- count_values. apply count_le_length. Qed.

Lemma group_keys_bounded {A R} (key : A -> option string)
    (src : R -> option string) (df : list A) (right : list R) :
  (forall r k, In r df -> key r = Some k ->
     exists x, In x right /\ src x = Some k) ->
  List.length (pd.group_keys key df) <= List.length right.
Proof.
  intros Hsrc. etransitivity; [| apply (values_length_le src right)].
  apply NoDup_incl_length; [apply group_keys_NoDup |].
  intros k Hk. apply group_keys_In in Hk. destruct Hk as [r [Hr Hk]].
  destruct (Hsrc r k Hr Hk) as [x [Hx Hv]]. now apply (In_values src right x).
Qed.

Section MergedParts.
Variables (customers : list Customer.t) (order_items : list OrderItem.t)
          (payments : list Payment.t) (orders : list Order.t).

Lemma merged_customer_part (m : Merged.t) (c : Customer.t) :
  In m (fst (fst (transform_data customers order_items payments orders))) ->
  Merged.customer m = Some c ->
  In c (pd.dropna [Customer.customer_id] customers)
  /\ Customer.customer_id c = Merged.customer_id m.
Proof.
  intros Hm Hc. unfold transform_data in Hm. cbn [fst snd] in Hm.
  apply merge_sound in Hm. destruct Hm as [Hoci _].
  apply merge_sound in Hoci. destruct Hoci as [Hoc _].
  apply merge_sound in Hoc. destruct Hoc as [_ Hcust].
  unfold Merged.customer in Hc. rewrite Hc in Hcust. exact Hcust.
Qed.

Lemma merged_item_part (m : Merged.t) (it : OrderItem.t) :
  In m (fst (fst (transform_data customers order_items payments orders))) ->
  Merged.item m = Some it ->
  In it (pd.dropna [OrderItem.order_id] order_items).
Proof.
  intros Hm Hit. unfold transform_data in Hm. cbn [fst snd] in Hm.
  apply merge_sound in Hm. destruct Hm as [Hoci _].
  apply merge_sound in Hoci. destruct Hoci as [_ Hitem].
  unfold Merged.item in Hit. rewrite Hit in Hitem. apply Hitem.
Qed.

End MergedParts.

(** X21.  No summary has more rows than the relation its keys come from: the
    state, sales and delivery summaries have at most as many rows as there
    are cleaned customers, the product summary at most as many as there are
    cleaned order items. *)
Theorem summaries_are_no_larger_than_their_sources :
  forall (E : Env) customers order_items payments orders,
    let merged_df :=
      fst (fst (transform_data customers order_items payments orders)) in
    let customers' :=
      snd (fst (transform_data customers order_items payments orders)) in
    let orders' :=
      snd (transform_data customers order_items payments orders) in
    List.length (PipelineOlist.create_state_summary merged_df)
      <= List.length customers'
    /\ List.length (PipelineOlist.create_product_summary merged_df)
       <= List.length (pd.dropna [OrderItem.order_id] order_items)
    /\ List.length (PipelineOlist.create_sales_summary merged_df)
       <= List.length customers'
    /\ List.length (PrefectPipeline.create_sales_summary merged_df)
       <= List.length customers'
    /\ List.length (fst (PipelineOlist.create_delivery_summary
                           (RawOrders orders') customers'))
       <= List.length customers'.
Proof.
  intros E customers order_items payments orders. cbv zeta.
  split; [| split; [| split; [| split]]].
  - unfold PipelineOlist.create_state_summary, pd.groupby.
    rewrite !length_map.
    apply (group_keys_bounded _ Customer.customer_state).
    intros m st Hm Hst. unfold Merged.customer_state in Hst.
    destruct (Merged.customer m) as [c |] eqn:Hc; [| discriminate].
    destruct (merged_customer_part _ _ _ _ _ Hm Hc) as [Hin _].
    exists c. auto.
  - unfold PipelineOlist.create_product_summary, pd.groupby.
    rewrite !length_map.
    apply (group_keys_bounded _ OrderItem.product_id).
    intros m pid Hm Hpid. unfold Merged.product_id in Hpid.
    destruct (Merged.item m) as [it |] eqn:Hit; [| discriminate].
    exists it. split; [| exact Hpid].
    eapply merged_item_part; eassumption.
  - unfold PipelineOlist.create_sales_summary, sales_summary_agg, pd.groupby.
    rewrite !length_map.
    etransitivity;
      [| apply (values_length_le
                  (key3 Customer.customer_id Customer.customer_state
                        Customer.customer_city))].
    apply NoDup_incl_length; [apply group_keys_NoDup |].
    intros [[a b] c] Hk. apply group_keys_In in Hk.
    destruct Hk as [m [Hm Hk]]. apply key3_Some in Hk.
    destruct Hk as [Ha [Hb Hc]]. unfold Merged.customer_state in Hb.
    destruct (Merged.customer m) as [cu |] eqn:Hcu; [| discriminate].
    destruct (merged_customer_part _ _ _ _ _ Hm Hcu) as [Hin Hid].
    apply (In_values _ _ cu); [exact Hin |]. apply key3_Some.
    unfold Merged.customer_city in Hc. rewrite Hcu in Hc. cbn in Hb, Hc.
    repeat split; congruence.
  - unfold PrefectPipeline.create_sales_summary, sales_summary_agg,
           pd.groupby.
    rewrite !length_map.
    etransitivity;
      [| apply (values_length_le
                  (key3 Customer.customer_id Customer.customer_state
                        Customer.customer_city))].
    apply NoDup_incl_length; [apply group_keys_NoDup |].
    intros [[a b] c] Hk. apply group_keys_In in Hk.
    destruct Hk as [m [Hm Hk]]. apply key3_Some in Hk.
    destruct Hk as [Ha [Hb Hc]]. unfold Merged.customer_state in Hb.
    destruct (Merged.customer m) as [cu |] eqn:Hcu; [| discriminate].
    destruct (merged_customer_part _ _ _ _ _ Hm Hcu) as [Hin Hid].
    apply (In_values _ _ cu); [exact Hin |]. apply key3_Some.
    unfold Merged.customer_city in Hc. rewrite Hcu in Hc. cbn in Hb, Hc.
    repeat split; congruence.
  - unfold PipelineOlist.create_delivery_summary, delivery_summary_of,
           pd.groupby.
    cbn [fst]. rewrite !length_map.
    apply (group_keys_bounded _ Customer.customer_state).
    intros x st Hx Hst. apply merge_sound in Hx. destruct Hx as [_ Hcust].
    unfold delivery_state in Hst.
    destruct (snd x) as [c |]; [| discriminate].
    exists c. split; [apply Hcust | exact Hst].
Qed.

(** ** The states of the delivery summary *)

Lemma merge_complete {L R K} `{Key K} (on_l : L -> K) (on_r : R -> K)
    (left : list L) (right : list R) (l : L) (r : R) :
  In l left -> In r right -> on_r r = on_l l ->
  In (l, Some r) (pd.merge on_l on_r left right).
Proof.
  intros Hl Hr Hk. unfold pd.merge. apply in_flat_map. exists l.
  split; [exact Hl |].
  assert (Hin : In r (filter (fun r => key_eqb (on_l l) (on_r r)) right)).
  { apply filter_In. split; [exact Hr |]. now apply key_eqb_eq. }
  destruct (filter (fun r => key_eqb (on_l l) (on_r r)) right)
    as [| r0 ms]; [destruct Hin |].
  apply in_map_iff. exists r. auto.
Qed.

(** X15.  The delivery summary has exactly one row per state of a customer that
    has an order, in ascending order of the state: an order whose customer
    id is in no customer row, or whose customer has no state, is in no row
    of the summary. *)
Theorem delivery_summary_one_row_per_state :
  forall (E : Env) (orders : list Order.t) (customers : list Customer.t),
    let states :=
      map DeliverySummary.customer_state
          (fst (PipelineOlist.create_delivery_summary (RawOrders orders)
                                                      customers)) in
    NoDup states
    /\ (forall st,
          In (Some st) states <->
          exists o c, In o orders /\ In c customers
                      /\ Customer.customer_id c = Order.customer_id o
                      /\ Customer.customer_state c = Some st)
    /\ ~ In None states
    /\ Sorted (fun a b => option_leb a b = true) states.
Proof.
  intros E orders customers states.
  set (delivery_data :=
         pd.merge TimedOrder.customer_id Customer.customer_id
                  (map assign_delivery_columns orders) customers).
  assert (Hstates : states
                    = map Some (pd.group_keys delivery_state delivery_data)).
  { unfold states, PipelineOlist.create_delivery_summary,
           delivery_summary_of, pd.groupby.
    cbn [fst]. rewrite !map_map. reflexivity. }
  rewrite Hstates.
  destruct (summary_keys delivery_state delivery_data)
    as [Hnd [Hin [Hnone Hsorted]]].
  cbv zeta in *. split; [exact Hnd |]. split; [| split; assumption].
  intros st. rewrite Hin. split.
  - intros [x [Hx Hst]]. unfold delivery_data in Hx.
    apply merge_sound in Hx. destruct Hx as [Hfst Hcust].
    apply in_map_iff in Hfst. destruct Hfst as [o [Ho Hoin]].
    unfold delivery_state in Hst.
    destruct (snd x) as [c |]; [| discriminate].
    destruct Hcust as [Hc Hid]. exists o, c.
    rewrite <- Ho in Hid. cbn in Hid, Hst. auto.
  - intros [o [c [Ho [Hc [Hid Hst]]]]].
    exists (assign_delivery_columns o, Some c). split; [| exact Hst].
    apply merge_complete; [now apply in_map | exact Hc | exact Hid].
Qed.
